(** * reckshack: screen-and-webcam recorder

    A shallow embedding of the three React components of the repository

    - [Page]           src/app/page.tsx (default export [Component]),
    - [ScreenRecorder] src/components/screen-recorder.tsx,
    - [Part000]        src/unnamed/part_000 (the [ScreenRecorder] variant
                       with quality, position and size settings),

    and the properties of their recorder life cycle, of the overlay
    geometry and of the frame-compositing loop. *)

From Stdlib Require Import List Bool Arith ZArith NArith QArith Lia Lqa.
From Stdlib Require String Floats.
Import ListNotations.
Import String.StringSyntax.

Open Scope string_scope.
Open Scope Q_scope.

Set Implicit Arguments.

(** ** JavaScript numbers

    The arithmetic of the sources is the arithmetic of JavaScript's
    [number].  It is modelled by the exact rationals extended with the
    two infinities and NaN, so that division by zero behaves as in the
    language ([1/0 = Infinity], [0/0 = NaN], [Infinity * 0 = NaN]).  The
    rounding of binary64 and the sign of zero are not modelled: every
    finite operation is exact, and zero is positive zero.  What is proved
    of these numbers is an order between them, or their being NaN; where
    two results are to be the same number the rounding matters, and the
    overlay geometry is given a second time, over binary64, in module
    [Binary64] below. *)

Inductive number : Type :=
| Fin (q : Q)
| PosInf
| NegInf
| NaN.

Declare Scope number_scope.
Delimit Scope number_scope with num.
Bind Scope number_scope with number.

Definition ofN (n : N) : number := Fin (inject_Z (Z.of_N n)).

Definition nmul (a b : number) : number :=
  match a, b with
  | NaN, _ | _, NaN => NaN
  | Fin p, Fin q => Fin (p * q)
  | Fin p, PosInf | PosInf, Fin p =>
      match p ?= 0 with Gt => PosInf | Lt => NegInf | Eq => NaN end
  | Fin p, NegInf | NegInf, Fin p =>
      match p ?= 0 with Gt => NegInf | Lt => PosInf | Eq => NaN end
  | PosInf, PosInf | NegInf, NegInf => PosInf
  | PosInf, NegInf | NegInf, PosInf => NegInf
  end.

Definition ndiv (a b : number) : number :=
  match a, b with
  | NaN, _ | _, NaN => NaN
  | Fin p, Fin q =>
      match q ?= 0 with
      | Eq => match p ?= 0 with Gt => PosInf | Lt => NegInf | Eq => NaN end
      | _ => Fin (p / q)
      end
  | Fin _, PosInf | Fin _, NegInf => Fin 0
  | PosInf, Fin q => match q ?= 0 with Lt => NegInf | _ => PosInf end
  | NegInf, Fin q => match q ?= 0 with Lt => PosInf | _ => NegInf end
  | _, _ => NaN
  end.

Definition nadd (a b : number) : number :=
  match a, b with
  | NaN, _ | _, NaN => NaN
  | Fin p, Fin q => Fin (p + q)
  | PosInf, NegInf | NegInf, PosInf => NaN
  | PosInf, _ | _, PosInf => PosInf
  | NegInf, _ | _, NegInf => NegInf
  end.

Definition nneg (a : number) : number :=
  match a with
  | Fin p => Fin (- p)
  | PosInf => NegInf
  | NegInf => PosInf
  | NaN => NaN
  end.

Definition nsub (a b : number) : number := nadd a (nneg b).

(** [a <= b] of the language: false as soon as one side is NaN. *)
Definition nle (a b : number) : bool :=
  match a, b with
  | NaN, _ | _, NaN => false
  | Fin p, Fin q => Qle_bool p q
  | NegInf, _ | _, PosInf => true
  | _, _ => false
  end.

Definition nmin (a b : number) : number :=
  match a, b with
  | NaN, _ | _, NaN => NaN
  | _, _ => if nle a b then a else b
  end.

Infix "*" := nmul : number_scope.
Infix "/" := ndiv : number_scope.
Infix "+" := nadd : number_scope.
Infix "-" := nsub : number_scope.
Infix "<=?" := nle : number_scope.

(** Two numbers denote the same value: the same rational, the same
    infinity, or both NaN. *)
Definition same (a b : number) : Prop :=
  match a, b with
  | Fin p, Fin q => p == q
  | PosInf, PosInf | NegInf, NegInf | NaN, NaN => True
  | _, _ => False
  end.

(** ** Overlay geometry

    [combineVideos] of page.tsx (lines 186-190) and of part_000 (lines
    169-173) place the webcam picture with the same four lines.
    [overlayGeometry] reads them in exact arithmetic;
    [Binary64.overlayGeometry] reads them as the browser computes them. *)

Record Overlay : Type := mkOverlay {
  webcamWidth : number;
  webcamHeight : number;
  webcamX : number;
  webcamY : number
}.

Record Position : Type := mkPosition { pos_x : number; pos_y : number }.

Definition overlayGeometry (width height : number) (webcamSize : number)
    (webcamPosition : Position) (videoWidth videoHeight : number) : Overlay :=
  let webcamWidth := ((webcamSize / Fin 100) * width)%num in
  let webcamHeight := ((webcamWidth / videoWidth) * videoHeight)%num in
  let webcamX :=
    ((pos_x webcamPosition / Fin 100) * (width - webcamWidth))%num in
  let webcamY :=
    ((pos_y webcamPosition / Fin 100) * (height - webcamHeight))%num in
  mkOverlay webcamWidth webcamHeight webcamX webcamY.

(** The linear map of the specification, in its words: the width is the
    size percentage of the canvas width, the height is the width scaled
    by the height-to-width aspect ratio of the webcam video, and the
    position percentages are taken of the room left in each direction. *)
Definition linearOverlay (w h : number) (s x y : number)
    (videoWidth videoHeight : number) : Overlay :=
  let aspect := (videoHeight / videoWidth)%num in
  let ww := ((s / Fin 100) * w)%num in
  let wh := (ww * aspect)%num in
  mkOverlay ww wh ((x / Fin 100) * (w - ww))%num ((y / Fin 100) * (h - wh))%num.


(** The overlay rectangle lies within a canvas of the given size. *)
Definition withinCanvas (w h : number) (g : Overlay) : Prop :=
  (Fin 0 <=? webcamX g)%num = true /\
  (webcamX g + webcamWidth g <=? w)%num = true /\
  (Fin 0 <=? webcamY g)%num = true /\
  (webcamY g + webcamHeight g <=? h)%num = true.

(** ** Host objects

    The browser objects the components hold: tracks and streams, blobs
    and object URLs, video elements, recorders and animation-frame
    callbacks. *)

Inductive TrackKind : Type := VideoTrack | AudioTrack.

Record Track : Type := mkTrack { trackId : nat; kind : TrackKind }.

(** A [MediaStream] is the list its [getTracks()] returns. *)
Definition MediaStream : Type := list Track.

Definition isVideo (t : Track) : bool :=
  match kind t with VideoTrack => true | AudioTrack => false end.

Definition isAudio (t : Track) : bool :=
  match kind t with AudioTrack => true | VideoTrack => false end.

Definition getVideoTracks (s : MediaStream) : list Track := filter isVideo s.
Definition getAudioTracks (s : MediaStream) : list Track := filter isAudio s.

(** A blob is its bytes; [new Blob(parts, ...)] concatenates the parts. *)
Definition Blob : Type := list N.

Definition newBlob (parts : list Blob) : Blob := concat parts.

(** [URL.createObjectURL(blob)]: the URL stands for the blob it serves. *)
Inductive Url : Type := ObjectURL (b : Blob).

Inductive VideoQuality : Type := q480p | q720p | q1080p | q1440p | q2160p.

Record Size : Type := mkSize { width : N; height : N }.

(** The table of page.tsx (lines 30-38) and of part_000 (lines 20-28). *)
Definition videoQualities (q : VideoQuality) : Size :=
  match q with
  | q480p => mkSize 854 480
  | q720p => mkSize 1280 720
  | q1080p => mkSize 1920 1080
  | q1440p => mkSize 2560 1440
  | q2160p => mkSize 3840 2160
  end.

(** The settings a callback closes over: [videoQuality], [webcamPosition]
    and [webcamSize] (a percentage of the canvas width). *)
Record Settings : Type := mkSettings {
  videoQuality : VideoQuality;
  webcamPosition : Position;
  webcamSize : number
}.

(** ** Overlay geometry in binary64

    A JavaScript [number] is a binary64 floating-point number, and every
    operation on it is rounded to the nearest one.  The four lines of
    [combineVideos] are read here over the binary64 numbers of the
    kernel, operation by operation. *)

Module Binary64.

Import PrimFloat.PrimFloatNotations.

Definition number : Type := PrimFloat.float.

(** The number of an integer literal or an integer attribute of the
    sources; exact below [2^53]. *)
Definition ofN (n : N) : number :=
  PrimFloat.of_uint63 (Uint63.of_Z (Z.of_N n)).

Record Overlay : Type := mkOverlay {
  webcamWidth : number;
  webcamHeight : number;
  webcamX : number;
  webcamY : number
}.

Record Position : Type := mkPosition { pos_x : number; pos_y : number }.

(** page.tsx, lines 186-190, and part_000, lines 169-173. *)
Definition overlayGeometry (width height : number) (webcamSize : number)
    (webcamPosition : Position) (videoWidth videoHeight : number) : Overlay :=
  let webcamWidth := ((webcamSize / ofN 100) * width)%float in
  let webcamHeight := ((webcamWidth / videoWidth) * videoHeight)%float in
  let webcamX :=
    ((pos_x webcamPosition / ofN 100) * (width - webcamWidth))%float in
  let webcamY :=
    ((pos_y webcamPosition / ofN 100) * (height - webcamHeight))%float in
  mkOverlay webcamWidth webcamHeight webcamX webcamY.

(** The linear map of the specification, in its words, over binary64:
    the height is the width scaled by the height-to-width aspect ratio
    of the webcam video. *)
Definition linearOverlay (w h : number) (s x y : number)
    (videoWidth videoHeight : number) : Overlay :=
  let aspect := (videoHeight / videoWidth)%float in
  let ww := ((s / ofN 100) * w)%float in
  let wh := (ww * aspect)%float in
  mkOverlay ww wh ((x / ofN 100) * (w - ww))%float
    ((y / ofN 100) * (h - wh))%float.

(** [a === b] *)
Definition strictEq (a b : number) : bool := PrimFloat.eqb a b.



(** The values of the sliders of the page (page.tsx, lines 367-399) and
    of part_000 (lines 273-303): the size runs from 10 to 50, a
    position from 0 to 100, in steps of 1. *)
Definition sliderSizes : list N := map N.of_nat (seq 10 41).

Definition qualities : list VideoQuality :=
  [q480p; q720p; q1080p; q1440p; q2160p].

(** The overlay of [combineVideos] and the linear map of the
    specification for one setting of the controls, on the canvas of
    quality [q] and a webcam video of the size of quality [v]. *)
Definition computed (q v : VideoQuality) (s x y : N) : Overlay :=
  overlayGeometry (ofN (width (videoQualities q)))
    (ofN (height (videoQualities q))) (ofN s) (mkPosition (ofN x) (ofN y))
    (ofN (width (videoQualities v))) (ofN (height (videoQualities v))).



(** At the ends of the position sliders, on every setting of the size
    slider: at 0 the left edge and the top of the overlay are 0, at 100
    they are the width (height) of the canvas less that of the
    overlay. *)
Definition edgeToEdgeOnSliders : bool :=
  forallb (fun q =>
    forallb (fun v =>
      forallb (fun s =>
        let w := ofN (width (videoQualities q)) in
        let h := ofN (height (videoQualities q)) in
        strictEq (webcamX (computed q v s 0 0)) (ofN 0)
        && strictEq (webcamY (computed q v s 0 0)) (ofN 0)
        && strictEq (webcamX (computed q v s 100 100))
             (w - webcamWidth (computed q v s 100 100))%float
        && strictEq (webcamY (computed q v s 100 100))
             (h - webcamHeight (computed q v s 100 100))%float)
        sliderSizes)
      qualities)
    qualities.

End Binary64.

(** The video elements: the two previews of the page ([screenVideoRef],
    [webcamVideoRef]) and the two detached elements [combineVideos] plays
    the recordings in ([screenVideo], [webcamVideo]). *)
Inductive VideoElement : Type :=
| screenPreview | webcamPreview | screenVideo | webcamVideo.

(** What [loadedmetadata] announces for a video element. *)
Record VideoMeta : Type := mkMeta { videoWidth : N; videoHeight : N }.

(** The two attributes [drawFrame] reads of the screen video. *)
Record VideoStatus : Type := mkStatus { vpaused : bool; vended : bool }.

Definition RecorderId : Type := nat.
Bind Scope nat_scope with RecorderId.

(** What [drawFrame] closes over: the canvas size, the rectangle of the
    webcam picture and the recorder of the canvas stream. *)
Record DrawClosure : Type := mkDraw {
  canvasWidth : number;
  canvasHeight : number;
  rect : Overlay;
  combinedRecorder : RecorderId
}.

Inductive FrameCallback : Type :=
| DrawFrame (c : DrawClosure)
| CheckAudio.

(** The [ondataavailable] handlers of the three files. *)
Inductive DataHandler : Type :=
| PushChunk               (* (e) => chunks.push(e.data) *)
| PublishScreenChunk      (* push, then setScreenRecordingUrl *)
| PublishWebcamChunk.     (* push, then setWebcamRecordingUrl *)

(** The [onstop] handlers of the three files. *)
Inductive StopHandler : Type :=
| CombineRecordings (scope : Settings) (webcam : RecorderId)
    (* page.tsx 128-132 *)
| PublishCombinedIdle
    (* page.tsx 199-203: publish the URL, back to idle *)
| StopFinalRecorder (final : RecorderId)
    (* page.tsx 249 *)
| PublishFinal
    (* page.tsx 242-246 *)
| PublishCombined.
    (* screen-recorder.tsx 150-153, part_000 182-185 *)

(** A recorder.  [running] holds from [start()] until the [stop] event
    has been dispatched; [chunks] is the array its [ondataavailable]
    handler pushes to ([screenChunks], [webcamChunks], [combinedChunks],
    [finalChunks]). *)
Record MediaRecorder : Type := mkRecorder {
  stream : MediaStream;
  mimeType : option String.string;
  running : bool;
  ondataavailable : option DataHandler;
  onstop : option StopHandler;
  chunks : list Blob
}.

Inductive ToastTitle : Type :=
| PermissionsGranted      (* "Permissions granted" *)
| PermissionDenied        (* "Permission denied", variant destructive *)
| RecordingStopped.       (* "Recording stopped" *)

Inductive AudioNode : Type :=
| StreamSource (s : MediaStream)
| ElementSource (v : VideoElement)
| Analyser
| Destination.

(** The calls a component makes on the browser, in the order made. *)
Inductive Effect : Type :=
| GetDisplayMedia (constraints : option Size)
| GetUserMedia (constraints : option Size)
| SetSrcObject (v : VideoElement) (s : MediaStream)
| Toast (t : ToastTitle)
| ConsoleError (message : String.string)
| NewMediaRecorder (r : RecorderId) (s : MediaStream) (mime : option String.string)
| RecorderStart (r : RecorderId) (timeslice : option N)
| RecorderPause (r : RecorderId)
| RecorderResume (r : RecorderId)
| RecorderStop (r : RecorderId)
| TrackStop (t : Track)
| RequestAnimationFrame (id : nat) (cb : FrameCallback)
| CancelAnimationFrame (id : nat)
| CreateVideo (v : VideoElement)
| CreateObjectURL (b : Blob)
| SetVideoSrc (v : VideoElement) (u : Url)
| CreateCanvas
| GetContext2d
| ResizeCanvas (w h : number)
| CaptureStream
| DrawImage (v : VideoElement) (dx dy dw dh : number)
| PlayVideo (v : VideoElement)
| NewAudioContext
| CreateMediaStreamSource (s : MediaStream)
| CreateAnalyser
| CreateMediaElementSource (v : VideoElement)
| CreateMediaStreamDestination
| AudioConnect (source target : AudioNode)
| NewMediaStream (tracks : list Track)
| GetByteFrequencyData.

(** The part of the browser the components act on: every recorder
    constructed so far (a recorder's id is its index), the pending
    animation-frame callbacks, the next callback id and the calls made. *)
Record Host : Type := mkHost {
  recorders : list MediaRecorder;
  frames : list (nat * FrameCallback);
  nextFrame : nat;
  trace : list Effect
}.

Definition initialHost : Host := mkHost [] [] 1 [].

(** *** What the browser decides

    A callback is run to its end in one step: what it awaits, and what
    it reads of the browser, is given to it as an argument.  The calls
    that can fail are the ones the sources provide for, the two capture
    requests (a rejected promise, caught by [requestPermissions]) and the
    request for a 2d context (a null result, tested by [combineVideos]);
    every other call is taken to succeed. *)

(** The outcome of the two capture requests; [None] is a rejected
    promise. *)
Record Capture : Type := mkCapture {
  displayMedia : option MediaStream;
  userMedia : option MediaStream
}.

(** What [combineVideos] meets: the metadata of the two recordings
    ([None] when [loadedmetadata] never fires), whether the canvas has a
    2d context, the stream of the canvas, the state of the screen video
    right after [play()], and the stream of the audio destination. *)
Record Playback : Type := mkPlayback {
  metadata : option (VideoMeta * VideoMeta);
  context2d : bool;
  canvasStream : MediaStream;
  firstStatus : VideoStatus;
  destinationStream : MediaStream
}.

(** *** Operations on the host *)

Fixpoint adjust {A : Type} (f : A -> A) (i : nat) (l : list A) : list A :=
  match l, i with
  | [], _ => []
  | x :: l', O => f x :: l'
  | x :: l', S i' => x :: adjust f i' l'
  end.

Definition emit (e : Effect) (h : Host) : Host :=
  mkHost (recorders h) (frames h) (nextFrame h) (trace h ++ [e]).

Definition updateRecorder (r : RecorderId) (f : MediaRecorder -> MediaRecorder)
    (h : Host) : Host :=
  mkHost (adjust f r (recorders h)) (frames h) (nextFrame h) (trace h).

(** [new MediaRecorder(stream, { mimeType })] *)
Definition newMediaRecorder (s : MediaStream) (mime : option String.string)
    (h : Host) : RecorderId * Host :=
  let r := length (recorders h) in
  (r, emit (NewMediaRecorder r s mime)
        (mkHost (recorders h ++ [mkRecorder s mime false None None []])
           (frames h) (nextFrame h) (trace h))).

Definition setOndataavailable (r : RecorderId) (d : DataHandler) : Host -> Host :=
  updateRecorder r (fun m =>
    mkRecorder (stream m) (mimeType m) (running m) (Some d) (onstop m) (chunks m)).

Definition setOnstop (r : RecorderId) (s : StopHandler) : Host -> Host :=
  updateRecorder r (fun m =>
    mkRecorder (stream m) (mimeType m) (running m) (ondataavailable m) (Some s)
      (chunks m)).

Definition setRunning (b : bool) (r : RecorderId) : Host -> Host :=
  updateRecorder r (fun m =>
    mkRecorder (stream m) (mimeType m) b (ondataavailable m) (onstop m) (chunks m)).

Definition pushChunk (r : RecorderId) (data : Blob) : Host -> Host :=
  updateRecorder r (fun m =>
    mkRecorder (stream m) (mimeType m) (running m) (ondataavailable m) (onstop m)
      (chunks m ++ [data])).

Definition recorderStart (r : RecorderId) (timeslice : option N) (h : Host) : Host :=
  emit (RecorderStart r timeslice) (setRunning true r h).

(** [stop()] has been called on recorder [r]. *)
Definition stopCalled (r : RecorderId) (es : list Effect) : bool :=
  existsb (fun e => match e with
                    | RecorderStop r' => Nat.eqb r' r
                    | _ => false
                    end) es.

(** The [state] of a recorder is ["inactive"]: before [start()], from
    the call of [stop()] on (the recorder is inactivated at once, its
    [stop] event follows later), and once the browser has ended the
    recording and dispatched the [stop] event. *)
Definition inactive (r : RecorderId) (h : Host) : bool :=
  match nth_error (recorders h) r with
  | Some m => negb (running m) || stopCalled r (trace h)
  | None => true
  end.

(** [pause()] and [resume()] throw an InvalidStateError on an inactive
    recorder: [None].  On an active one they are calls on the recorder. *)
Definition recorderPause (r : RecorderId) (h : Host) : option Host :=
  if inactive r h then None else Some (emit (RecorderPause r) h).

Definition recorderResume (r : RecorderId) (h : Host) : option Host :=
  if inactive r h then None else Some (emit (RecorderResume r) h).

(** [stop()] is a call on the recorder; the [stop] event it leads to is
    dispatched later, by the browser. *)
Definition recorderStop (r : RecorderId) : Host -> Host := emit (RecorderStop r).

Definition requestAnimationFrame (cb : FrameCallback) (h : Host) : nat * Host :=
  let id := nextFrame h in
  (id, emit (RequestAnimationFrame id cb)
         (mkHost (recorders h) (frames h ++ [(id, cb)]) (S id) (trace h))).

Definition cancelAnimationFrame (id : nat) (h : Host) : Host :=
  emit (CancelAnimationFrame id)
    (mkHost (recorders h)
       (filter (fun f => negb (Nat.eqb (fst f) id)) (frames h))
       (nextFrame h) (trace h)).

(** The callback the browser is about to run, taken off the pending
    list. *)
Definition takeFrame (id : nat) (h : Host) : option FrameCallback * Host :=
  match find (fun f => Nat.eqb (fst f) id) (frames h) with
  | Some f =>
      (Some (snd f),
       mkHost (recorders h)
         (filter (fun f => negb (Nat.eqb (fst f) id)) (frames h))
         (nextFrame h) (trace h))
  | None => (None, h)
  end.

(** [stream.getTracks().forEach((track) => track.stop())] *)
Definition stopTracks (s : MediaStream) (h : Host) : Host :=
  fold_left (fun h t => emit (TrackStop t) h) s h.

(** [drawFrame], the same in the three files (page.tsx 207-216,
    screen-recorder.tsx 157-166, part_000 189-198): the screen frame over
    the whole canvas, the webcam frame over it, then either the next
    frame is requested or the recorder of the canvas is stopped. *)
Definition drawFrame (c : DrawClosure) (s : VideoStatus) (h : Host) : Host :=
  let h := emit (DrawImage screenVideo (Fin 0) (Fin 0)
                   (canvasWidth c) (canvasHeight c)) h in
  let h := emit (DrawImage webcamVideo (webcamX (rect c)) (webcamY (rect c))
                   (webcamWidth (rect c)) (webcamHeight (rect c))) h in
  if negb (vpaused s) && negb (vended s)
  then snd (requestAnimationFrame (DrawFrame c) h)
  else recorderStop (combinedRecorder c) h.

(** The loop as the browser drives it: one status of the screen video
    per animation frame; [None] when the statuses run out before the
    loop has stopped. *)
Fixpoint drawLoop (c : DrawClosure) (statuses : list VideoStatus) (h : Host)
    : option Host :=
  match statuses with
  | [] => None
  | s :: rest =>
      let h' := drawFrame c s h in
      if negb (vpaused s) && negb (vended s)
      then drawLoop c rest (snd (takeFrame (nextFrame h) h'))
      else Some h'
  end.

(** ** A state monad for the callbacks *)

Section StateMonad.
Variable W : Type.

Definition M (A : Type) : Type := W -> A * W.

Definition ret {A : Type} (a : A) : M A := fun w => (a, w).

Definition bind {A B : Type} (m : M A) (k : A -> M B) : M B :=
  fun w => let (a, w') := m w in k a w'.

Definition get : M W := fun w => (w, w).

Definition modify (f : W -> W) : M unit := fun w => (tt, f w).

Definition exec {A : Type} (m : M A) (w : W) : W := snd (m w).
End StateMonad.

Arguments ret {W A} a.
Arguments bind {W A B} m k.
Arguments get {W}.
Arguments modify {W} f.
Arguments exec {W A} m w.

Declare Scope monad_scope.
Delimit Scope monad_scope with monad.
Notation "x <- m ;; k" := (bind m (fun x => k))
  (at level 100, m at next level, right associativity) : monad_scope.
Notation "m ;; k" := (bind m (fun _ => k))
  (at level 100, right associativity) : monad_scope.

(** JavaScript's test of a number in a condition: zero is false. *)
Definition truthy (id : nat) : bool := negb (Nat.eqb id 0).

(** [a > b] of the language. *)
Definition ngt (a b : number) : bool :=
  match a, b with
  | NaN, _ | _, NaN => false
  | _, _ => negb (nle a b)
  end.

Definition vp9 : option String.string := Some "video/webm; codecs=vp9".

(** ** src/app/page.tsx *)

Module Page.

Inductive RecordingState : Type := idle | recording | paused | processing.

(** The [useState] cells (lines 41-52). *)
Record State : Type := mkState {
  recordingState : RecordingState;
  combinedRecordingUrl : option Url;
  settings : Settings;
  webcamBorderRadius : number;
  showPreview : bool;
  isVoiceDetected : bool
}.

(** The [useRef] cells (lines 56-61).  The two references to the
    preview elements, [screenVideoRef] and [webcamVideoRef], are set
    exactly while the previews are rendered, that is while
    [showPreview] holds (lines 467-484). *)
Record Refs : Type := mkRefs {
  screenStreamRef : option MediaStream;
  webcamStreamRef : option MediaStream;
  screenRecorderRef : option RecorderId;
  webcamRecorderRef : option RecorderId;
  audioAnalyserRef : option AudioNode;
  animationFrameRef : option nat
}.

Record World : Type := mkWorld { state : State; refs : Refs; host : Host }.

Definition initialState : State :=
  mkState idle None
    (mkSettings q1080p (mkPosition (Fin 5) (Fin 80)) (Fin 17))
    (Fin 25) false false.

Definition initialRefs : Refs := mkRefs None None None None None None.

Definition initial : World := mkWorld initialState initialRefs initialHost.

Local Open Scope monad_scope.

Definition onHost (f : Host -> Host) : M World unit :=
  modify (fun w => mkWorld (state w) (refs w) (f (host w))).

Definition fromHost {A : Type} (f : Host -> A * Host) : M World A :=
  fun w => let (a, h) := f (host w) in (a, mkWorld (state w) (refs w) h).

Definition onState (f : State -> State) : M World unit :=
  modify (fun w => mkWorld (f (state w)) (refs w) (host w)).

Definition onRefs (f : Refs -> Refs) : M World unit :=
  modify (fun w => mkWorld (state w) (f (refs w)) (host w)).

Definition setRecordingState (s : RecordingState) : M World unit :=
  onState (fun st =>
    mkState s (combinedRecordingUrl st) (settings st)
      (webcamBorderRadius st) (showPreview st) (isVoiceDetected st)).

Definition setCombinedRecordingUrl (u : option Url) : M World unit :=
  onState (fun st =>
    mkState (recordingState st) u (settings st)
      (webcamBorderRadius st) (showPreview st) (isVoiceDetected st)).

Definition setIsVoiceDetected (b : bool) : M World unit :=
  onState (fun st =>
    mkState (recordingState st) (combinedRecordingUrl st) (settings st)
      (webcamBorderRadius st) (showPreview st) b).

Definition setStreamRefs (screen webcam : MediaStream) : M World unit :=
  onRefs (fun r =>
    mkRefs (Some screen) (Some webcam) (screenRecorderRef r)
      (webcamRecorderRef r) (audioAnalyserRef r) (animationFrameRef r)).

Definition setRecorderRefs (screen webcam : RecorderId) : M World unit :=
  onRefs (fun r =>
    mkRefs (screenStreamRef r) (webcamStreamRef r) (Some screen)
      (Some webcam) (audioAnalyserRef r) (animationFrameRef r)).

Definition setAudioAnalyserRef (a : AudioNode) : M World unit :=
  onRefs (fun r =>
    mkRefs (screenStreamRef r) (webcamStreamRef r) (screenRecorderRef r)
      (webcamRecorderRef r) (Some a) (animationFrameRef r)).

Definition setAnimationFrameRef (id : nat) : M World unit :=
  onRefs (fun r =>
    mkRefs (screenStreamRef r) (webcamStreamRef r) (screenRecorderRef r)
      (webcamRecorderRef r) (audioAnalyserRef r) (Some id)).

Definition when (b : bool) (m : M World unit) : M World unit :=
  if b then m else ret tt.

(** The [catch] of [requestPermissions] (lines 96-105). *)
Definition permissionDenied : M World bool :=
  onHost (emit (ConsoleError "Error requesting permissions:")) ;;
  onHost (emit (Toast PermissionDenied)) ;;
  ret false.

(** [requestPermissions] (lines 63-106); it closes over
    [videoQuality].  The two awaited requests are the calls that can
    fail; the constructors of the audio graph are taken to succeed. *)
Definition requestPermissions (scope : Settings) (c : Capture) : M World bool :=
  let size := videoQualities (videoQuality scope) in
  onHost (emit (GetDisplayMedia (Some size))) ;;
  match displayMedia c with
  | None => permissionDenied
  | Some screenStream =>
      onHost (emit (GetUserMedia (Some size))) ;;
      match userMedia c with
      | None => permissionDenied
      | Some webcamStream =>
          setStreamRefs screenStream webcamStream ;;
          w <- get ;;
          when (showPreview (state w))
            (onHost (emit (SetSrcObject screenPreview screenStream))) ;;
          when (showPreview (state w))
            (onHost (emit (SetSrcObject webcamPreview webcamStream))) ;;
          onHost (emit NewAudioContext) ;;
          onHost (emit (CreateMediaStreamSource webcamStream)) ;;
          onHost (emit CreateAnalyser) ;;
          onHost (emit (AudioConnect (StreamSource webcamStream) Analyser)) ;;
          setAudioAnalyserRef Analyser ;;
          onHost (emit (Toast PermissionsGranted)) ;;
          ret true
      end
  end.

(** The mean of the frequency bytes, as [reduce] and the division
    compute it (line 287).  The array has [frequencyBinCount] entries
    and is never empty. *)
Definition average (data : list N) : number :=
  (ofN (fold_left N.add data 0%N) / ofN (N.of_nat (length data)))%num.

(** [checkAudio] (lines 285-291), on the bytes the analyser delivers. *)
Definition checkAudio (data : list N) : M World unit :=
  onHost (emit GetByteFrequencyData) ;;
  setIsVoiceDetected (ngt (average data) (Fin 10)) ;;
  id <- fromHost (requestAnimationFrame CheckAudio) ;;
  setAnimationFrameRef id.

(** [detectVoice] (lines 278-294) *)
Definition detectVoice (data : list N) : M World unit :=
  w <- get ;;
  match audioAnalyserRef (refs w) with
  | None => ret tt
  | Some _ => checkAudio data
  end.

(** [startRecording] (lines 108-141).  [scope] holds the settings its
    closure, and the [combineVideos] it installs, were created with;
    the chunk arrays start empty with the recorders. *)
Definition startRecording (scope : Settings) (c : Capture) (data : list N)
    : M World unit :=
  permissionsGranted <- requestPermissions scope c ;;
  if negb permissionsGranted then ret tt else
  w <- get ;;
  match screenStreamRef (refs w), webcamStreamRef (refs w) with
  | Some screenStream, Some webcamStream =>
      screenRecorder <- fromHost (newMediaRecorder screenStream vp9) ;;
      webcamRecorder <- fromHost (newMediaRecorder webcamStream vp9) ;;
      setRecorderRefs screenRecorder webcamRecorder ;;
      onHost (setOndataavailable screenRecorder PushChunk) ;;
      onHost (setOndataavailable webcamRecorder PushChunk) ;;
      onHost (setOnstop screenRecorder (CombineRecordings scope webcamRecorder)) ;;
      onHost (recorderStart screenRecorder (Some 1000%N)) ;;
      onHost (recorderStart webcamRecorder (Some 1000%N)) ;;
      setRecordingState recording ;;
      detectVoice data
  | _, _ => ret tt (* not taken: [requestPermissions] has set both *)
  end.

(** A call that throws ends the callback: what follows it is not
    run.  The callbacks catch nothing here, so the world is as the
    calls before it left it. *)
Definition orThrow (call : Host -> option Host) (next : M World unit)
    : M World unit :=
  fun w =>
    match call (host w) with
    | Some h => next (mkWorld (state w) (refs w) h)
    | None => (tt, w)
    end.

(** [pauseRecording] (lines 143-149) *)
Definition pauseRecording : M World unit :=
  w <- get ;;
  match screenRecorderRef (refs w), webcamRecorderRef (refs w) with
  | Some screenRecorder, Some webcamRecorder =>
      orThrow (recorderPause screenRecorder)
        (orThrow (recorderPause webcamRecorder)
           (setRecordingState paused))
  | _, _ => ret tt
  end.

(** [resumeRecording] (lines 151-157) *)
Definition resumeRecording : M World unit :=
  w <- get ;;
  match screenRecorderRef (refs w), webcamRecorderRef (refs w) with
  | Some screenRecorder, Some webcamRecorder =>
      orThrow (recorderResume screenRecorder)
        (orThrow (recorderResume webcamRecorder)
           (setRecordingState recording))
  | _, _ => ret tt
  end.

(** [combineVideos] (lines 159-252); it closes over [videoQuality],
    [webcamPosition] and [webcamSize]. *)
Definition combineVideos (scope : Settings) (screenBlob webcamBlob : Blob)
    (p : Playback) : M World unit :=
  setRecordingState processing ;;
  onHost (emit (CreateVideo screenVideo)) ;;
  onHost (emit (CreateVideo webcamVideo)) ;;
  onHost (emit (CreateObjectURL screenBlob)) ;;
  onHost (emit (SetVideoSrc screenVideo (ObjectURL screenBlob))) ;;
  onHost (emit (CreateObjectURL webcamBlob)) ;;
  onHost (emit (SetVideoSrc webcamVideo (ObjectURL webcamBlob))) ;;
  match metadata p with
  | None => ret tt
  | Some (_, webcamMeta) =>
      onHost (emit CreateCanvas) ;;
      onHost (emit GetContext2d) ;;
      if negb (context2d p)
      then onHost (emit (ConsoleError "Unable to create canvas context"))
      else
        let size := videoQualities (videoQuality scope) in
        let width := ofN (width size) in
        let height := ofN (height size) in
        onHost (emit (ResizeCanvas width height)) ;;
        let geometry :=
          overlayGeometry width height (webcamSize scope)
            (webcamPosition scope)
            (ofN (videoWidth webcamMeta)) (ofN (videoHeight webcamMeta)) in
        onHost (emit CaptureStream) ;;
        combinedRecorder <- fromHost (newMediaRecorder (canvasStream p) vp9) ;;
        onHost (setOndataavailable combinedRecorder PushChunk) ;;
        onHost (setOnstop combinedRecorder PublishCombinedIdle) ;;
        onHost (recorderStart combinedRecorder None) ;;
        onHost (emit (PlayVideo screenVideo)) ;;
        onHost (emit (PlayVideo webcamVideo)) ;;
        onHost (drawFrame (mkDraw width height geometry combinedRecorder)
                  (firstStatus p)) ;;
        (* Combine audio tracks *)
        onHost (emit NewAudioContext) ;;
        onHost (emit (CreateMediaElementSource screenVideo)) ;;
        onHost (emit (CreateMediaElementSource webcamVideo)) ;;
        onHost (emit CreateMediaStreamDestination) ;;
        onHost (emit (AudioConnect (ElementSource screenVideo) Destination)) ;;
        onHost (emit (AudioConnect (ElementSource webcamVideo) Destination)) ;;
        let combinedStream :=
          getVideoTracks (canvasStream p)
            ++ getAudioTracks (destinationStream p) in
        onHost (emit (NewMediaStream combinedStream)) ;;
        finalRecorder <- fromHost (newMediaRecorder combinedStream vp9) ;;
        onHost (setOndataavailable finalRecorder PushChunk) ;;
        onHost (setOnstop finalRecorder PublishFinal) ;;
        onHost (recorderStart finalRecorder None) ;;
        onHost (setOnstop combinedRecorder (StopFinalRecorder finalRecorder))
  end.

(** [stopRecording] (lines 254-276) *)
Definition stopRecording : M World unit :=
  w <- get ;;
  match screenRecorderRef (refs w), webcamRecorderRef (refs w) with
  | Some screenRecorder, Some webcamRecorder =>
      onHost (recorderStop screenRecorder) ;;
      onHost (recorderStop webcamRecorder) ;;
      match screenStreamRef (refs w) with
      | Some s => onHost (stopTracks s)
      | None => ret tt
      end ;;
      match webcamStreamRef (refs w) with
      | Some s => onHost (stopTracks s)
      | None => ret tt
      end ;;
      (* Stop voice detection *)
      match animationFrameRef (refs w) with
      | Some id => when (truthy id) (onHost (cancelAnimationFrame id))
      | None => ret tt
      end ;;
      onHost (emit (Toast RecordingStopped))
  | _, _ => ret tt
  end.

(** The cleanup of the first [useEffect] (lines 296-308), run when the
    component unmounts. *)
Definition cleanup : M World unit :=
  w <- get ;;
  match screenStreamRef (refs w) with
  | Some s => onHost (stopTracks s)
  | None => ret tt
  end ;;
  match webcamStreamRef (refs w) with
  | Some s => onHost (stopTracks s)
  | None => ret tt
  end ;;
  match animationFrameRef (refs w) with
  | Some id => when (truthy id) (onHost (cancelAnimationFrame id))
  | None => ret tt
  end.

(** *** The events of the browser *)

Definition recorder (r : RecorderId) (w : World) : option MediaRecorder :=
  nth_error (recorders (host w)) r.

Definition chunksOf (r : RecorderId) (w : World) : list Blob :=
  match recorder r w with
  | Some m => chunks m
  | None => []
  end.

(** A [dataavailable] event on recorder [r]. *)
Definition onDataAvailable (r : RecorderId) (data : Blob) : M World unit :=
  w <- get ;;
  match recorder r w with
  | Some m =>
      if running m then
        match ondataavailable m with
        | Some PushChunk => onHost (pushChunk r data)
        | _ => ret tt
        end
      else ret tt
  | None => ret tt
  end.

(** The [onstop] handlers the page installs (lines 128-132, 199-203,
    242-246 and 249).  The handler of the screen recorder builds both
    blobs from the chunks the two arrays hold at that time. *)
Definition runStopHandler (m : MediaRecorder) (p : Playback) : M World unit :=
  match onstop m with
  | Some (CombineRecordings scope webcamRecorder) =>
      w <- get ;;
      let screenBlob := newBlob (chunks m) in
      let webcamBlob := newBlob (chunksOf webcamRecorder w) in
      combineVideos scope screenBlob webcamBlob p
  | Some PublishCombinedIdle =>
      let combinedBlob := newBlob (chunks m) in
      onHost (emit (CreateObjectURL combinedBlob)) ;;
      setCombinedRecordingUrl (Some (ObjectURL combinedBlob)) ;;
      setRecordingState idle
  | Some (StopFinalRecorder finalRecorder) =>
      onHost (recorderStop finalRecorder)
  | Some PublishFinal =>
      let finalBlob := newBlob (chunks m) in
      onHost (emit (CreateObjectURL finalBlob)) ;;
      setCombinedRecordingUrl (Some (ObjectURL finalBlob)) ;;
      setRecordingState idle
  | Some PublishCombined => ret tt (* the page installs no such handler *)
  | None => ret tt
  end.

(** The [stop] event of recorder [r]: dispatched once, to the handler
    the recorder has at that time. *)
Definition onStop (r : RecorderId) (p : Playback) : M World unit :=
  w <- get ;;
  match recorder r w with
  | Some m =>
      if running m
      then onHost (setRunning false r) ;; runStopHandler m p
      else ret tt
  | None => ret tt
  end.

(** The animation frame that runs callback [id]. *)
Definition onAnimationFrame (id : nat) (s : VideoStatus) (data : list N)
    : M World unit :=
  cb <- fromHost (takeFrame id) ;;
  match cb with
  | Some (DrawFrame c) => onHost (drawFrame c s)
  | Some CheckAudio => checkAudio data
  | None => ret tt
  end.

(** *** The page as a transition system *)

(** What can happen to the mounted page: the buttons and controls of
    its JSX (lines 345-454) and the events of the browser.  Each
    callback runs to its end before the next event is taken.  The
    [scope] of a click on Start Recording is the settings of the render
    that created the memoized [startRecording]: its dependency list
    (line 141) does not follow [webcamPosition] and [webcamSize], so
    they need not be the current ones; any settings are allowed
    here.  The browser may report data or the stop of any running
    recorder, and run any pending callback, at any time. *)
Inductive Event : Type :=
| ClickStart (scope : Settings) (c : Capture) (data : list N)
| ClickPause
| ClickResume
| ClickStop
| ChangeSettings (s : Settings) (radius : number) (preview : bool)
| DataAvailable (r : RecorderId) (data : Blob)
| Stopped (r : RecorderId) (p : Playback)
| AnimationFrame (id : nat) (s : VideoStatus) (data : list N).

Definition isRecording (w : World) : bool :=
  match recordingState (state w) with
  | recording | paused => true
  | _ => false
  end.

(** The button of an event is rendered and enabled (lines 351-453);
    the events of the browser need no button. *)
Definition enabled (e : Event) (w : World) : bool :=
  match e with
  | ClickStart _ _ _ =>
      match recordingState (state w) with idle => true | _ => false end
  | ClickPause =>
      match recordingState (state w) with recording => true | _ => false end
  | ClickResume =>
      match recordingState (state w) with paused => true | _ => false end
  | ClickStop =>
      match recordingState (state w) with
      | idle | processing => false
      | _ => true
      end
  | ChangeSettings _ _ _ => negb (isRecording w)
  | DataAvailable _ _ | Stopped _ _ | AnimationFrame _ _ _ => true
  end.

Definition changeSettings (s : Settings) (radius : number) (preview : bool)
    : M World unit :=
  onState (fun st =>
    mkState (recordingState st) (combinedRecordingUrl st) s radius preview
      (isVoiceDetected st)).

Definition handle (e : Event) : M World unit :=
  match e with
  | ClickStart scope c data => startRecording scope c data
  | ClickPause => pauseRecording
  | ClickResume => resumeRecording
  | ClickStop => stopRecording
  | ChangeSettings s radius preview => changeSettings s radius preview
  | DataAvailable r data => onDataAvailable r data
  | Stopped r p => onStop r p
  | AnimationFrame id s data => onAnimationFrame id s data
  end.

Definition step (e : Event) (w : World) : World := exec (handle e) w.

(** The worlds a mounted page can be in. *)
Inductive reachable : World -> Prop :=
| reachable_initial : reachable initial
| reachable_step (e : Event) (w : World) :
    reachable w -> enabled e w = true -> reachable (step e w).

(** A run from the initial world, event by event; an event that is not
    enabled ends it. *)
Fixpoint run (es : list Event) (w : World) : option World :=
  match es with
  | [] => Some w
  | e :: es' => if enabled e w then run es' (step e w) else None
  end.

(** The arcs of the cycle idle, recording, paused, processing, idle. *)
Definition cycleArc (a b : RecordingState) : bool :=
  match a, b with
  | idle, recording | recording, paused | paused, processing
  | processing, idle => true
  | _, _ => false
  end.

(** The arcs the page takes: the cycle, with resuming from [paused]
    and with stopping straight from [recording]. *)
Definition arc (a b : RecordingState) : bool :=
  match a, b with
  | idle, recording
  | recording, paused | paused, recording
  | recording, processing | paused, processing
  | processing, idle => true
  | _, _ => false
  end.

(** The calls a callback makes when run in world [w]. *)
Definition effects {A : Type} (m : M World A) (w : World) : list Effect :=
  skipn (length (trace (host w))) (trace (host (exec m w))).

(** *** The preview and the rendering *)

(** What the second [useEffect] (lines 311-331) reads of the two
    preview elements: the layout box of the screen preview
    ([offsetWidth], [offsetHeight]) and the intrinsic size of the webcam
    preview ([videoWidth], [videoHeight], zero while no stream has
    loaded). *)
Record Layout : Type := mkLayout {
  offsetWidth : N;
  offsetHeight : N;
  previewVideoWidth : N;
  previewVideoHeight : N
}.

(** The style it writes on the webcam preview: [width], [height],
    [left] and [top] in px (the four fields of [box]) and the border
    radius in percent. *)
Record PreviewStyle : Type := mkStyle {
  position : String.string;
  box : Overlay;
  borderRadius : number
}.

(** The effect of lines 311-331, run after a render in which one of
    [webcamPosition], [webcamSize], [webcamBorderRadius] and
    [showPreview] has changed; [None] when the previews are not
    rendered. *)
Definition updatePreview (st : State) (l : Layout) : option PreviewStyle :=
  if showPreview st then
    let screenWidth := ofN (offsetWidth l) in
    let screenHeight := ofN (offsetHeight l) in
    let webcamWidth :=
      ((webcamSize (settings st) / Fin 100) * screenWidth)%num in
    let webcamHeight :=
      ((webcamWidth / ofN (previewVideoWidth l))
       * ofN (previewVideoHeight l))%num in
    let webcamX :=
      ((pos_x (webcamPosition (settings st)) / Fin 100)
       * (screenWidth - webcamWidth))%num in
    let webcamY :=
      ((pos_y (webcamPosition (settings st)) / Fin 100)
       * (screenHeight - webcamHeight))%num in
    Some (mkStyle "absolute"
            (mkOverlay webcamWidth webcamHeight webcamX webcamY)
            (webcamBorderRadius st))
  else None.

Inductive Button : Type := StartButton | PauseButton | ResumeButton.

(** What the JSX (lines 335-508) renders of the state: whether the
    six settings controls are disabled, the button next to Stop
    Recording, whether Stop Recording is disabled, the voice indicator
    ([Some b] when shown, [b] telling "Voice detected"), the previews,
    the spinner and the card of the final recording. *)
Record View : Type := mkView {
  settingsDisabled : bool;
  primaryButton : option Button;
  stopDisabled : bool;
  voiceIndicator : option bool;
  previewShown : bool;
  spinnerShown : bool;
  finalRecording : option Url
}.

Definition render (st : State) : View :=
  let isRecording :=
    match recordingState st with
    | recording | paused => true
    | _ => false
    end in
  mkView isRecording
    (match recordingState st with
     | idle => Some StartButton
     | recording => Some PauseButton
     | paused => Some ResumeButton
     | processing => None
     end)
    (match recordingState st with
     | idle | processing => true
     | _ => false
     end)
    (if isRecording then Some (isVoiceDetected st) else None)
    (showPreview st)
    (match recordingState st with processing => true | _ => false end)
    (match combinedRecordingUrl st, recordingState st with
     | Some u, idle => Some u
     | _, _ => None
     end).

End Page.

(** ** src/components/screen-recorder.tsx *)

Module ScreenRecorder.

Inductive RecordingState : Type := idle | recording | paused.

(** The [useState] cells (lines 10-21). *)
Record State : Type := mkState {
  recordingState : RecordingState;
  screenRecordingUrl : option Url;
  webcamRecordingUrl : option Url;
  combinedRecordingUrl : option Url
}.

(** The [useRef] cells (lines 25-28); the two preview elements are
    always rendered (lines 236-257). *)
Record Refs : Type := mkRefs {
  screenStreamRef : option MediaStream;
  webcamStreamRef : option MediaStream;
  screenRecorderRef : option RecorderId;
  webcamRecorderRef : option RecorderId
}.

Record World : Type := mkWorld { state : State; refs : Refs; host : Host }.

Definition initial : World :=
  mkWorld (mkState idle None None None) (mkRefs None None None None)
    initialHost.

Local Open Scope monad_scope.

Definition onHost (f : Host -> Host) : M World unit :=
  modify (fun w => mkWorld (state w) (refs w) (f (host w))).

Definition fromHost {A : Type} (f : Host -> A * Host) : M World A :=
  fun w => let (a, h) := f (host w) in (a, mkWorld (state w) (refs w) h).

Definition onState (f : State -> State) : M World unit :=
  modify (fun w => mkWorld (f (state w)) (refs w) (host w)).

Definition onRefs (f : Refs -> Refs) : M World unit :=
  modify (fun w => mkWorld (state w) (f (refs w)) (host w)).

Definition setRecordingState (s : RecordingState) : M World unit :=
  onState (fun st =>
    mkState s (screenRecordingUrl st) (webcamRecordingUrl st)
      (combinedRecordingUrl st)).

Definition setScreenRecordingUrl (u : option Url) : M World unit :=
  onState (fun st =>
    mkState (recordingState st) u (webcamRecordingUrl st)
      (combinedRecordingUrl st)).

Definition setWebcamRecordingUrl (u : option Url) : M World unit :=
  onState (fun st =>
    mkState (recordingState st) (screenRecordingUrl st) u
      (combinedRecordingUrl st)).

Definition setCombinedRecordingUrl (u : option Url) : M World unit :=
  onState (fun st =>
    mkState (recordingState st) (screenRecordingUrl st)
      (webcamRecordingUrl st) u).

Definition setStreamRefs (screen webcam : MediaStream) : M World unit :=
  onRefs (fun r =>
    mkRefs (Some screen) (Some webcam) (screenRecorderRef r)
      (webcamRecorderRef r)).

Definition setRecorderRefs (screen webcam : RecorderId) : M World unit :=
  onRefs (fun r =>
    mkRefs (screenStreamRef r) (webcamStreamRef r) (Some screen) (Some webcam)).

(** The [catch] of [requestPermissions] (lines 55-64). *)
Definition permissionDenied : M World bool :=
  onHost (emit (ConsoleError "Error requesting permissions:")) ;;
  onHost (emit (Toast PermissionDenied)) ;;
  ret false.

(** [requestPermissions] (lines 30-65) *)
Definition requestPermissions (c : Capture) : M World bool :=
  onHost (emit (GetDisplayMedia None)) ;;
  match displayMedia c with
  | None => permissionDenied
  | Some screenStream =>
      onHost (emit (GetUserMedia None)) ;;
      match userMedia c with
      | None => permissionDenied
      | Some webcamStream =>
          setStreamRefs screenStream webcamStream ;;
          onHost (emit (SetSrcObject screenPreview screenStream)) ;;
          onHost (emit (SetSrcObject webcamPreview webcamStream)) ;;
          onHost (emit (Toast PermissionsGranted)) ;;
          ret true
      end
  end.

(** [startRecording] (lines 67-96) *)
Definition startRecording (c : Capture) : M World unit :=
  permissionsGranted <- requestPermissions c ;;
  if negb permissionsGranted then ret tt else
  w <- get ;;
  match screenStreamRef (refs w), webcamStreamRef (refs w) with
  | Some screenStream, Some webcamStream =>
      screenRecorder <- fromHost (newMediaRecorder screenStream None) ;;
      webcamRecorder <- fromHost (newMediaRecorder webcamStream None) ;;
      setRecorderRefs screenRecorder webcamRecorder ;;
      onHost (setOndataavailable screenRecorder PublishScreenChunk) ;;
      onHost (setOndataavailable webcamRecorder PublishWebcamChunk) ;;
      onHost (recorderStart screenRecorder (Some 1000%N)) ;;
      onHost (recorderStart webcamRecorder (Some 1000%N)) ;;
      setRecordingState recording
  | _, _ => ret tt (* not taken: [requestPermissions] has set both *)
  end.

(** A call that throws ends the callback: what follows it is not
    run.  The callbacks catch nothing here, so the world is as the
    calls before it left it. *)
Definition orThrow (call : Host -> option Host) (next : M World unit)
    : M World unit :=
  fun w =>
    match call (host w) with
    | Some h => next (mkWorld (state w) (refs w) h)
    | None => (tt, w)
    end.

(** [pauseRecording] (lines 98-104) *)
Definition pauseRecording : M World unit :=
  w <- get ;;
  match screenRecorderRef (refs w), webcamRecorderRef (refs w) with
  | Some screenRecorder, Some webcamRecorder =>
      orThrow (recorderPause screenRecorder)
        (orThrow (recorderPause webcamRecorder)
           (setRecordingState paused))
  | _, _ => ret tt
  end.

(** [resumeRecording] (lines 106-112) *)
Definition resumeRecording : M World unit :=
  w <- get ;;
  match screenRecorderRef (refs w), webcamRecorderRef (refs w) with
  | Some screenRecorder, Some webcamRecorder =>
      orThrow (recorderResume screenRecorder)
        (orThrow (recorderResume webcamRecorder)
           (setRecordingState recording))
  | _, _ => ret tt
  end.

(** The square in the lower right corner (lines 139-141). *)
Definition cornerGeometry (canvasWidth canvasHeight : number) : Overlay :=
  let webcamSize := (nmin canvasWidth canvasHeight / Fin 4)%num in
  let webcamX := (canvasWidth - webcamSize - Fin 10)%num in
  let webcamY := (canvasHeight - webcamSize - Fin 10)%num in
  mkOverlay webcamSize webcamSize webcamX webcamY.

(** [combineVideos] (lines 114-171); it closes over the two recording
    URLs of the state. *)
Definition combineVideos (p : Playback) : M World unit :=
  w <- get ;;
  match screenRecordingUrl (state w), webcamRecordingUrl (state w) with
  | Some screenUrl, Some webcamUrl =>
      onHost (emit (CreateVideo screenVideo)) ;;
      onHost (emit (CreateVideo webcamVideo)) ;;
      onHost (emit (SetVideoSrc screenVideo screenUrl)) ;;
      onHost (emit (SetVideoSrc webcamVideo webcamUrl)) ;;
      match metadata p with
      | None => ret tt
      | Some (screenMeta, _) =>
          onHost (emit CreateCanvas) ;;
          onHost (emit GetContext2d) ;;
          if negb (context2d p)
          then onHost (emit (ConsoleError "Unable to create canvas context"))
          else
            let width := ofN (videoWidth screenMeta) in
            let height := ofN (videoHeight screenMeta) in
            onHost (emit (ResizeCanvas width height)) ;;
            let geometry := cornerGeometry width height in
            onHost (emit CaptureStream) ;;
            combinedRecorder <-
              fromHost (newMediaRecorder (canvasStream p) (Some "video/webm")) ;;
            onHost (setOndataavailable combinedRecorder PushChunk) ;;
            onHost (setOnstop combinedRecorder PublishCombined) ;;
            onHost (recorderStart combinedRecorder None) ;;
            onHost (emit (PlayVideo screenVideo)) ;;
            onHost (emit (PlayVideo webcamVideo)) ;;
            onHost (drawFrame (mkDraw width height geometry combinedRecorder)
                      (firstStatus p))
      end
  | _, _ => ret tt
  end.

(** [stopRecording] (lines 173-194) *)
Definition stopRecording (p : Playback) : M World unit :=
  w <- get ;;
  match screenRecorderRef (refs w), webcamRecorderRef (refs w) with
  | Some screenRecorder, Some webcamRecorder =>
      onHost (recorderStop screenRecorder) ;;
      onHost (recorderStop webcamRecorder) ;;
      setRecordingState idle ;;
      match screenStreamRef (refs w) with
      | Some s => onHost (stopTracks s)
      | None => ret tt
      end ;;
      match webcamStreamRef (refs w) with
      | Some s => onHost (stopTracks s)
      | None => ret tt
      end ;;
      onHost (emit (Toast RecordingStopped)) ;;
      (* Combine videos after stopping the recording *)
      combineVideos p
  | _, _ => ret tt
  end.

(** The cleanup of the [useEffect] (lines 196-205). *)
Definition cleanup : M World unit :=
  w <- get ;;
  match screenStreamRef (refs w) with
  | Some s => onHost (stopTracks s)
  | None => ret tt
  end ;;
  match webcamStreamRef (refs w) with
  | Some s => onHost (stopTracks s)
  | None => ret tt
  end.

(** *** The events of the browser *)

Definition recorder (r : RecorderId) (w : World) : option MediaRecorder :=
  nth_error (recorders (host w)) r.

Definition chunksOf (r : RecorderId) (w : World) : list Blob :=
  match recorder r w with
  | Some m => chunks m
  | None => []
  end.

(** A [dataavailable] event on recorder [r] (lines 80-90 and 149). *)
Definition onDataAvailable (r : RecorderId) (data : Blob) : M World unit :=
  w <- get ;;
  match recorder r w with
  | Some m =>
      if running m then
        match ondataavailable m with
        | Some PushChunk => onHost (pushChunk r data)
        | Some PublishScreenChunk =>
            onHost (pushChunk r data) ;;
            let screenBlob := newBlob (chunks m ++ [data]) in
            onHost (emit (CreateObjectURL screenBlob)) ;;
            setScreenRecordingUrl (Some (ObjectURL screenBlob))
        | Some PublishWebcamChunk =>
            onHost (pushChunk r data) ;;
            let webcamBlob := newBlob (chunks m ++ [data]) in
            onHost (emit (CreateObjectURL webcamBlob)) ;;
            setWebcamRecordingUrl (Some (ObjectURL webcamBlob))
        | None => ret tt
        end
      else ret tt
  | None => ret tt
  end.

(** The [stop] event of recorder [r] (lines 150-153). *)
Definition onStop (r : RecorderId) : M World unit :=
  w <- get ;;
  match recorder r w with
  | Some m =>
      if running m then
        onHost (setRunning false r) ;;
        match onstop m with
        | Some PublishCombined =>
            let combinedBlob := newBlob (chunks m) in
            onHost (emit (CreateObjectURL combinedBlob)) ;;
            setCombinedRecordingUrl (Some (ObjectURL combinedBlob))
        | _ => ret tt
        end
      else ret tt
  | None => ret tt
  end.

Definition onAnimationFrame (id : nat) (s : VideoStatus) : M World unit :=
  cb <- fromHost (takeFrame id) ;;
  match cb with
  | Some (DrawFrame c) => onHost (drawFrame c s)
  | _ => ret tt
  end.

(** *** The component as a transition system *)

Inductive Event : Type :=
| ClickStart (c : Capture)
| ClickPause
| ClickResume
| ClickStop (p : Playback)
| DataAvailable (r : RecorderId) (data : Blob)
| Stopped (r : RecorderId)
| AnimationFrame (id : nat) (s : VideoStatus).

(** The buttons of lines 215-234. *)
Definition enabled (e : Event) (w : World) : bool :=
  match e with
  | ClickStart _ =>
      match recordingState (state w) with idle => true | _ => false end
  | ClickPause =>
      match recordingState (state w) with recording => true | _ => false end
  | ClickResume =>
      match recordingState (state w) with paused => true | _ => false end
  | ClickStop _ =>
      match recordingState (state w) with idle => false | _ => true end
  | DataAvailable _ _ | Stopped _ | AnimationFrame _ _ => true
  end.

Definition handle (e : Event) : M World unit :=
  match e with
  | ClickStart c => startRecording c
  | ClickPause => pauseRecording
  | ClickResume => resumeRecording
  | ClickStop p => stopRecording p
  | DataAvailable r data => onDataAvailable r data
  | Stopped r => onStop r
  | AnimationFrame id s => onAnimationFrame id s
  end.

Definition step (e : Event) (w : World) : World := exec (handle e) w.

Fixpoint run (es : list Event) (w : World) : option World :=
  match es with
  | [] => Some w
  | e :: es' => if enabled e w then run es' (step e w) else None
  end.

(** The arcs the component takes. *)
Definition arc (a b : RecordingState) : bool :=
  match a, b with
  | idle, recording
  | recording, paused | paused, recording
  | recording, idle | paused, idle => true
  | _, _ => false
  end.

(** The calls a callback makes when run in world [w]. *)
Definition effects {A : Type} (m : M World A) (w : World) : list Effect :=
  skipn (length (trace (host w))) (trace (host (exec m w))).

End ScreenRecorder.

(** ** src/unnamed/part_000

    The [ScreenRecorder] with quality, position and size settings.  Its
    callbacks other than [combineVideos] are those of
    screen-recorder.tsx, up to the constraints and the MIME type they
    pass to the browser; [combineVideos] is embedded here. *)

Module Part000.

Inductive RecordingState : Type := idle | recording | paused.

(** The [useState] cells (lines 31-45). *)
Record State : Type := mkState {
  recordingState : RecordingState;
  screenRecordingUrl : option Url;
  webcamRecordingUrl : option Url;
  combinedRecordingUrl : option Url;
  settings : Settings
}.

(** The [useRef] cells (lines 49-52). *)
Record Refs : Type := mkRefs {
  screenStreamRef : option MediaStream;
  webcamStreamRef : option MediaStream;
  screenRecorderRef : option RecorderId;
  webcamRecorderRef : option RecorderId
}.

Record World : Type := mkWorld { state : State; refs : Refs; host : Host }.

Definition initial : World :=
  mkWorld
    (mkState idle None None None
       (mkSettings q1080p (mkPosition (Fin 10) (Fin 10)) (Fin 25)))
    (mkRefs None None None None) initialHost.

Local Open Scope monad_scope.

Definition onHost (f : Host -> Host) : M World unit :=
  modify (fun w => mkWorld (state w) (refs w) (f (host w))).

Definition fromHost {A : Type} (f : Host -> A * Host) : M World A :=
  fun w => let (a, h) := f (host w) in (a, mkWorld (state w) (refs w) h).

(** [combineVideos] (lines 143-209); it closes over the two recording
    URLs and the three settings of the state. *)
Definition combineVideos (p : Playback) : M World unit :=
  w <- get ;;
  match screenRecordingUrl (state w), webcamRecordingUrl (state w) with
  | Some screenUrl, Some webcamUrl =>
      onHost (emit (CreateVideo screenVideo)) ;;
      onHost (emit (CreateVideo webcamVideo)) ;;
      onHost (emit (SetVideoSrc screenVideo screenUrl)) ;;
      onHost (emit (SetVideoSrc webcamVideo webcamUrl)) ;;
      match metadata p with
      | None => ret tt
      | Some (_, webcamMeta) =>
          onHost (emit CreateCanvas) ;;
          onHost (emit GetContext2d) ;;
          if negb (context2d p)
          then onHost (emit (ConsoleError "Unable to create canvas context"))
          else
            let scope := settings (state w) in
            let size := videoQualities (videoQuality scope) in
            let width := ofN (width size) in
            let height := ofN (height size) in
            onHost (emit (ResizeCanvas width height)) ;;
            let geometry :=
              overlayGeometry width height (webcamSize scope)
                (webcamPosition scope)
                (ofN (videoWidth webcamMeta))
                (ofN (videoHeight webcamMeta)) in
            onHost (emit CaptureStream) ;;
            combinedRecorder <- fromHost (newMediaRecorder (canvasStream p) vp9) ;;
            onHost (setOndataavailable combinedRecorder PushChunk) ;;
            onHost (setOnstop combinedRecorder PublishCombined) ;;
            onHost (recorderStart combinedRecorder None) ;;
            onHost (emit (PlayVideo screenVideo)) ;;
            onHost (emit (PlayVideo webcamVideo)) ;;
            onHost (drawFrame (mkDraw width height geometry combinedRecorder)
                      (firstStatus p))
      end
  | _, _ => ret tt
  end.

(** The calls a callback makes when run in world [w]. *)
Definition effects {A : Type} (m : M World A) (w : World) : list Effect :=
  skipn (length (trace (host w))) (trace (host (exec m w))).

(** *** The other callbacks of part_000 *)

Definition onState (f : State -> State) : M World unit :=
  modify (fun w => mkWorld (f (state w)) (refs w) (host w)).

Definition onRefs (f : Refs -> Refs) : M World unit :=
  modify (fun w => mkWorld (state w) (f (refs w)) (host w)).

Definition setRecordingState (s : RecordingState) : M World unit :=
  onState (fun st =>
    mkState s (screenRecordingUrl st) (webcamRecordingUrl st)
      (combinedRecordingUrl st) (settings st)).

Definition setScreenRecordingUrl (u : option Url) : M World unit :=
  onState (fun st =>
    mkState (recordingState st) u (webcamRecordingUrl st)
      (combinedRecordingUrl st) (settings st)).

Definition setWebcamRecordingUrl (u : option Url) : M World unit :=
  onState (fun st =>
    mkState (recordingState st) (screenRecordingUrl st) u
      (combinedRecordingUrl st) (settings st)).

Definition setCombinedRecordingUrl (u : option Url) : M World unit :=
  onState (fun st =>
    mkState (recordingState st) (screenRecordingUrl st)
      (webcamRecordingUrl st) u (settings st)).

Definition setStreamRefs (screen webcam : MediaStream) : M World unit :=
  onRefs (fun r =>
    mkRefs (Some screen) (Some webcam) (screenRecorderRef r)
      (webcamRecorderRef r)).

Definition setRecorderRefs (screen webcam : RecorderId) : M World unit :=
  onRefs (fun r =>
    mkRefs (screenStreamRef r) (webcamStreamRef r) (Some screen) (Some webcam)).

(** The [catch] of [requestPermissions] (lines 80-89). *)
Definition permissionDenied : M World bool :=
  onHost (emit (ConsoleError "Error requesting permissions:")) ;;
  onHost (emit (Toast PermissionDenied)) ;;
  ret false.

(** [requestPermissions] (lines 54-90); its closure follows
    [videoQuality], and so does the [startRecording] that calls it. *)
Definition requestPermissions (c : Capture) : M World bool :=
  w <- get ;;
  let size := videoQualities (videoQuality (settings (state w))) in
  onHost (emit (GetDisplayMedia (Some size))) ;;
  match displayMedia c with
  | None => permissionDenied
  | Some screenStream =>
      onHost (emit (GetUserMedia (Some size))) ;;
      match userMedia c with
      | None => permissionDenied
      | Some webcamStream =>
          setStreamRefs screenStream webcamStream ;;
          onHost (emit (SetSrcObject screenPreview screenStream)) ;;
          onHost (emit (SetSrcObject webcamPreview webcamStream)) ;;
          onHost (emit (Toast PermissionsGranted)) ;;
          ret true
      end
  end.

(** [startRecording] (lines 92-125) *)
Definition startRecording (c : Capture) : M World unit :=
  permissionsGranted <- requestPermissions c ;;
  if negb permissionsGranted then ret tt else
  w <- get ;;
  match screenStreamRef (refs w), webcamStreamRef (refs w) with
  | Some screenStream, Some webcamStream =>
      screenRecorder <- fromHost (newMediaRecorder screenStream vp9) ;;
      webcamRecorder <- fromHost (newMediaRecorder webcamStream vp9) ;;
      setRecorderRefs screenRecorder webcamRecorder ;;
      onHost (setOndataavailable screenRecorder PublishScreenChunk) ;;
      onHost (setOndataavailable webcamRecorder PublishWebcamChunk) ;;
      onHost (recorderStart screenRecorder (Some 1000%N)) ;;
      onHost (recorderStart webcamRecorder (Some 1000%N)) ;;
      setRecordingState recording
  | _, _ => ret tt (* not taken: [requestPermissions] has set both *)
  end.

(** A call that throws ends the callback: what follows it is not
    run.  The callbacks catch nothing here, so the world is as the
    calls before it left it. *)
Definition orThrow (call : Host -> option Host) (next : M World unit)
    : M World unit :=
  fun w =>
    match call (host w) with
    | Some h => next (mkWorld (state w) (refs w) h)
    | None => (tt, w)
    end.

(** [pauseRecording] (lines 127-133) *)
Definition pauseRecording : M World unit :=
  w <- get ;;
  match screenRecorderRef (refs w), webcamRecorderRef (refs w) with
  | Some screenRecorder, Some webcamRecorder =>
      orThrow (recorderPause screenRecorder)
        (orThrow (recorderPause webcamRecorder)
           (setRecordingState paused))
  | _, _ => ret tt
  end.

(** [resumeRecording] (lines 135-141) *)
Definition resumeRecording : M World unit :=
  w <- get ;;
  match screenRecorderRef (refs w), webcamRecorderRef (refs w) with
  | Some screenRecorder, Some webcamRecorder =>
      orThrow (recorderResume screenRecorder)
        (orThrow (recorderResume webcamRecorder)
           (setRecordingState recording))
  | _, _ => ret tt
  end.

(** [stopRecording] (lines 211-232) *)
Definition stopRecording (p : Playback) : M World unit :=
  w <- get ;;
  match screenRecorderRef (refs w), webcamRecorderRef (refs w) with
  | Some screenRecorder, Some webcamRecorder =>
      onHost (recorderStop screenRecorder) ;;
      onHost (recorderStop webcamRecorder) ;;
      setRecordingState idle ;;
      match screenStreamRef (refs w) with
      | Some s => onHost (stopTracks s)
      | None => ret tt
      end ;;
      match webcamStreamRef (refs w) with
      | Some s => onHost (stopTracks s)
      | None => ret tt
      end ;;
      onHost (emit (Toast RecordingStopped)) ;;
      (* Combine videos after stopping the recording *)
      combineVideos p
  | _, _ => ret tt
  end.

(** The cleanup of the [useEffect] (lines 234-243). *)
Definition cleanup : M World unit :=
  w <- get ;;
  match screenStreamRef (refs w) with
  | Some s => onHost (stopTracks s)
  | None => ret tt
  end ;;
  match webcamStreamRef (refs w) with
  | Some s => onHost (stopTracks s)
  | None => ret tt
  end.

Definition recorder (r : RecorderId) (w : World) : option MediaRecorder :=
  nth_error (recorders (host w)) r.

(** A [dataavailable] event on recorder [r] (lines 109-119 and 181). *)
Definition onDataAvailable (r : RecorderId) (data : Blob) : M World unit :=
  w <- get ;;
  match recorder r w with
  | Some m =>
      if running m then
        match ondataavailable m with
        | Some PushChunk => onHost (pushChunk r data)
        | Some PublishScreenChunk =>
            onHost (pushChunk r data) ;;
            let screenBlob := newBlob (chunks m ++ [data]) in
            onHost (emit (CreateObjectURL screenBlob)) ;;
            setScreenRecordingUrl (Some (ObjectURL screenBlob))
        | Some PublishWebcamChunk =>
            onHost (pushChunk r data) ;;
            let webcamBlob := newBlob (chunks m ++ [data]) in
            onHost (emit (CreateObjectURL webcamBlob)) ;;
            setWebcamRecordingUrl (Some (ObjectURL webcamBlob))
        | None => ret tt
        end
      else ret tt
  | None => ret tt
  end.

(** The [stop] event of recorder [r] (lines 182-185). *)
Definition onStop (r : RecorderId) : M World unit :=
  w <- get ;;
  match recorder r w with
  | Some m =>
      if running m then
        onHost (setRunning false r) ;;
        match onstop m with
        | Some PublishCombined =>
            let combinedBlob := newBlob (chunks m) in
            onHost (emit (CreateObjectURL combinedBlob)) ;;
            setCombinedRecordingUrl (Some (ObjectURL combinedBlob))
        | _ => ret tt
        end
      else ret tt
  | None => ret tt
  end.

Definition onAnimationFrame (id : nat) (s : VideoStatus) : M World unit :=
  cb <- fromHost (takeFrame id) ;;
  match cb with
  | Some (DrawFrame c) => onHost (drawFrame c s)
  | _ => ret tt
  end.

(** The quality, size and position controls (lines 253-310); they are
    never disabled. *)
Definition changeSettings (s : Settings) : M World unit :=
  onState (fun st =>
    mkState (recordingState st) (screenRecordingUrl st)
      (webcamRecordingUrl st) (combinedRecordingUrl st) s).

Inductive Event : Type :=
| ClickStart (c : Capture)
| ClickPause
| ClickResume
| ClickStop (p : Playback)
| ChangeSettings (s : Settings)
| DataAvailable (r : RecorderId) (data : Blob)
| Stopped (r : RecorderId)
| AnimationFrame (id : nat) (s : VideoStatus).

(** The buttons of lines 311-332. *)
Definition enabled (e : Event) (w : World) : bool :=
  match e with
  | ClickStart _ =>
      match recordingState (state w) with idle => true | _ => false end
  | ClickPause =>
      match recordingState (state w) with recording => true | _ => false end
  | ClickResume =>
      match recordingState (state w) with paused => true | _ => false end
  | ClickStop _ =>
      match recordingState (state w) with idle => false | _ => true end
  | ChangeSettings _ | DataAvailable _ _ | Stopped _
  | AnimationFrame _ _ => true
  end.

Definition handle (e : Event) : M World unit :=
  match e with
  | ClickStart c => startRecording c
  | ClickPause => pauseRecording
  | ClickResume => resumeRecording
  | ClickStop p => stopRecording p
  | ChangeSettings s => changeSettings s
  | DataAvailable r data => onDataAvailable r data
  | Stopped r => onStop r
  | AnimationFrame id s => onAnimationFrame id s
  end.

Definition step (e : Event) (w : World) : World := exec (handle e) w.

Fixpoint run (es : list Event) (w : World) : option World :=
  match es with
  | [] => Some w
  | e :: es' => if enabled e w then run es' (step e w) else None
  end.

End Part000.

(** ** Vocabulary of the properties *)

(** The steps of [startRecording] that construct or start a recorder. *)
Definition usesMediaRecorder (e : Effect) : bool :=
  match e with
  | NewMediaRecorder _ _ _ | RecorderStart _ _ => true
  | _ => false
  end.

(** The notifications the user sees. *)
Definition isToast (e : Effect) : bool :=
  match e with Toast _ => true | _ => false end.

Definition toasts (es : list Effect) : list Effect := filter isToast es.

(** The notification of a failure: the destructive toast. *)
Definition isDenied (e : Effect) : bool :=
  match e with Toast PermissionDenied => true | _ => false end.

(** The first calls of [combineVideos]: the two video elements the
    recordings are played in. *)
Definition startsCombining (e : Effect) : bool :=
  match e with CreateVideo _ => true | _ => false end.

(** The capture requests and the request for a context: what a retry
    would repeat. *)
Definition isRequest (e : Effect) : bool :=
  match e with
  | GetDisplayMedia _ | GetUserMedia _ | GetContext2d => true
  | _ => false
  end.

(** The nodes connected to the audio destination, in the order
    connected: the sources of the audio track of the final recording. *)
Fixpoint audioSources (es : list Effect) : list AudioNode :=
  match es with
  | [] => []
  | AudioConnect source Destination :: es' => source :: audioSources es'
  | _ :: es' => audioSources es'
  end.

(** The streams recorders were constructed on. *)
Fixpoint recordedStreams (es : list Effect) : list MediaStream :=
  match es with
  | [] => []
  | NewMediaRecorder _ s _ :: es' => s :: recordedStreams es'
  | _ :: es' => recordedStreams es'
  end.

Definition playing (s : VideoStatus) : bool := negb (vpaused s) && negb (vended s).

(** The calls of one turn of the loop of [drawFrame]. *)
Definition frameDraws (c : DrawClosure) : list Effect :=
  [DrawImage screenVideo (Fin 0) (Fin 0) (canvasWidth c) (canvasHeight c);
   DrawImage webcamVideo (webcamX (rect c)) (webcamY (rect c))
     (webcamWidth (rect c)) (webcamHeight (rect c))].

(** The calls of [n] turns that each request the next one, the first
    with callback id [id]. *)
Fixpoint loopingFrames (c : DrawClosure) (n id : nat) : list Effect :=
  match n with
  | O => []
  | S n' =>
      frameDraws c ++ RequestAnimationFrame id (DrawFrame c)
        :: loopingFrames c n' (S id)
  end.

Definition tracksOf (s : option MediaStream) : list Track :=
  match s with Some s => s | None => [] end.

(** What the teardown cancels: the callback [animationFrameRef] names. *)
Definition cancelOf (ref : option nat) : list Effect :=
  match ref with
  | Some id => if truthy id then [CancelAnimationFrame id] else []
  | None => []
  end.

(** Recorders whose pending [stop] event starts the combining, and
    recorders whose pending [stop] event ends it. *)
Definition combines (m : MediaRecorder) : bool :=
  running m &&
  match onstop m with Some (CombineRecordings _ _) => true | _ => false end.

Definition publishes (m : MediaRecorder) : bool :=
  running m &&
  match onstop m with
  | Some PublishFinal | Some PublishCombinedIdle => true
  | _ => false
  end.

Definition count {A : Type} (p : A -> bool) (l : list A) : nat :=
  length (filter p l).

(** The invariant of the page: a recording in progress has at most one
    screen recorder waiting to combine, a combining in progress at most
    one recorder waiting to publish, and nothing waits otherwise. *)
Definition pageInvariant (w : Page.World) : Prop :=
  let waiting := count combines (recorders (Page.host w)) in
  let finishing := count publishes (recorders (Page.host w)) in
  match Page.recordingState (Page.state w) with
  | Page.idle => waiting = O /\ finishing = O
  | Page.recording | Page.paused => (waiting <= 1)%nat /\ finishing = O
  | Page.processing => waiting = O /\ (finishing <= 1)%nat
  end.

(** What the teardown leaves pending: everything but the callback
    [animationFrameRef] names. *)
Definition framesAfterCancel (ref : option nat) (fs : list (nat * FrameCallback))
    : list (nat * FrameCallback) :=
  match ref with
  | Some id =>
      if truthy id
      then filter (fun f => negb (Nat.eqb (fst f) id)) fs
      else fs
  | None => fs
  end.

(** *** Sample inputs *)

Definition sampleScreen : MediaStream := [mkTrack 1 VideoTrack; mkTrack 2 AudioTrack].
Definition sampleWebcam : MediaStream := [mkTrack 3 VideoTrack; mkTrack 4 AudioTrack].

Definition granted : Capture := mkCapture (Some sampleScreen) (Some sampleWebcam).
Definition rejected : Capture := mkCapture None None.

Definition defaults : Settings := Page.settings Page.initialState.

Definition nowPlaying : VideoStatus := mkStatus false false.
Definition hasEnded : VideoStatus := mkStatus false true.

(** A playback in which everything loads and the screen video plays. *)
Definition goodPlayback : Playback :=
  mkPlayback (Some (mkMeta 1920 1080, mkMeta 1280 720)) true
    [mkTrack 5 VideoTrack] nowPlaying [mkTrack 6 AudioTrack].

(** A playback in which the canvas has no 2d context. *)
Definition noContext : Playback :=
  mkPlayback (Some (mkMeta 1920 1080, mkMeta 1280 720)) false
    [mkTrack 5 VideoTrack] nowPlaying [mkTrack 6 AudioTrack].

(** A playback of recordings that never load. *)
Definition noPlayback : Playback :=
  mkPlayback None false [] nowPlaying [].

(** A recording that is started, delivers a chunk of each stream, and
    is stopped. *)
Definition recordedRun : list Page.Event :=
  [Page.ClickStart defaults granted [20%N; 30%N];
   Page.DataAvailable 0%nat [10%N; 11%N];
   Page.DataAvailable 1%nat [12%N; 13%N];
   Page.ClickStop].

(** The run of the page up to the middle of a combining: after the
    recording the screen recorder reports its stop, and the frame loop is
    under way. *)
Definition combiningRun : list Page.Event :=
  recordedRun ++ [Page.Stopped 0%nat goodPlayback].

(** The closure of [drawFrame] in [combineVideos] of page.tsx and of
    part_000, for the recorder [r] of the canvas. *)
Definition overlayClosure (scope : Settings) (webcamMeta : VideoMeta)
    (r : RecorderId) : DrawClosure :=
  let size := videoQualities (videoQuality scope) in
  mkDraw (ofN (width size)) (ofN (height size))
    (overlayGeometry (ofN (width size)) (ofN (height size)) (webcamSize scope)
       (webcamPosition scope)
       (ofN (videoWidth webcamMeta)) (ofN (videoHeight webcamMeta)))
    r.

(** The closure of [drawFrame] in [combineVideos] of screen-recorder.tsx. *)
Definition cornerClosure (screenMeta : VideoMeta) (r : RecorderId) : DrawClosure :=
  mkDraw (ofN (videoWidth screenMeta)) (ofN (videoHeight screenMeta))
    (ScreenRecorder.cornerGeometry (ofN (videoWidth screenMeta))
       (ofN (videoHeight screenMeta)))
    r.

(** How a turn of the loop ends. *)
Definition frameEnd (c : DrawClosure) (s : VideoStatus) (id : nat) : Effect :=
  if playing s
  then RequestAnimationFrame id (DrawFrame c)
  else RecorderStop (combinedRecorder c).

(** The run of the page through a whole combining, up to the stop event
    of the recorder of the canvas: both recorders of the combining
    deliver a chunk, the screen video ends, [drawFrame] stops the
    recorder of the canvas (recorder 2), and its stop event arrives. *)
Definition stoppingRun : list Page.Event :=
  combiningRun
    ++ [Page.DataAvailable 2%nat [1%N; 2%N; 3%N];
        Page.DataAvailable 3%nat [7%N; 8%N; 9%N];
        Page.AnimationFrame 2%nat hasEnded [];
        Page.Stopped 2%nat noPlayback].

(** A step keeps the recording state or takes one of the arcs of the
    page. *)
Definition keepsOrArc (a b : Page.RecordingState) : Prop :=
  a = b \/ Page.arc a b = true.

Definition b2n (b : bool) : nat := if b then 1%nat else 0%nat.

(** A recording that is started, then paused. *)
Definition pausedRun : list Page.Event :=
  [Page.ClickStart defaults granted [20%N; 30%N]; Page.ClickPause].

(** The same playback with recordings that never load: [combineVideos]
    then stops right before it asks for the canvas. *)
Definition stalled (p : Playback) : Playback :=
  mkPlayback None (context2d p) (canvasStream p) (firstStatus p)
    (destinationStream p).

(** A recording that is started and stopped at once: the screen
    recorder delivers its last chunk, the webcam recorder has delivered
    none yet. *)
Definition quickStopRun : list Page.Event :=
  [Page.ClickStart defaults granted [20%N; 30%N];
   Page.ClickStop;
   Page.DataAvailable 0%nat [10%N; 11%N]].

(** The page at the end of [quickStopRun], when the stop event of the
    screen recorder is due. *)
Definition quickStopped : Page.World :=
  match Page.run quickStopRun Page.initial with
  | Some w => w
  | None => Page.initial
  end.


(** Recorder [screen] is the screen recorder of a recording in progress:
    it runs, and its stop handler combines its chunks with those of
    recorder [webcam]. *)
Definition awaitsCombining (w : Page.World) (screen webcam : RecorderId) : Prop :=
  exists (m : MediaRecorder) (scope : Settings),
    Page.recorder screen w = Some m /\ running m = true /\
    onstop m = Some (CombineRecordings scope webcam).

(** What holds of the references of the page: callback ids are positive
    and below the next id, and while a recording is in progress the
    references hold the captured streams, the two recorders, the analyser
    and the callback of the voice detection. *)
Definition recordingInvariant (w : Page.World) : Prop :=
  (1 <= nextFrame (Page.host w))%nat /\
  (forall f, In f (frames (Page.host w)) ->
     (fst f < nextFrame (Page.host w))%nat) /\
  (forall id, Page.animationFrameRef (Page.refs w) = Some id ->
     truthy id = true) /\
  (Page.isRecording w = true ->
   exists (screenStream webcamStream : MediaStream)
          (screenRecorder webcamRecorder : RecorderId) (id : nat),
     Page.refs w
     = Page.mkRefs (Some screenStream) (Some webcamStream)
         (Some screenRecorder) (Some webcamRecorder) (Some Analyser) (Some id) /\
     awaitsCombining w screenRecorder webcamRecorder).

(** A combining that nothing can end: the page is processing, and no
    running recorder has a stop handler that starts a combining or
    publishes a recording. *)
Definition stuck (w : Page.World) : Prop :=
  Page.recordingState (Page.state w) = Page.processing /\
  count combines (recorders (Page.host w)) = O /\
  count publishes (recorders (Page.host w)) = O.

(** The run that ends a recording in progress: Stop Recording is
    clicked, the stop event of the screen recorder starts the combining,
    the final recorder delivers the chunks [ds], the screen video ends
    (when it was playing, the pending turn of [drawFrame] finds it ended
    and stops the recorder of the canvas), and the stop events of the
    recorder of the canvas and of the final recorder arrive.  The two
    recorders of the combining are the next two the page constructs. *)
Definition finishingRun (w : Page.World) (p : Playback) (ds : list Blob)
    : list Page.Event :=
  match Page.screenRecorderRef (Page.refs w) with
  | Some screenRecorder =>
      let combined := length (recorders (Page.host w)) in
      let final := S combined in
      [Page.ClickStop; Page.Stopped screenRecorder p]
        ++ map (Page.DataAvailable final) ds
        ++ (if playing (firstStatus p)
            then [Page.AnimationFrame (nextFrame (Page.host w)) hasEnded []]
            else [])
        ++ [Page.Stopped combined noPlayback; Page.Stopped final noPlayback]
  | None => []
  end.

(** A recording of screen-recorder.tsx just started, and its two
    recorders as [startRecording] leaves them. *)
Definition startedRecorder : ScreenRecorder.World :=
  ScreenRecorder.step (ScreenRecorder.ClickStart granted) ScreenRecorder.initial.

(** The component of screen-recorder.tsx after the browser has ended
    the screen recording by itself. *)
Definition endedRecorder : ScreenRecorder.World :=
  ScreenRecorder.step (ScreenRecorder.Stopped 0%nat) startedRecorder.

(** A recording of the page just started, and the same recording
    paused. *)
Definition startedPage : Page.World :=
  Page.step (Page.ClickStart defaults granted []) Page.initial.

Definition pausedPage : Page.World := Page.step Page.ClickPause startedPage.

(** The component of screen-recorder.tsx when the screen recorder has
    delivered a chunk and the webcam recorder none. *)
Definition webcamPending : ScreenRecorder.World :=
  ScreenRecorder.step (ScreenRecorder.DataAvailable 0%nat [10%N; 11%N])
    startedRecorder.

Definition freshScreenRecorder : MediaRecorder :=
  mkRecorder sampleScreen None true (Some PublishScreenChunk) None [].

Definition freshWebcamRecorder : MediaRecorder :=
  mkRecorder sampleWebcam None true (Some PublishWebcamChunk) None [].

(** The page after a whole recording: the run of [stoppingRun], then
    the stop event of the final recorder (recorder 3). *)
Definition publishedPage : Page.World :=
  match Page.run (stoppingRun ++ [Page.Stopped 3%nat noPlayback]) Page.initial with
  | Some w => w
  | None => Page.initial
  end.

(** The component of screen-recorder.tsx after a whole recording: both
    recorders deliver a chunk, Stop Recording starts the combining, the
    screen video ends and the recorder of the canvas (recorder 2)
    reports its stop. *)
Definition publishedRecorder : ScreenRecorder.World :=
  match
    ScreenRecorder.run
      [ScreenRecorder.ClickStart granted;
       ScreenRecorder.DataAvailable 0%nat [10%N; 11%N];
       ScreenRecorder.DataAvailable 1%nat [12%N; 13%N];
       ScreenRecorder.ClickStop goodPlayback;
       ScreenRecorder.DataAvailable 2%nat [1%N; 2%N; 3%N];
       ScreenRecorder.AnimationFrame 1%nat hasEnded;
       ScreenRecorder.Stopped 2%nat]
      ScreenRecorder.initial
  with
  | Some w => w
  | None => ScreenRecorder.initial
  end.

(** The component of screen-recorder.tsx when a second recording has
    just been started after a whole first one. *)
Definition restartedRecorder : ScreenRecorder.World :=
  ScreenRecorder.step (ScreenRecorder.ClickStart granted) publishedRecorder.

(** The component of part_000 in the middle of a recording: both
    recorders have delivered a chunk. *)
Definition publishingPart : Part000.World :=
  match
    Part000.run
      [Part000.ClickStart granted;
       Part000.DataAvailable 0%nat [10%N; 11%N];
       Part000.DataAvailable 1%nat [12%N; 13%N]]
      Part000.initial
  with
  | Some w => w
  | None => Part000.initial
  end.

(** The calls that release what a recording holds: stopping a track of
    a capture and cancelling a pending callback. *)
Definition releasesCapture (e : Effect) : bool :=
  match e with
  | TrackStop _ | CancelAnimationFrame _ => true
  | _ => false
  end.

(** The references of screen-recorder.tsx: either all four are set,
    or the component is idle and holds no recorder. *)
Definition recorderInvariant (w : ScreenRecorder.World) : Prop :=
  (exists (screenStream webcamStream : MediaStream)
          (screenRecorder webcamRecorder : RecorderId),
      ScreenRecorder.refs w
      = ScreenRecorder.mkRefs (Some screenStream) (Some webcamStream)
          (Some screenRecorder) (Some webcamRecorder)) \/
  (ScreenRecorder.recordingState (ScreenRecorder.state w) = ScreenRecorder.idle /\
   ScreenRecorder.screenRecorderRef (ScreenRecorder.refs w) = None /\
   ScreenRecorder.webcamRecorderRef (ScreenRecorder.refs w) = None).

(** * Properties *)


(** ** The arithmetic of the overlay *)






Lemma Qcompare_ofN (n : N) :
  (inject_Z (Z.of_N n) ?= 0) = (if N.eqb n 0 then Eq else Gt).
Proof.
  unfold Qcompare; simpl. rewrite Z.mul_1_r.
  destruct n; simpl; reflexivity.
Qed.

Lemma ndiv_ofN_r (p : Q) (n : N) :
  (Fin p / ofN n)%num =
  if N.eqb n 0
  then match p ?= 0 with Gt => PosInf | Lt => NegInf | Eq => NaN end
  else Fin (p / inject_Z (Z.of_N n)).
Proof.
  unfold ofN, ndiv. rewrite Qcompare_ofN. destruct (N.eqb n 0); reflexivity.
Qed.

Lemma ndiv_100 (p : Q) : (Fin p / Fin 100)%num = Fin (p / 100).
Proof. reflexivity. Qed.

Lemma nmul_Fin (p q : Q) : (Fin p * Fin q)%num = Fin (p * q).
Proof. reflexivity. Qed.

Lemma nle_Fin (p q : Q) : (Fin p <=? Fin q)%num = true <-> p <= q.
Proof. simpl. apply Qle_bool_iff. Qed.

Lemma inject_N_nonneg (n : N) : 0 <= inject_Z (Z.of_N n).
Proof. unfold Qle; simpl. lia. Qed.

Lemma inject_N_pos (n : N) : n <> 0%N -> 0 < inject_Z (Z.of_N n).
Proof. intros H. unfold Qlt; simpl. lia. Qed.

Lemma pct_def (p : Q) : p / 100 = p * (1 # 100).
Proof. reflexivity. Qed.

Lemma pct_nonneg (p r : Q) : 0 <= p -> 0 <= r -> 0 <= p / 100 * r.
Proof. intros Hp Hr. rewrite pct_def. nra. Qed.

Lemma pct_le (p r : Q) : p <= 100 -> 0 <= r -> p / 100 * r <= r.
Proof. intros Hp Hr. rewrite pct_def. nra. Qed.



(** A rectangle no higher than the canvas lies within it. *)
Lemma overlayGeometry_within (w h vw vh : N) (s x y : Q) :
  10 <= s <= 50 -> 0 <= x <= 100 -> 0 <= y <= 100 ->
  let g := overlayGeometry (ofN w) (ofN h) (Fin s) (mkPosition (Fin x) (Fin y))
             (ofN vw) (ofN vh) in
  (webcamHeight g <=? ofN h)%num = true ->
  withinCanvas (ofN w) (ofN h) g.
Proof.
  intros Hs Hx Hy g. subst g.
  unfold withinCanvas, overlayGeometry;
    cbn [webcamWidth webcamHeight webcamX webcamY pos_x pos_y].
  set (W := inject_Z (Z.of_N w)).
  set (ww := s / 100 * W).
  change (Fin s / Fin 100 * ofN w)%num with (Fin ww).
  rewrite !ndiv_100.
  pose proof (inject_N_nonneg w) as HW. fold W in HW.
  pose proof (inject_N_nonneg h) as HH.
  pose proof (inject_N_nonneg vh) as HVH.
  assert (Hww0 : 0 <= ww) by (apply pct_nonneg; lra).
  assert (HwwW : ww <= W) by (apply pct_le; lra).
  rewrite ndiv_ofN_r.
  destruct (N.eqb_spec vw 0) as [->|Hvw].
  - (* a webcam video of width zero: the height is not a finite number *)
    intros Hle. exfalso.
    destruct (ww ?= 0) eqn:E; simpl in Hle; try discriminate.
    + apply Qlt_alt in E. revert E. apply Qle_not_lt. exact Hww0.
    + rewrite Qcompare_ofN in Hle. destruct (N.eqb vh 0); discriminate.
  - pose proof (inject_N_pos Hvw) as HVW.
    unfold ofN. fold W. rewrite !nmul_Fin.
    set (VW := inject_Z (Z.of_N vw)) in *.
    set (VH := inject_Z (Z.of_N vh)) in *.
    set (H := inject_Z (Z.of_N h)) in *.
    intros Hle. apply nle_Fin in Hle.
    assert (Hwh0 : 0 <= ww / VW * VH).
    { apply Qmult_le_0_compat; [|assumption].
      unfold Qdiv. apply Qmult_le_0_compat; [assumption|].
      apply Qinv_le_0_compat. apply Qlt_le_weak; assumption. }
    set (wh := ww / VW * VH) in *.
    unfold nsub; simpl.
    assert (0 <= x / 100 * (W + - ww)) by (apply pct_nonneg; lra).
    assert (x / 100 * (W + - ww) <= W + - ww) by (apply pct_le; lra).
    assert (0 <= y / 100 * (H + - wh)) by (apply pct_nonneg; lra).
    assert (y / 100 * (H + - wh) <= H + - wh) by (apply pct_le; lra).
    repeat split; apply Qle_bool_iff; lra.
Qed.

(** ** Running callbacks symbolically *)

Lemma skipn_length_app {A : Type} (l l' : list A) :
  skipn (length l) (l ++ l') = l'.
Proof. induction l; simpl; auto. Qed.

Lemma trace_stopTracks (s : MediaStream) (h : Host) :
  stopTracks s h =
  mkHost (recorders h) (frames h) (nextFrame h) (trace h ++ map TrackStop s).
Proof.
  unfold stopTracks. revert h.
  induction s as [|t s IH]; intros h; simpl.
  - rewrite app_nil_r. destruct h; reflexivity.
  - rewrite IH. unfold emit; simpl. rewrite <- app_assoc. reflexivity.
Qed.

(** Unfolding a callback on a world given by its fields; the functions
    of lists stay folded. *)
Ltac host_run :=
  cbv beta iota zeta delta
    [recorderPause recorderResume recorderStop recorderStart drawFrame
     setRunning setOndataavailable setOnstop pushChunk updateRecorder
     newMediaRecorder requestAnimationFrame cancelAnimationFrame takeFrame
     emit trace recorders frames nextFrame fst snd negb andb
     metadata context2d canvasStream firstStatus destinationStream
     vpaused vended displayMedia userMedia
     canvasWidth canvasHeight rect combinedRecorder
     stream mimeType running ondataavailable onstop chunks];
  repeat (rewrite trace_stopTracks;
          cbv beta iota delta [trace recorders frames nextFrame]).

Ltac page_run :=
  cbv beta iota zeta delta
    [exec bind ret get modify Page.effects
     Page.onHost Page.fromHost Page.onState Page.onRefs Page.when Page.orThrow
     Page.setRecordingState Page.setCombinedRecordingUrl Page.setIsVoiceDetected
     Page.setStreamRefs Page.setRecorderRefs Page.setAudioAnalyserRef
     Page.setAnimationFrameRef Page.permissionDenied Page.requestPermissions
     Page.checkAudio Page.detectVoice Page.startRecording Page.pauseRecording
     Page.resumeRecording Page.combineVideos Page.stopRecording Page.cleanup
     Page.onDataAvailable Page.runStopHandler Page.onStop Page.onAnimationFrame
     Page.changeSettings Page.handle Page.step Page.recorder Page.chunksOf
     Page.state Page.refs Page.host fst snd];
  host_run.

Ltac recorder_run :=
  cbv beta iota zeta delta
    [exec bind ret get modify ScreenRecorder.effects
     ScreenRecorder.onHost ScreenRecorder.fromHost ScreenRecorder.onState
     ScreenRecorder.onRefs ScreenRecorder.orThrow
     ScreenRecorder.setRecordingState
     ScreenRecorder.setScreenRecordingUrl ScreenRecorder.setWebcamRecordingUrl
     ScreenRecorder.setCombinedRecordingUrl ScreenRecorder.setStreamRefs
     ScreenRecorder.setRecorderRefs ScreenRecorder.permissionDenied
     ScreenRecorder.requestPermissions ScreenRecorder.startRecording
     ScreenRecorder.pauseRecording ScreenRecorder.resumeRecording
     ScreenRecorder.combineVideos ScreenRecorder.stopRecording
     ScreenRecorder.cleanup ScreenRecorder.onDataAvailable
     ScreenRecorder.onStop ScreenRecorder.onAnimationFrame
     ScreenRecorder.handle ScreenRecorder.step ScreenRecorder.recorder
     ScreenRecorder.chunksOf
     ScreenRecorder.state ScreenRecorder.refs ScreenRecorder.host fst snd];
  host_run.


(** The two outcomes of each call that can throw. *)
Ltac page_throws :=
  repeat (match goal with
          | |- context [inactive ?r ?h] => destruct (inactive r h)
          end; page_run).

Ltac recorder_throws :=
  repeat (match goal with
          | |- context [inactive ?r ?h] => destruct (inactive r h)
          end; recorder_run).

(** The trace as the old trace followed by the new calls. *)
Ltac trace_norm :=
  repeat rewrite <- app_assoc; cbn [app]; rewrite ?skipn_length_app.

Lemma existsb_isDenied_stops (s : list Track) :
  existsb isDenied (map TrackStop s) = false.
Proof. induction s; simpl; auto. Qed.

Lemma skipn_length_self {A : Type} (l : list A) : skipn (length l) l = [].
Proof. apply skipn_all. Qed.

(** The calls of a run, in normal form. *)
Ltac effects_norm :=
  trace_norm; rewrite ?skipn_length_self.

Lemma existsb_startsCombining_stops (s : list Track) :
  existsb startsCombining (map TrackStop s) = false.
Proof. induction s; simpl; auto. Qed.

Ltac quiet :=
  effects_norm;
  repeat (rewrite existsb_app || rewrite existsb_isDenied_stops
          || rewrite existsb_startsCombining_stops
          || cbn [existsb isDenied startsCombining orb]);
  try reflexivity.

Ltac refuted := let H := fresh in intros H; discriminate H.

(** ** The controls before any recording *)

(** C10. While the screen recorder reference or the webcam recorder
    reference is null, [pauseRecording], [resumeRecording] and
    [stopRecording] do nothing: the state, the references and the browser
    are as before, and no call is made. *)
Theorem controls_without_recorders_do_nothing :
  (forall w : Page.World,
      Page.screenRecorderRef (Page.refs w) = None \/
      Page.webcamRecorderRef (Page.refs w) = None ->
      exec Page.pauseRecording w = w /\
      exec Page.resumeRecording w = w /\
      exec Page.stopRecording w = w) /\
  (forall (w : ScreenRecorder.World) (p : Playback),
      ScreenRecorder.screenRecorderRef (ScreenRecorder.refs w) = None \/
      ScreenRecorder.webcamRecorderRef (ScreenRecorder.refs w) = None ->
      exec ScreenRecorder.pauseRecording w = w /\
      exec ScreenRecorder.resumeRecording w = w /\
      exec (ScreenRecorder.stopRecording p) w = w).
Proof.
  split.
  - intros [st rf h] H; cbn [Page.refs] in H. page_run.
    destruct H as [H|H]; rewrite H;
      try (destruct (Page.screenRecorderRef rf)); auto.
  - intros [st rf h] p H; cbn [ScreenRecorder.refs] in H. recorder_run.
    destruct H as [H|H]; rewrite H;
      try (destruct (ScreenRecorder.screenRecorderRef rf)); auto.
Qed.

Lemma controls_without_recorders_do_nothing_witness :
  exec Page.pauseRecording Page.initial = Page.initial /\
  exec Page.resumeRecording Page.initial = Page.initial /\
  exec Page.stopRecording Page.initial = Page.initial.
Proof.
  apply (proj1 controls_without_recorders_do_nothing Page.initial).
  left. reflexivity.
Defined.

(** ** Permissions *)

(** [requestPermissions] returns false exactly when one of the two
    capture requests is rejected. *)
Lemma page_permissions_refused (scope : Settings) (c : Capture) (w : Page.World) :
  fst (Page.requestPermissions scope c w) = false <->
  displayMedia c = None \/ userMedia c = None.
Proof.
  destruct w as [[rs url cfg rad [|] voice] rf [R F n T]];
    destruct c as [[s|] [u|]]; page_run;
    cbn [displayMedia userMedia Page.showPreview]; intuition congruence.
Qed.

Lemma recorder_permissions_refused (c : Capture) (w : ScreenRecorder.World) :
  fst (ScreenRecorder.requestPermissions c w) = false <->
  displayMedia c = None \/ userMedia c = None.
Proof.
  destruct w as [st rf [R F n T]]; destruct c as [[s|] [u|]]; recorder_run;
    cbn [displayMedia userMedia]; intuition congruence.
Qed.

(** What [startRecording] of the page does when a capture request is
    rejected: the request or requests, the log and the notification. *)
Lemma page_start_refused (scope : Settings) (c : Capture) (data : list N)
    (w : Page.World) :
  displayMedia c = None \/ userMedia c = None ->
  let size := videoQualities (videoQuality scope) in
  exec (Page.startRecording scope c data) w =
  Page.mkWorld (Page.state w) (Page.refs w)
    (mkHost (recorders (Page.host w)) (frames (Page.host w))
       (nextFrame (Page.host w))
       (trace (Page.host w)
          ++ GetDisplayMedia (Some size)
          :: match displayMedia c with
             | Some _ => [GetUserMedia (Some size)]
             | None => []
             end
          ++ [ConsoleError "Error requesting permissions:";
              Toast PermissionDenied])).
Proof.
  intros H. destruct w as [st rf [R F n T]].
  destruct c as [[s|] [u|]]; cbn [displayMedia userMedia] in H;
    try (destruct H; discriminate);
    page_run; cbn [displayMedia]; trace_norm; reflexivity.
Qed.

Lemma recorder_start_refused (c : Capture) (w : ScreenRecorder.World) :
  displayMedia c = None \/ userMedia c = None ->
  exec (ScreenRecorder.startRecording c) w =
  ScreenRecorder.mkWorld (ScreenRecorder.state w) (ScreenRecorder.refs w)
    (mkHost (recorders (ScreenRecorder.host w)) (frames (ScreenRecorder.host w))
       (nextFrame (ScreenRecorder.host w))
       (trace (ScreenRecorder.host w)
          ++ GetDisplayMedia None
          :: match displayMedia c with
             | Some _ => [GetUserMedia None]
             | None => []
             end
          ++ [ConsoleError "Error requesting permissions:";
              Toast PermissionDenied])).
Proof.
  intros H. destruct w as [st rf [R F n T]].
  destruct c as [[s|] [u|]]; cbn [displayMedia userMedia] in H;
    try (destruct H; discriminate);
    recorder_run; cbn [displayMedia]; trace_norm; reflexivity.
Qed.

(** C5. Whenever [requestPermissions] returns false, [startRecording]
    returns without constructing or starting a recorder and without
    changing the recording state: an idle component stays idle. *)
Theorem no_recording_without_permissions :
  (forall (scope : Settings) (c : Capture) (data : list N) (w : Page.World),
      fst (Page.requestPermissions scope c w) = false ->
      let w' := exec (Page.startRecording scope c data) w in
      Page.state w' = Page.state w /\
      Page.refs w' = Page.refs w /\
      recorders (Page.host w') = recorders (Page.host w) /\
      existsb usesMediaRecorder
        (Page.effects (Page.startRecording scope c data) w) = false /\
      (Page.recordingState (Page.state w) = Page.idle ->
       Page.recordingState (Page.state w') = Page.idle)) /\
  (forall (c : Capture) (w : ScreenRecorder.World),
      fst (ScreenRecorder.requestPermissions c w) = false ->
      let w' := exec (ScreenRecorder.startRecording c) w in
      ScreenRecorder.state w' = ScreenRecorder.state w /\
      ScreenRecorder.refs w' = ScreenRecorder.refs w /\
      recorders (ScreenRecorder.host w') = recorders (ScreenRecorder.host w) /\
      existsb usesMediaRecorder
        (ScreenRecorder.effects (ScreenRecorder.startRecording c) w) = false /\
      (ScreenRecorder.recordingState (ScreenRecorder.state w)
         = ScreenRecorder.idle ->
       ScreenRecorder.recordingState (ScreenRecorder.state w')
         = ScreenRecorder.idle)).
Proof.
  split.
  - intros scope c data w H w'. apply page_permissions_refused in H.
    subst w'. unfold Page.effects.
    rewrite (@page_start_refused scope c data w H).
    cbn [Page.state Page.refs Page.host recorders trace].
    rewrite skipn_length_app.
    repeat split; auto; destruct (displayMedia c); reflexivity.
  - intros c w H w'. apply recorder_permissions_refused in H.
    subst w'. unfold ScreenRecorder.effects.
    rewrite (@recorder_start_refused c w H).
    cbn [ScreenRecorder.state ScreenRecorder.refs ScreenRecorder.host
         recorders trace].
    rewrite skipn_length_app.
    repeat split; auto; destruct (displayMedia c); reflexivity.
Qed.

Lemma no_recording_without_permissions_witness :
  Page.state (exec (Page.startRecording defaults rejected []) Page.initial)
  = Page.state Page.initial.
Proof.
  apply (proj1 no_recording_without_permissions defaults rejected []
           Page.initial).
  reflexivity.
Defined.

(** ** Combining *)

Lemma adjust_at_length {A : Type} (f : A -> A) (l : list A) (x : A) (l' : list A) :
  adjust f (length l) (l ++ x :: l') = l ++ f x :: l'.
Proof. induction l; simpl; congruence. Qed.

Lemma adjust_after_length {A : Type} (f : A -> A) (l : list A) (x y : A)
    (l' : list A) :
  adjust f (S (length l)) (l ++ x :: y :: l') = l ++ x :: f y :: l'.
Proof.
  induction l as [|a l IH]; [reflexivity|].
  cbn [length app adjust]. cbn [length app adjust] in IH. rewrite IH.
  reflexivity.
Qed.

Lemma length_snoc {A : Type} (l : list A) (x : A) :
  length (l ++ [x]) = S (length l).
Proof. rewrite length_app. simpl. lia. Qed.

Ltac heap_norm :=
  repeat (first [ rewrite adjust_at_length
                | rewrite adjust_after_length
                | rewrite <- app_assoc; cbn [app]
                | rewrite length_snoc ];
          cbv beta iota delta
            [stream mimeType running ondataavailable onstop chunks]).

(** The guard of the two [ScreenRecorder] files (screen-recorder.tsx
    115, part_000 144). *)
Lemma recorder_combine_guard (p : Playback) (w : ScreenRecorder.World) :
  ScreenRecorder.screenRecordingUrl (ScreenRecorder.state w) = None \/
  ScreenRecorder.webcamRecordingUrl (ScreenRecorder.state w) = None ->
  exec (ScreenRecorder.combineVideos p) w = w.
Proof.
  destruct w as [[rs [su|] [wu|] cu] rf h];
    cbn [ScreenRecorder.state ScreenRecorder.screenRecordingUrl
         ScreenRecorder.webcamRecordingUrl];
    intros [H|H]; try discriminate; reflexivity.
Qed.

Lemma part_combine_guard (p : Playback) (w : Part000.World) :
  Part000.screenRecordingUrl (Part000.state w) = None \/
  Part000.webcamRecordingUrl (Part000.state w) = None ->
  exec (Part000.combineVideos p) w = w.
Proof.
  destruct w as [[rs [su|] [wu|] cu cfg] rf h];
    cbn [Part000.state Part000.screenRecordingUrl Part000.webcamRecordingUrl];
    intros [H|H]; try discriminate; reflexivity.
Qed.

Lemma nth_error_adjust {A : Type} (f : A -> A) (r i : nat) (l : list A) :
  nth_error (adjust f r l) i =
  if Nat.eqb i r then option_map f (nth_error l i) else nth_error l i.
Proof.
  revert r i. induction l as [|x l IH]; intros r i.
  - destruct r, i; simpl; try destruct (Nat.eqb _ _); reflexivity.
  - destruct r, i; simpl; auto.
Qed.

(** Stopping a recorder leaves the chunks of every recorder in place. *)
Lemma chunksOf_setRunning (b : bool) (r i : RecorderId) (w : Page.World) :
  Page.chunksOf i (exec (Page.onHost (setRunning b r)) w) = Page.chunksOf i w.
Proof.
  destruct w as [st rf [R F n T]]. unfold Page.chunksOf, Page.recorder.
  page_run. rewrite nth_error_adjust.
  destruct (Nat.eqb i r); [|reflexivity].
  destruct (nth_error R i) as [[s m run od os ch]|]; reflexivity.
Qed.

(** The page combines only in the stop handler of a screen recorder,
    and then on the blobs of the chunks the two recorders have delivered
    by then. *)
Lemma page_combines_on_stop_only (e : Page.Event) (w : Page.World) :
  existsb startsCombining (Page.effects (Page.handle e) w) = true ->
  exists r p m scope webcamRecorder,
    e = Page.Stopped r p /\
    Page.recorder r w = Some m /\ running m = true /\
    onstop m = Some (CombineRecordings scope webcamRecorder) /\
    Page.step e w =
    exec (Page.combineVideos scope (newBlob (chunks m))
            (newBlob (Page.chunksOf webcamRecorder w)) p)
      (exec (Page.onHost (setRunning false r)) w).
Proof.
  destruct e as [scope [dm um] data| | | |cfg' rad' pv'|r d|r p|id s d].
  - destruct w as [[rs url cfg rad pv voice] [ss ws sr wr an af] [R F n T]].
    destruct dm as [dm|]; [destruct um as [um|]|]; [destruct pv|..];
      page_run; cbn [Page.showPreview Page.screenStreamRef
        Page.webcamStreamRef Page.audioAnalyserRef]; page_run; quiet; refuted.
  - destruct w as [[rs url cfg rad pv voice] [ss ws [sr|] [wr|] an af] [R F n T]];
      page_run; cbn [Page.screenRecorderRef Page.webcamRecorderRef];
      page_run; page_throws; quiet; refuted.
  - destruct w as [[rs url cfg rad pv voice] [ss ws [sr|] [wr|] an af] [R F n T]];
      page_run; cbn [Page.screenRecorderRef Page.webcamRecorderRef];
      page_run; page_throws; quiet; refuted.
  - destruct w as [[rs url cfg rad pv voice]
                     [[ss|] [ws|] [sr|] [wr|] an [[|id]|]] [R F n T]];
      page_run;
      cbn [Page.screenRecorderRef Page.webcamRecorderRef Page.screenStreamRef
           Page.webcamStreamRef Page.animationFrameRef truthy Nat.eqb negb
           Page.when]; page_run; quiet; refuted.
  - destruct w as [st rf [R F n T]]. page_run; quiet; refuted.
  - destruct w as [st rf [R F n T]]. page_run.
    destruct (nth_error R r) as [[s m [|] [[| |]|] os ch]|];
      page_run; quiet; refuted.
  - intros H. destruct (Page.recorder r w) as [m|] eqn:E.
    + destruct m as [s mt run od os ch].
      destruct run; [destruct os as [[scope wid| |f| |]|]|];
        [|exfalso; revert H; destruct w as [st rf [R F n T]];
          unfold Page.recorder in E; cbn [Page.host recorders] in E;
          page_run; rewrite E; page_run; quiet; refuted..].
      exists r, p,
        (mkRecorder s mt true od (Some (CombineRecordings scope wid)) ch),
        scope, wid.
      split; [reflexivity|]. split; [exact E|].
      split; [reflexivity|]. split; [reflexivity|].
      cbn [chunks]. rewrite <- (chunksOf_setRunning false r wid w).
      destruct w as [st rf [R F n T]]. unfold Page.recorder in E.
      cbn [Page.host recorders] in E.
      unfold Page.step, Page.handle, Page.onStop.
      unfold exec at 1, bind at 1, get. unfold Page.recorder.
      cbn [Page.host recorders]. rewrite E. cbn [running].
      reflexivity.
    + exfalso. revert H. destruct w as [st rf [R F n T]].
      unfold Page.recorder in E. cbn [Page.host recorders] in E.
      page_run. rewrite E. page_run. quiet. refuted.
  - destruct w as [st rf [R F n T]]. destruct s as [[|] [|]]; page_run;
      destruct (find _ F) as [[i [c|]]|]; page_run; quiet; refuted.
Qed.

(** X23. In the [ScreenRecorder] component, of screen-recorder.tsx and
    of part_000, a call of [combineVideos] in which the screen recording
    URL or the webcam recording URL is null returns at once: no canvas,
    no recorder, no change of state.  The [combineVideos] of page.tsx
    has no such test; it runs only from the stop handler of a running
    screen recorder, on the blobs of the chunks the two recorders have
    delivered by then. *)
Theorem combine_needs_both_recordings :
  (forall (p : Playback) (w : ScreenRecorder.World),
      ScreenRecorder.screenRecordingUrl (ScreenRecorder.state w) = None \/
      ScreenRecorder.webcamRecordingUrl (ScreenRecorder.state w) = None ->
      exec (ScreenRecorder.combineVideos p) w = w) /\
  (forall (p : Playback) (w : Part000.World),
      Part000.screenRecordingUrl (Part000.state w) = None \/
      Part000.webcamRecordingUrl (Part000.state w) = None ->
      exec (Part000.combineVideos p) w = w) /\
  (forall (e : Page.Event) (w : Page.World),
      existsb startsCombining (Page.effects (Page.handle e) w) = true ->
      exists r p m scope webcamRecorder,
        e = Page.Stopped r p /\
        Page.recorder r w = Some m /\ running m = true /\
        onstop m = Some (CombineRecordings scope webcamRecorder) /\
        Page.step e w =
        exec (Page.combineVideos scope (newBlob (chunks m))
                (newBlob (Page.chunksOf webcamRecorder w)) p)
          (exec (Page.onHost (setRunning false r)) w)).
Proof.
  split; [|split].
  - exact recorder_combine_guard.
  - exact part_combine_guard.
  - exact page_combines_on_stop_only.
Qed.

Lemma combine_needs_both_recordings_witness :
  exec (ScreenRecorder.combineVideos noPlayback) ScreenRecorder.initial
  = ScreenRecorder.initial.
Proof.
  apply (proj1 combine_needs_both_recordings noPlayback ScreenRecorder.initial).
  left. reflexivity.
Defined.

(** ** Failures *)

(** What [combineVideos] of the page does when the canvas has no 2d
    context: what it does when the recordings never load, then the
    canvas, the request for the context and the log. *)
Lemma page_combine_no_context (scope : Settings) (sb wb : Blob) (p : Playback)
    (w : Page.World) :
  metadata p <> None -> context2d p = false ->
  let w0 := exec (Page.combineVideos scope sb wb (stalled p)) w in
  exec (Page.combineVideos scope sb wb p) w =
  Page.mkWorld (Page.state w0) (Page.refs w0)
    (mkHost (recorders (Page.host w0)) (frames (Page.host w0))
       (nextFrame (Page.host w0))
       (trace (Page.host w0)
          ++ [CreateCanvas; GetContext2d;
              ConsoleError "Unable to create canvas context"])) /\
  Page.refs w0 = Page.refs w /\
  recorders (Page.host w0) = recorders (Page.host w) /\
  frames (Page.host w0) = frames (Page.host w) /\
  Page.effects (Page.combineVideos scope sb wb (stalled p)) w =
  [CreateVideo screenVideo; CreateVideo webcamVideo;
   CreateObjectURL sb; SetVideoSrc screenVideo (ObjectURL sb);
   CreateObjectURL wb; SetVideoSrc webcamVideo (ObjectURL wb)].
Proof.
  intros Hm Hc. destruct w as [st rf [R F n T]].
  destruct p as [[[sm wm]|] ctx cs fs ds]; [|contradiction].
  cbn [context2d] in Hc. subst ctx. unfold stalled.
  page_run. effects_norm. repeat split; reflexivity.
Qed.

(** Only a rejected capture request is answered with the notification
    of a failure. *)
Lemma page_denied_only_on_rejection (e : Page.Event) (w : Page.World) :
  existsb isDenied (Page.effects (Page.handle e) w) = true ->
  exists scope c data,
    e = Page.ClickStart scope c data /\
    (displayMedia c = None \/ userMedia c = None).
Proof.
  destruct w as [[rs url cfg rad pv voice] [ss ws sr wr an af] [R F n T]].
  destruct e as [scope [dm um] data| | | |cfg' rad' pv'|r d|r p|id s d].
  - destruct dm as [dm|]; [destruct um as [um|]|].
    + destruct pv; page_run; cbn [Page.showPreview Page.screenStreamRef
        Page.webcamStreamRef Page.audioAnalyserRef]; page_run; quiet;
        refuted.
    + intros _. exists scope, (mkCapture (Some dm) None), data. auto.
    + intros _. exists scope, (mkCapture None um), data. auto.
  - destruct sr, wr; page_run;
      cbn [Page.screenRecorderRef Page.webcamRecorderRef]; page_run;
      page_throws; quiet; refuted.
  - destruct sr, wr; page_run;
      cbn [Page.screenRecorderRef Page.webcamRecorderRef]; page_run;
      page_throws; quiet; refuted.
  - destruct sr, wr, ss, ws, af as [[|id]|]; page_run;
      cbn [Page.screenRecorderRef Page.webcamRecorderRef Page.screenStreamRef
           Page.webcamStreamRef Page.animationFrameRef truthy Nat.eqb negb
           Page.when]; page_run; quiet; refuted.
  - page_run; quiet; refuted.
  - page_run. destruct (nth_error R r) as [[s m [|] [[| |]|] os ch]|];
      page_run; quiet; refuted.
  - page_run. destruct (nth_error R r) as [[s m [|] od os ch]|];
      [|page_run; quiet; refuted..].
    destruct os as [[scope wid| |f| |]|]; page_run;
      try (quiet; refuted).
    destruct p as [[[sm wm]|] [|] cs [[|] [|]] ds]; page_run; heap_norm;
      quiet; refuted.
  - destruct s as [[|] [|]]; page_run;
      destruct (find _ F) as [[i [c|]]|]; page_run; quiet; refuted.
Qed.

(** X24. The one notification of a failure on the page is the toast
    "Permission denied" of [requestPermissions]: it is shown only when a
    capture request was rejected, and then once, with no request
    repeated and with the state, the references, the recorders and the
    pending callbacks as they were.  A canvas without a 2d context is
    logged to the console and nothing follows: no notification, no second
    request, and the state, the references, the recorders and the pending
    callbacks are as they were when the canvas was asked for. *)
Theorem failure_handling :
  (forall (scope : Settings) (c : Capture) (data : list N) (w : Page.World),
      displayMedia c = None \/ userMedia c = None ->
      let w' := exec (Page.startRecording scope c data) w in
      let es := Page.effects (Page.startRecording scope c data) w in
      Page.state w' = Page.state w /\
      Page.refs w' = Page.refs w /\
      recorders (Page.host w') = recorders (Page.host w) /\
      frames (Page.host w') = frames (Page.host w) /\
      toasts es = [Toast PermissionDenied] /\
      filter isRequest es
      = GetDisplayMedia (Some (videoQualities (videoQuality scope)))
        :: match displayMedia c with
           | Some _ => [GetUserMedia (Some (videoQualities (videoQuality scope)))]
           | None => []
           end) /\
  (forall (scope : Settings) (screenBlob webcamBlob : Blob) (p : Playback)
          (w : Page.World),
      metadata p <> None -> context2d p = false ->
      let w' := exec (Page.combineVideos scope screenBlob webcamBlob p) w in
      let w0 :=
        exec (Page.combineVideos scope screenBlob webcamBlob (stalled p)) w in
      let es := Page.effects (Page.combineVideos scope screenBlob webcamBlob p) w in
      es = Page.effects
             (Page.combineVideos scope screenBlob webcamBlob (stalled p)) w
             ++ [CreateCanvas; GetContext2d;
                 ConsoleError "Unable to create canvas context"] /\
      toasts es = [] /\
      filter isRequest es = [GetContext2d] /\
      Page.state w' = Page.state w0 /\
      Page.refs w' = Page.refs w0 /\
      recorders (Page.host w') = recorders (Page.host w0) /\
      frames (Page.host w') = frames (Page.host w0)) /\
  (forall (e : Page.Event) (w : Page.World),
      existsb isDenied (Page.effects (Page.handle e) w) = true ->
      exists scope c data,
        e = Page.ClickStart scope c data /\
        (displayMedia c = None \/ userMedia c = None)).
Proof.
  split; [|split].
  - intros scope c data w H w' es. subst w' es. unfold Page.effects.
    rewrite (@page_start_refused scope c data w H).
    cbn [Page.state Page.refs Page.host recorders frames trace].
    rewrite skipn_length_app.
    repeat split; destruct (displayMedia c); reflexivity.
  - intros scope sb wb p w Hm Hc w' w0 es. subst w' w0 es.
    destruct (@page_combine_no_context scope sb wb p w Hm Hc)
      as [Hrun [Hrefs [Hrec [Hfr Hes]]]].
    rewrite Hes. unfold Page.effects at 1 2 3. rewrite Hrun.
    cbn [Page.state Page.refs Page.host recorders frames trace].
    unfold Page.effects in Hes.
    assert (Ht : trace (Page.host
                   (exec (Page.combineVideos scope sb wb (stalled p)) w))
                 = trace (Page.host w)
                     ++ [CreateVideo screenVideo; CreateVideo webcamVideo;
                         CreateObjectURL sb;
                         SetVideoSrc screenVideo (ObjectURL sb);
                         CreateObjectURL wb;
                         SetVideoSrc webcamVideo (ObjectURL wb)]).
    { destruct w as [st rf [R F n T]]. unfold stalled. page_run.
      trace_norm. reflexivity. }
    rewrite Ht. rewrite <- app_assoc. rewrite skipn_length_app.
    repeat split; reflexivity.
  - exact page_denied_only_on_rejection.
Qed.

Lemma failure_handling_witness :
  Page.state (exec (Page.startRecording defaults rejected []) Page.initial)
  = Page.state Page.initial.
Proof.
  apply (proj1 failure_handling defaults rejected [] Page.initial).
  left. reflexivity.
Defined.


(** ** Audio *)

(** The audio graph [combineVideos] of the page builds, when it gets
    that far. *)
Lemma page_combine_audio (scope : Settings) (sb wb : Blob) (p : Playback)
    (w : Page.World) :
  audioSources (Page.effects (Page.combineVideos scope sb wb p) w) =
  match metadata p with
  | Some _ =>
      if context2d p
      then [ElementSource screenVideo; ElementSource webcamVideo]
      else []
  | None => []
  end.
Proof.
  destruct w as [st rf [R F n T]].
  destruct p as [[[sm wm]|] [|] cs [[|] [|]] ds]; page_run; heap_norm;
    effects_norm; reflexivity.
Qed.

Lemma page_combine_streams (scope : Settings) (sb wb : Blob) (p : Playback)
    (w : Page.World) :
  metadata p <> None -> context2d p = true ->
  recordedStreams (Page.effects (Page.combineVideos scope sb wb p) w) =
  [canvasStream p;
   getVideoTracks (canvasStream p) ++ getAudioTracks (destinationStream p)].
Proof.
  intros Hm Hc. destruct w as [st rf [R F n T]].
  destruct p as [[[sm wm]|] ctx cs [[|] [|]] ds]; try contradiction;
    cbn [context2d] in Hc; subst ctx; page_run; heap_norm; effects_norm;
    reflexivity.
Qed.

(** C8, as amended. The combining step of page.tsx connects exactly two
    sources to the audio destination, the screen recording and the webcam
    recording, each directly; the final recorder records the video tracks
    of the canvas with the audio tracks of that destination.  When the
    metadata never load or the canvas has no context, no audio node is
    connected at all. *)
Theorem audio_is_the_two_recordings (scope : Settings)
    (screenBlob webcamBlob : Blob) (p : Playback) (w : Page.World) :
  let es := Page.effects (Page.combineVideos scope screenBlob webcamBlob p) w in
  (metadata p <> None -> context2d p = true ->
   audioSources es = [ElementSource screenVideo; ElementSource webcamVideo] /\
   recordedStreams es =
   [canvasStream p;
    getVideoTracks (canvasStream p) ++ getAudioTracks (destinationStream p)]) /\
  (metadata p = None \/ context2d p = false -> audioSources es = []).
Proof.
  intros es. subst es. rewrite page_combine_audio. split.
  - intros Hm Hc. split.
    + destruct (metadata p); [|contradiction]. rewrite Hc. reflexivity.
    + apply page_combine_streams; assumption.
  - intros [H|H]; rewrite H; [reflexivity|].
    destruct (metadata p); reflexivity.
Qed.

Lemma audio_is_the_two_recordings_witness :
  audioSources
    (Page.effects (Page.combineVideos defaults [] [] goodPlayback) Page.initial)
  = [ElementSource screenVideo; ElementSource webcamVideo].
Proof.
  apply (proj1 (audio_is_the_two_recordings defaults [] [] goodPlayback
                  Page.initial)).
  - discriminate.
  - reflexivity.
Defined.

(** C8 as stated fails: when a recording is combined, the destination
    that feeds the audio of the final recording has two sources. *)
Lemma page_mixes_two_audio_sources :
  exists w : Page.World,
    Page.run recordedRun Page.initial = Some w /\
    audioSources (Page.effects (Page.handle (Page.Stopped 0 goodPlayback)) w)
    = [ElementSource screenVideo; ElementSource webcamVideo] /\
    ~ (length
         (audioSources
            (Page.effects (Page.handle (Page.Stopped 0 goodPlayback)) w))
       <= 1)%nat.
Proof.
  eexists. split; [vm_compute; reflexivity|].
  split; [vm_compute; reflexivity|]. vm_compute. lia.
Qed.

(** ** Teardown *)

(** What the cleanup of the page does. *)
Lemma page_cleanup_result (w : Page.World) :
  exec Page.cleanup w =
  Page.mkWorld (Page.state w) (Page.refs w)
    (mkHost (recorders (Page.host w))
       (framesAfterCancel (Page.animationFrameRef (Page.refs w))
          (frames (Page.host w)))
       (nextFrame (Page.host w))
       (trace (Page.host w)
          ++ map TrackStop (tracksOf (Page.screenStreamRef (Page.refs w)))
          ++ map TrackStop (tracksOf (Page.webcamStreamRef (Page.refs w)))
          ++ cancelOf (Page.animationFrameRef (Page.refs w)))).
Proof.
  destruct w as [st [[ss|] [ws|] sr wr an [[|id]|]] [R F n T]]; page_run;
    cbn [Page.screenStreamRef Page.webcamStreamRef Page.animationFrameRef
         truthy Nat.eqb negb tracksOf cancelOf framesAfterCancel map app];
    page_run; repeat rewrite <- app_assoc; cbn [app]; rewrite ?app_nil_r;
    reflexivity.
Qed.

Lemma recorder_cleanup_result (w : ScreenRecorder.World) :
  exec ScreenRecorder.cleanup w =
  ScreenRecorder.mkWorld (ScreenRecorder.state w) (ScreenRecorder.refs w)
    (mkHost (recorders (ScreenRecorder.host w)) (frames (ScreenRecorder.host w))
       (nextFrame (ScreenRecorder.host w))
       (trace (ScreenRecorder.host w)
          ++ map TrackStop
               (tracksOf (ScreenRecorder.screenStreamRef (ScreenRecorder.refs w)))
          ++ map TrackStop
               (tracksOf (ScreenRecorder.webcamStreamRef (ScreenRecorder.refs w))))).
Proof.
  destruct w as [st [[ss|] [ws|] sr wr] [R F n T]]; recorder_run;
    cbn [ScreenRecorder.screenStreamRef ScreenRecorder.webcamStreamRef
         tracksOf map app];
    recorder_run; repeat rewrite <- app_assoc; cbn [app]; rewrite ?app_nil_r;
    reflexivity.
Qed.

Lemma filter_not_in (id : nat) (fs : list (nat * FrameCallback)) (cb : FrameCallback) :
  ~ In (id, cb) (filter (fun f => negb (Nat.eqb (fst f) id)) fs).
Proof.
  intros H. apply filter_In in H. destruct H as [_ H]. cbn [fst] in H.
  rewrite Nat.eqb_refl in H. discriminate H.
Qed.

(** C7, as amended. On teardown every track of the screen stream and of
    the webcam stream the references hold is stopped; in page.tsx the
    animation-frame callback that [animationFrameRef] names, the one of
    the voice detection, is cancelled and is pending no more; the cleanup
    makes no other call, schedules nothing and leaves the state, the
    references, the recorders and every other pending callback as they
    were.  screen-recorder.tsx cancels no callback. *)
Theorem teardown_stops_tracks_and_voice_detection :
  (forall w : Page.World,
      let w' := exec Page.cleanup w in
      Page.effects Page.cleanup w
      = map TrackStop (tracksOf (Page.screenStreamRef (Page.refs w)))
        ++ map TrackStop (tracksOf (Page.webcamStreamRef (Page.refs w)))
        ++ cancelOf (Page.animationFrameRef (Page.refs w)) /\
      (forall id cb,
          Page.animationFrameRef (Page.refs w) = Some id -> truthy id = true ->
          ~ In (id, cb) (frames (Page.host w'))) /\
      (forall id cb,
          Page.animationFrameRef (Page.refs w) <> Some id ->
          In (id, cb) (frames (Page.host w)) ->
          In (id, cb) (frames (Page.host w'))) /\
      (forall f, In f (frames (Page.host w')) -> In f (frames (Page.host w))) /\
      Page.state w' = Page.state w /\
      Page.refs w' = Page.refs w /\
      recorders (Page.host w') = recorders (Page.host w)) /\
  (forall w : ScreenRecorder.World,
      let w' := exec ScreenRecorder.cleanup w in
      ScreenRecorder.effects ScreenRecorder.cleanup w
      = map TrackStop
          (tracksOf (ScreenRecorder.screenStreamRef (ScreenRecorder.refs w)))
        ++ map TrackStop
             (tracksOf (ScreenRecorder.webcamStreamRef (ScreenRecorder.refs w))) /\
      frames (ScreenRecorder.host w') = frames (ScreenRecorder.host w) /\
      ScreenRecorder.state w' = ScreenRecorder.state w /\
      ScreenRecorder.refs w' = ScreenRecorder.refs w /\
      recorders (ScreenRecorder.host w') = recorders (ScreenRecorder.host w)).
Proof.
  split.
  - intros w w'. subst w'. unfold Page.effects. rewrite page_cleanup_result.
    cbn [Page.state Page.refs Page.host recorders frames trace].
    rewrite skipn_length_app.
    split; [reflexivity|]. split; [|split; [|split; [|auto]]].
    + intros id cb Href Hid. rewrite Href. unfold framesAfterCancel.
      rewrite Hid. apply filter_not_in.
    + intros id cb Href Hin. unfold framesAfterCancel.
      destruct (Page.animationFrameRef (Page.refs w)) as [id'|]; auto.
      destruct (truthy id'); auto.
      apply filter_In. split; auto. cbn [fst].
      destruct (Nat.eqb_spec id id'); [subst; congruence|reflexivity].
    + intros f. unfold framesAfterCancel.
      destruct (Page.animationFrameRef (Page.refs w)) as [id'|]; auto.
      destruct (truthy id'); auto.
      intros H. apply filter_In in H. tauto.
  - intros w w'. subst w'. unfold ScreenRecorder.effects.
    rewrite recorder_cleanup_result.
    cbn [ScreenRecorder.state ScreenRecorder.refs ScreenRecorder.host
         recorders frames trace].
    rewrite skipn_length_app. auto.
Qed.

Lemma teardown_stops_tracks_and_voice_detection_witness :
  Page.effects Page.cleanup Page.initial = [].
Proof.
  apply (proj1 teardown_stops_tracks_and_voice_detection Page.initial).
Defined.

(** C7 as stated fails on page.tsx: unmounting in the middle of a
    combining leaves the redraw callback of [drawFrame] pending. *)
Lemma teardown_leaves_redraw_pending :
  exists (w : Page.World) (id : nat) (c : DrawClosure),
    Page.run combiningRun Page.initial = Some w /\
    In (id, DrawFrame c) (frames (Page.host w)) /\
    In (id, DrawFrame c) (frames (Page.host (exec Page.cleanup w))).
Proof.
  eexists. eexists. eexists. split; [vm_compute; reflexivity|].
  split; vm_compute; left; reflexivity.
Qed.

(** ** The frame loop *)

Lemma drawFrame_result (c : DrawClosure) (s : VideoStatus) (h : Host) :
  drawFrame c s h =
  mkHost (recorders h)
    (if playing s then frames h ++ [(nextFrame h, DrawFrame c)] else frames h)
    (if playing s then S (nextFrame h) else nextFrame h)
    (trace h ++ frameDraws c ++ [frameEnd c s (nextFrame h)]).
Proof.
  destruct h as [R F n T], s as [[|] [|]]; unfold frameDraws, frameEnd, playing;
    host_run; repeat rewrite <- app_assoc; reflexivity.
Qed.

Lemma trace_takeFrame (id : nat) (h : Host) :
  trace (snd (takeFrame id h)) = trace h /\
  nextFrame (snd (takeFrame id h)) = nextFrame h /\
  recorders (snd (takeFrame id h)) = recorders h.
Proof.
  unfold takeFrame. destruct (find _ (frames h)); simpl; auto.
Qed.

(** While the screen video plays the loop goes on. *)
Lemma drawLoop_playing (c : DrawClosure) (l : list VideoStatus) (h : Host) :
  forallb playing l = true -> drawLoop c l h = None.
Proof.
  revert h. induction l as [|s l IH]; intros h H; simpl in *; auto.
  apply andb_prop in H. destruct H as [Hs Hl].
  unfold playing in Hs. rewrite Hs. apply IH. exact Hl.
Qed.

(** The loop stops at the first frame at which the screen video is
    paused or has ended, and stops the recorder there. *)
Lemma drawLoop_stops (c : DrawClosure) (pre : list VideoStatus) (s : VideoStatus)
    (post : list VideoStatus) (h : Host) :
  forallb playing pre = true -> playing s = false ->
  exists h',
    drawLoop c (pre ++ s :: post) h = Some h' /\
    recorders h' = recorders h /\
    trace h' =
    trace h ++ loopingFrames c (length pre) (nextFrame h)
      ++ frameDraws c ++ [RecorderStop (combinedRecorder c)].
Proof.
  revert h. induction pre as [|s0 pre IH]; intros h Hpre Hs.
  - cbn [app drawLoop length loopingFrames].
    unfold playing in Hs. rewrite Hs.
    eexists. split; [reflexivity|].
    rewrite drawFrame_result. unfold frameEnd, playing at 3. 
    unfold playing. rewrite Hs. cbn [recorders trace]. auto.
  - cbn [forallb] in Hpre. apply andb_prop in Hpre. destruct Hpre as [H0 Hpre].
    cbn [app drawLoop length loopingFrames].
    assert (H0' := H0). unfold playing in H0'. rewrite H0'.
    destruct (IH (snd (takeFrame (nextFrame h) (drawFrame c s0 h))) Hpre Hs)
      as [h' [Hrun [Hrec Htr]]].
    exists h'. split; [exact Hrun|].
    destruct (trace_takeFrame (nextFrame h) (drawFrame c s0 h)) as [Ht [Hn Hr]].
    rewrite Hrec, Htr, Ht, Hn, Hr, drawFrame_result.
    cbn [recorders trace nextFrame]. unfold frameEnd. rewrite H0.
    split; [reflexivity|].
    repeat rewrite <- app_assoc. reflexivity.
Qed.

(** ** The stop handlers *)

(** screen-recorder.tsx: the stop handler of the combined recorder
    publishes the blob of the chunks it collected. *)
Lemma recorder_stop_publishes (w : ScreenRecorder.World) (r : RecorderId)
    (m : MediaRecorder) :
  ScreenRecorder.recorder r w = Some m -> running m = true ->
  onstop m = Some PublishCombined ->
  ScreenRecorder.combinedRecordingUrl
    (ScreenRecorder.state (exec (ScreenRecorder.onStop r) w))
  = Some (ObjectURL (newBlob (chunks m))) /\
  ScreenRecorder.recordingState
    (ScreenRecorder.state (exec (ScreenRecorder.onStop r) w))
  = ScreenRecorder.recordingState (ScreenRecorder.state w).
Proof.
  destruct w as [st rf [R F n T]], m as [s mt run od os ch].
  unfold ScreenRecorder.recorder. cbn [ScreenRecorder.host recorders running onstop chunks].
  intros Hr Hrun Hos. subst run os.
  recorder_run. rewrite Hr. recorder_run. split; reflexivity.
Qed.

(** page.tsx: the stop handler of the combined recorder stops the final
    recorder and publishes nothing. *)
Lemma page_stop_combined (w : Page.World) (r f : RecorderId)
    (m : MediaRecorder) (p : Playback) :
  Page.recorder r w = Some m -> running m = true ->
  onstop m = Some (StopFinalRecorder f) ->
  Page.effects (Page.onStop r p) w = [RecorderStop f] /\
  Page.state (exec (Page.onStop r p) w) = Page.state w.
Proof.
  destruct w as [st rf [R F n T]], m as [s mt run od os ch].
  unfold Page.recorder. cbn [Page.host recorders running onstop chunks].
  intros Hr Hrun Hos. subst run os.
  page_run. rewrite Hr. page_run. effects_norm. split; reflexivity.
Qed.

(** page.tsx: the stop handler of the final recorder publishes the blob
    of the chunks the final recorder collected, and the page is idle
    again. *)
Lemma page_stop_final (w : Page.World) (r : RecorderId) (m : MediaRecorder)
    (p : Playback) :
  Page.recorder r w = Some m -> running m = true ->
  onstop m = Some PublishFinal ->
  Page.combinedRecordingUrl (Page.state (exec (Page.onStop r p) w))
  = Some (ObjectURL (newBlob (chunks m))) /\
  Page.recordingState (Page.state (exec (Page.onStop r p) w)) = Page.idle.
Proof.
  destruct w as [st rf [R F n T]], m as [s mt run od os ch].
  unfold Page.recorder. cbn [Page.host recorders running onstop chunks].
  intros Hr Hrun Hos. subst run os.
  page_run. rewrite Hr. page_run. split; reflexivity.
Qed.

(** What [combineVideos] of the page leaves behind when the recordings
    load and the canvas has a context: the recorder of the canvas, whose
    stop handler stops the final recorder, the final recorder, and the
    first turn of the loop. *)
Lemma page_combine_installs (scope : Settings) (sb wb : Blob) (p : Playback)
    (sm wm : VideoMeta) (w : Page.World) :
  metadata p = Some (sm, wm) -> context2d p = true ->
  let n := length (recorders (Page.host w)) in
  let c := overlayClosure scope wm n in
  let w' := exec (Page.combineVideos scope sb wb p) w in
  recorders (Page.host w') =
  recorders (Page.host w)
    ++ [mkRecorder (canvasStream p) vp9 true (Some PushChunk)
          (Some (StopFinalRecorder (S n))) [];
        mkRecorder
          (getVideoTracks (canvasStream p)
             ++ getAudioTracks (destinationStream p))
          vp9 true (Some PushChunk) (Some PublishFinal) []] /\
  exists before after,
    Page.effects (Page.combineVideos scope sb wb p) w =
    before
      ++ frameDraws c ++ [frameEnd c (firstStatus p) (nextFrame (Page.host w))]
      ++ after /\
    In (ResizeCanvas (canvasWidth c) (canvasHeight c)) before.
Proof.
  intros Hm Hc. destruct w as [st rf [R F nf T]].
  destruct p as [md ctx cs [pa en] ds]. cbn [metadata context2d] in Hm, Hc.
  subst md ctx.
  cbn [Page.host recorders nextFrame firstStatus canvasStream destinationStream].
  unfold overlayClosure, frameDraws, frameEnd, playing.
  destruct pa, en; page_run; heap_norm; effects_norm;
    (split; [reflexivity|]);
    match goal with
    | |- exists before after, ?l = _ /\ _ =>
        exists (firstn 14 l); eexists; cbn [firstn app];
        (split; [reflexivity|cbn [In]; tauto])
    end.
Qed.

Lemma recorder_combine_installs (p : Playback) (sm wm : VideoMeta)
    (screenUrl webcamUrl : Url) (w : ScreenRecorder.World) :
  ScreenRecorder.screenRecordingUrl (ScreenRecorder.state w) = Some screenUrl ->
  ScreenRecorder.webcamRecordingUrl (ScreenRecorder.state w) = Some webcamUrl ->
  metadata p = Some (sm, wm) -> context2d p = true ->
  let n := length (recorders (ScreenRecorder.host w)) in
  let c := cornerClosure sm n in
  let w' := exec (ScreenRecorder.combineVideos p) w in
  recorders (ScreenRecorder.host w') =
  recorders (ScreenRecorder.host w)
    ++ [mkRecorder (canvasStream p) (Some "video/webm") true (Some PushChunk)
          (Some PublishCombined) []] /\
  exists before,
    ScreenRecorder.effects (ScreenRecorder.combineVideos p) w =
    before
      ++ frameDraws c
      ++ [frameEnd c (firstStatus p) (nextFrame (ScreenRecorder.host w))] /\
    In (ResizeCanvas (canvasWidth c) (canvasHeight c)) before.
Proof.
  intros Hs Hw Hm Hc. destruct w as [[rs su wu cu] rf [R F nf T]].
  destruct p as [md ctx cs [pa en] ds]. cbn [metadata context2d] in Hm, Hc.
  cbn [ScreenRecorder.state ScreenRecorder.screenRecordingUrl
       ScreenRecorder.webcamRecordingUrl] in Hs, Hw.
  subst md ctx su wu.
  cbn [ScreenRecorder.host recorders nextFrame firstStatus canvasStream].
  unfold cornerClosure, frameDraws, frameEnd, playing.
  destruct pa, en; recorder_run;
    cbn [ScreenRecorder.screenRecordingUrl ScreenRecorder.webcamRecordingUrl];
    recorder_run; heap_norm; effects_norm;
    (split; [reflexivity|]);
    match goal with
    | |- exists before, ?l = _ /\ _ =>
        exists (firstn 12 l); cbn [firstn app];
        (split; [reflexivity|cbn [In]; tauto])
    end.
Qed.


(** ** The overlay that is drawn *)






(** C9. For every canvas of width [w] and height [h], every size
    percentage [s] in [10,50] and position percentages [x], [y] in
    [0,100]: if the computed height of the overlay is at most [h], the
    overlay rectangle of [combineVideos] lies within the canvas, that is
    [0 <= webcamX], [webcamX + webcamWidth <= w], [0 <= webcamY] and
    [webcamY + webcamHeight <= h]. *)
Theorem overlay_within_canvas (w h vw vh : N) (s x y : Q) :
  10 <= s <= 50 -> 0 <= x <= 100 -> 0 <= y <= 100 ->
  let g := overlayGeometry (ofN w) (ofN h) (Fin s) (mkPosition (Fin x) (Fin y))
             (ofN vw) (ofN vh) in
  (webcamHeight g <=? ofN h)%num = true ->
  withinCanvas (ofN w) (ofN h) g.
Proof. apply overlayGeometry_within. Qed.

Lemma overlay_within_canvas_witness :
  withinCanvas (ofN 1920) (ofN 1080)
    (overlayGeometry (ofN 1920) (ofN 1080) (Fin 17)
       (mkPosition (Fin 5) (Fin 80)) (ofN 1280) (ofN 720)).
Proof.
  apply (@overlay_within_canvas 1920%N 1080%N 1280%N 720%N 17 5 80).
  - split; unfold Qle; simpl; lia.
  - split; unfold Qle; simpl; lia.
  - split; unfold Qle; simpl; lia.
  - vm_compute. reflexivity.
Defined.

(** C3, as amended. Each turn of the loop draws the screen frame over
    the whole canvas and then the webcam frame in its rectangle; the loop
    goes on while the screen video is neither paused nor ended, and at
    the first frame at which it is, and only there, it stops the recorder
    of the canvas.  In screen-recorder.tsx the stop handler of that
    recorder publishes the blob of the chunks it collected as the
    combined recording URL.  In page.tsx the stop handler of that
    recorder stops the final recorder, and it is the stop handler of the
    final recorder that publishes the blob of the chunks the final
    recorder collected and returns the page to idle. *)
Theorem frame_loop_and_stop_handlers :
  (forall (c : DrawClosure) (s : VideoStatus) (h : Host),
      trace (drawFrame c s h)
      = trace h
          ++ [DrawImage screenVideo (Fin 0) (Fin 0) (canvasWidth c) (canvasHeight c);
              DrawImage webcamVideo (webcamX (rect c)) (webcamY (rect c))
                (webcamWidth (rect c)) (webcamHeight (rect c));
              if negb (vpaused s) && negb (vended s)
              then RequestAnimationFrame (nextFrame h) (DrawFrame c)
              else RecorderStop (combinedRecorder c)]) /\
  (forall (c : DrawClosure) (l : list VideoStatus) (h : Host),
      forallb playing l = true -> drawLoop c l h = None) /\
  (forall (c : DrawClosure) (pre : list VideoStatus) (s : VideoStatus)
          (post : list VideoStatus) (h : Host),
      forallb playing pre = true -> playing s = false ->
      exists h',
        drawLoop c (pre ++ s :: post) h = Some h' /\
        recorders h' = recorders h /\
        trace h'
        = trace h ++ loopingFrames c (length pre) (nextFrame h)
            ++ frameDraws c ++ [RecorderStop (combinedRecorder c)]) /\
  (forall (p : Playback) (sm wm : VideoMeta) (su wu : Url)
          (w : ScreenRecorder.World),
      ScreenRecorder.screenRecordingUrl (ScreenRecorder.state w) = Some su ->
      ScreenRecorder.webcamRecordingUrl (ScreenRecorder.state w) = Some wu ->
      metadata p = Some (sm, wm) -> context2d p = true ->
      let n := length (recorders (ScreenRecorder.host w)) in
      let c := cornerClosure sm n in
      recorders (ScreenRecorder.host (exec (ScreenRecorder.combineVideos p) w))
      = recorders (ScreenRecorder.host w)
          ++ [mkRecorder (canvasStream p) (Some "video/webm") true
                (Some PushChunk) (Some PublishCombined) []] /\
      exists before,
        ScreenRecorder.effects (ScreenRecorder.combineVideos p) w
        = before ++ frameDraws c
            ++ [frameEnd c (firstStatus p) (nextFrame (ScreenRecorder.host w))] /\
        In (ResizeCanvas (canvasWidth c) (canvasHeight c)) before) /\
  (forall (w : ScreenRecorder.World) (r : RecorderId) (m : MediaRecorder),
      ScreenRecorder.recorder r w = Some m -> running m = true ->
      onstop m = Some PublishCombined ->
      ScreenRecorder.combinedRecordingUrl
        (ScreenRecorder.state (exec (ScreenRecorder.onStop r) w))
      = Some (ObjectURL (newBlob (chunks m)))) /\
  (forall (scope : Settings) (sb wb : Blob) (p : Playback) (sm wm : VideoMeta)
          (w : Page.World),
      metadata p = Some (sm, wm) -> context2d p = true ->
      let n := length (recorders (Page.host w)) in
      let c := overlayClosure scope wm n in
      recorders (Page.host (exec (Page.combineVideos scope sb wb p) w))
      = recorders (Page.host w)
          ++ [mkRecorder (canvasStream p) vp9 true (Some PushChunk)
                (Some (StopFinalRecorder (S n))) [];
              mkRecorder
                (getVideoTracks (canvasStream p)
                   ++ getAudioTracks (destinationStream p))
                vp9 true (Some PushChunk) (Some PublishFinal) []] /\
      exists before after,
        Page.effects (Page.combineVideos scope sb wb p) w
        = before ++ frameDraws c
            ++ [frameEnd c (firstStatus p) (nextFrame (Page.host w))] ++ after /\
        In (ResizeCanvas (canvasWidth c) (canvasHeight c)) before) /\
  (forall (w : Page.World) (r f : RecorderId) (m : MediaRecorder) (p : Playback),
      Page.recorder r w = Some m -> running m = true ->
      onstop m = Some (StopFinalRecorder f) ->
      Page.effects (Page.onStop r p) w = [RecorderStop f] /\
      Page.state (exec (Page.onStop r p) w) = Page.state w) /\
  (forall (w : Page.World) (r : RecorderId) (m : MediaRecorder) (p : Playback),
      Page.recorder r w = Some m -> running m = true ->
      onstop m = Some PublishFinal ->
      Page.combinedRecordingUrl (Page.state (exec (Page.onStop r p) w))
      = Some (ObjectURL (newBlob (chunks m))) /\
      Page.recordingState (Page.state (exec (Page.onStop r p) w)) = Page.idle).
Proof.
  repeat split.
  - intros c s h. rewrite drawFrame_result. reflexivity.
  - exact drawLoop_playing.
  - exact drawLoop_stops.
  - eapply recorder_combine_installs; eassumption.
  - eapply recorder_combine_installs; eassumption.
  - eapply recorder_stop_publishes; eassumption.
  - eapply page_combine_installs; eassumption.
  - eapply page_combine_installs; eassumption.
  - eapply page_stop_combined; eassumption.
  - eapply page_stop_combined; eassumption.
  - eapply page_stop_final; eassumption.
  - eapply page_stop_final; eassumption.
Qed.

Lemma frame_loop_and_stop_handlers_witness :
  drawLoop (overlayClosure defaults (mkMeta 1280 720) 2)
    [nowPlaying; nowPlaying] initialHost = None.
Proof.
  apply (proj1 (proj2 frame_loop_and_stop_handlers)).
  reflexivity.
Defined.

(** C3 as stated fails on page.tsx: when the stop handler
    of the recorder of the canvas has run, the chunks that recorder
    collected are published nowhere; the URL the page exposes afterwards
    is made of the chunks of the final recorder. *)
Lemma page_combined_chunks_are_not_published :
  exists w : Page.World,
    Page.run stoppingRun Page.initial = Some w /\
    Page.chunksOf 2 w = [[1%N; 2%N; 3%N]] /\
    option_map running (Page.recorder 2 w) = Some false /\
    Page.combinedRecordingUrl (Page.state w) = None /\
    Page.combinedRecordingUrl
      (Page.state (Page.step (Page.Stopped 3 noPlayback) w))
    = Some (ObjectURL [7%N; 8%N; 9%N]).
Proof.
  eexists. split; [vm_compute; reflexivity|].
  repeat split; vm_compute; reflexivity.
Qed.

(** ** The life cycle *)

Lemma count_app {A : Type} (p : A -> bool) (l l' : list A) :
  count p (l ++ l') = (count p l + count p l')%nat.
Proof. unfold count. rewrite filter_app, length_app. reflexivity. Qed.

Lemma count_cons {A : Type} (p : A -> bool) (x : A) (l : list A) :
  count p (x :: l) = (b2n (p x) + count p l)%nat.
Proof. unfold count. simpl. destruct (p x); reflexivity. Qed.

Lemma count_adjust {A : Type} (p : A -> bool) (f : A -> A) (r : nat)
    (l : list A) (x : A) :
  nth_error l r = Some x ->
  (count p (adjust f r l) + b2n (p x) = count p l + b2n (p (f x)))%nat.
Proof.
  revert r. induction l as [|y l IH]; intros [|r] H; simpl in H;
    try discriminate.
  - injection H as ->. simpl. rewrite !count_cons. lia.
  - simpl. rewrite !count_cons. specialize (IH r H). lia.
Qed.

Lemma adjust_missing {A : Type} (f : A -> A) (r : nat) (l : list A) :
  nth_error l r = None -> adjust f r l = l.
Proof.
  revert r. induction l as [|y l IH]; intros [|r] H; simpl in *;
    try discriminate; auto.
  rewrite IH; auto.
Qed.

Lemma count_adjust_same {A : Type} (p : A -> bool) (f : A -> A) (r : nat)
    (l : list A) :
  (forall x, p (f x) = p x) -> count p (adjust f r l) = count p l.
Proof.
  intros Hf. destruct (nth_error l r) as [x|] eqn:E.
  - pose proof (count_adjust p f r l E) as H. rewrite Hf in H. lia.
  - rewrite adjust_missing; auto.
Qed.

Ltac inv_goal :=
  unfold pageInvariant, keepsOrArc;
  cbn [Page.state Page.host Page.recordingState recorders Page.arc].

Ltac counts :=
  repeat (rewrite count_app || rewrite count_cons
          || rewrite count_adjust_same by reflexivity);
  cbn [count filter length combines publishes running onstop andb b2n
       Nat.add].

Lemma page_step_invariant (e : Page.Event) (w : Page.World) :
  pageInvariant w -> Page.enabled e w = true ->
  pageInvariant (Page.step e w) /\
  keepsOrArc (Page.recordingState (Page.state w))
    (Page.recordingState (Page.state (Page.step e w))).
Proof.
  destruct w as [[rs url cfg rad pv voice] [ss ws sr wr an af] [R F n T]].
  unfold pageInvariant at 1.
  cbn [Page.state Page.host Page.recordingState recorders].
  intros Inv En.
  destruct e as [scope [dm um] data| | | |cfg' rad' pv'|r d|r p|id s d];
    cbn [Page.enabled Page.state Page.recordingState Page.isRecording] in En.
  - (* Start Recording *)
    destruct rs; try discriminate En.
    destruct dm as [dm|]; [destruct um as [um|]|];
      [destruct pv|..]; page_run;
      cbn [Page.showPreview Page.screenStreamRef Page.webcamStreamRef
           Page.audioAnalyserRef]; page_run; heap_norm; inv_goal; counts;
      (split; [lia|auto]).
  - (* Pause Recording *)
    destruct rs; try discriminate En.
    destruct sr, wr; page_run;
      cbn [Page.screenRecorderRef Page.webcamRecorderRef]; page_run;
      page_throws; inv_goal; auto.
  - (* Resume Recording *)
    destruct rs; try discriminate En.
    destruct sr, wr; page_run;
      cbn [Page.screenRecorderRef Page.webcamRecorderRef]; page_run;
      page_throws; inv_goal; auto.
  - (* Stop Recording *)
    destruct sr, wr, ss, ws, af as [[|id]|]; page_run;
      cbn [Page.screenRecorderRef Page.webcamRecorderRef Page.screenStreamRef
           Page.webcamStreamRef Page.animationFrameRef truthy Nat.eqb negb
           Page.when]; page_run; inv_goal; auto.
  - (* the settings *)
    page_run. inv_goal. auto.
  - (* dataavailable *)
    page_run. destruct (nth_error R r) as [[st m [|] [[| |]|] os ch]|];
      page_run; inv_goal; counts; auto.
  - (* stop *)
    page_run. destruct (nth_error R r) as [[st m [|] od os ch]|] eqn:E;
      [|page_run; inv_goal; auto..].
    pose proof (count_adjust combines
                  (fun m => mkRecorder (stream m) (mimeType m) false
                              (ondataavailable m) (onstop m) (chunks m))
                  r R E) as HC.
    pose proof (count_adjust publishes
                  (fun m => mkRecorder (stream m) (mimeType m) false
                              (ondataavailable m) (onstop m) (chunks m))
                  r R E) as HP.
    cbn [combines publishes running onstop andb b2n] in HC, HP.
    cbv beta iota delta
      [stream mimeType running ondataavailable onstop chunks] in HC, HP.
    destruct os as [[scope wid| |f| |]|]; cbn [b2n] in HC, HP.
    + (* the screen recorder: combine *)
      destruct p as [[[sm wm]|] [|] cs [[|] [|]] ds]; page_run; heap_norm;
        inv_goal; counts; destruct rs; (split; [lia|auto]); lia.
    + page_run; inv_goal; destruct rs; (split; [lia|auto]); lia.
    + page_run; inv_goal; destruct rs; (split; [lia|auto]).
    + page_run; inv_goal; destruct rs; (split; [lia|auto]); lia.
    + page_run; inv_goal; destruct rs; (split; [lia|auto]).
    + page_run; inv_goal; destruct rs; (split; [lia|auto]).
  - (* an animation frame *)
    destruct s as [[|] [|]]; page_run;
      destruct (find _ F) as [[i [c|]]|]; page_run; inv_goal; auto.
Qed.

(** A run from the initial world ends in a reachable world. *)
Lemma run_reachable (es : list Page.Event) (w w' : Page.World) :
  Page.reachable w -> Page.run es w = Some w' -> Page.reachable w'.
Proof.
  revert w. induction es as [|e es IH]; intros w Hw H; simpl in H.
  - injection H as <-. exact Hw.
  - destruct (Page.enabled e w) eqn:En; [|discriminate H].
    apply (IH (Page.step e w)); [|exact H].
    apply Page.reachable_step; assumption.
Qed.

Lemma reachable_invariant (w : Page.World) :
  Page.reachable w -> pageInvariant w.
Proof.
  induction 1 as [|e w Hw IH En].
  - unfold pageInvariant. cbn. auto.
  - apply page_step_invariant; assumption.
Qed.

Lemma recorder_step_arc (e : ScreenRecorder.Event) (w : ScreenRecorder.World) :
  ScreenRecorder.enabled e w = true ->
  let a := ScreenRecorder.recordingState (ScreenRecorder.state w) in
  let b := ScreenRecorder.recordingState
             (ScreenRecorder.state (ScreenRecorder.step e w)) in
  a = b \/ ScreenRecorder.arc a b = true.
Proof.
  destruct w as [[rs su wu cu] [ss ws sr wr] [R F n T]].
  destruct e as [[dm um]| | |p|r d|r|id s];
    cbn [ScreenRecorder.enabled ScreenRecorder.state
         ScreenRecorder.recordingState]; intros En.
  - destruct rs; try discriminate En.
    destruct dm as [dm|]; [destruct um as [um|]|]; recorder_run;
      cbn [ScreenRecorder.screenStreamRef ScreenRecorder.webcamStreamRef];
      recorder_run; cbn [ScreenRecorder.recordingState ScreenRecorder.arc];
      auto.
  - destruct rs; try discriminate En.
    destruct sr, wr; recorder_run;
      cbn [ScreenRecorder.screenRecorderRef ScreenRecorder.webcamRecorderRef];
      recorder_run; recorder_throws;
      cbn [ScreenRecorder.recordingState ScreenRecorder.arc]; auto.
  - destruct rs; try discriminate En.
    destruct sr, wr; recorder_run;
      cbn [ScreenRecorder.screenRecorderRef ScreenRecorder.webcamRecorderRef];
      recorder_run; recorder_throws;
      cbn [ScreenRecorder.recordingState ScreenRecorder.arc]; auto.
  - destruct rs; try discriminate En;
      destruct sr, wr, ss, ws, su, wu;
      destruct p as [[[sm wm]|] [|] cs [[|] [|]] ds]; recorder_run;
      cbn [ScreenRecorder.screenRecorderRef ScreenRecorder.webcamRecorderRef
           ScreenRecorder.screenStreamRef ScreenRecorder.webcamStreamRef
           ScreenRecorder.screenRecordingUrl ScreenRecorder.webcamRecordingUrl];
      recorder_run; cbn [ScreenRecorder.recordingState ScreenRecorder.arc];
      auto.
  - recorder_run. destruct (nth_error R r) as [[st m [|] [[| |]|] os ch]|];
      recorder_run; cbn [ScreenRecorder.recordingState]; auto.
  - recorder_run. destruct (nth_error R r) as [[st m [|] od [[| | | |]|] ch]|];
      recorder_run; cbn [ScreenRecorder.recordingState]; auto.
  - destruct s as [[|] [|]]; recorder_run;
      destruct (find _ F) as [[i [c|]]|]; recorder_run;
      cbn [ScreenRecorder.recordingState]; auto.
Qed.

(** C1, as amended. The recording state holds one of idle, recording,
    paused and processing (in screen-recorder.tsx one of the first
    three).  Driven through its buttons, one callback at a time, the page
    of page.tsx takes only the arcs idle to recording, recording to
    paused, paused to recording, recording to processing, paused to
    processing and processing to idle: the cycle of the specification,
    with resuming and with stopping while recording.  The component of
    screen-recorder.tsx takes only idle to recording, recording to paused,
    paused to recording, and recording or paused to idle. *)
Theorem life_cycle_arcs :
  (forall s : Page.RecordingState,
      s = Page.idle \/ s = Page.recording \/ s = Page.paused \/
      s = Page.processing) /\
  (forall s : ScreenRecorder.RecordingState,
      s = ScreenRecorder.idle \/ s = ScreenRecorder.recording \/
      s = ScreenRecorder.paused) /\
  (forall (w : Page.World) (e : Page.Event),
      Page.reachable w -> Page.enabled e w = true ->
      keepsOrArc (Page.recordingState (Page.state w))
        (Page.recordingState (Page.state (Page.step e w)))) /\
  (forall (w : ScreenRecorder.World) (e : ScreenRecorder.Event),
      ScreenRecorder.enabled e w = true ->
      let a := ScreenRecorder.recordingState (ScreenRecorder.state w) in
      let b := ScreenRecorder.recordingState
                 (ScreenRecorder.state (ScreenRecorder.step e w)) in
      a = b \/ ScreenRecorder.arc a b = true).
Proof.
  split; [|split; [|split]].
  - intros []; auto.
  - intros []; auto.
  - intros w e Hw En.
    apply page_step_invariant; [apply reachable_invariant|]; assumption.
  - intros w e. apply recorder_step_arc.
Qed.

Lemma life_cycle_arcs_witness :
  keepsOrArc (Page.recordingState (Page.state Page.initial))
    (Page.recordingState
       (Page.state
          (Page.step (Page.ClickStart defaults granted []) Page.initial))).
Proof.
  apply (proj1 (proj2 (proj2 life_cycle_arcs)) Page.initial
           (Page.ClickStart defaults granted [])).
  - apply Page.reachable_initial.
  - reflexivity.
Defined.

(** C1 as stated fails: resuming a paused recording goes
    from paused to recording, which is no arc of the cycle. *)
Lemma resuming_leaves_the_cycle :
  exists w : Page.World,
    Page.run pausedRun Page.initial = Some w /\
    Page.enabled Page.ClickResume w = true /\
    Page.recordingState (Page.state w) = Page.paused /\
    Page.recordingState (Page.state (Page.step Page.ClickResume w))
    = Page.recording /\
    Page.cycleArc Page.paused Page.recording = false.
Proof.
  eexists. split; [vm_compute; reflexivity|].
  repeat split; vm_compute; reflexivity.
Qed.


(** ** More on the overlay *)

Lemma inject_N_le (a b : N) : (a <= b)%N <-> inject_Z (Z.of_N a) <= inject_Z (Z.of_N b).
Proof. rewrite <- Zle_Qle. lia. Qed.

Lemma inject_N_lt (a b : N) : (a < b)%N <-> inject_Z (Z.of_N a) < inject_Z (Z.of_N b).
Proof. rewrite <- Zlt_Qlt. lia. Qed.

Lemma quality_is_wide (q : VideoQuality) :
  inject_Z (Z.of_N (width (videoQualities q)))
  <= 2 * inject_Z (Z.of_N (height (videoQualities q))).
Proof. destruct q; vm_compute; discriminate. Qed.



(** The height of the overlay when the webcam video has a width. *)
Lemma overlay_height_Fin (ww : Q) (vw vh : N) :
  vw <> 0%N ->
  ((Fin ww / ofN vw) * ofN vh)%num
  = Fin (ww / inject_Z (Z.of_N vw) * inject_Z (Z.of_N vh)).
Proof.
  intros Hvw. rewrite ndiv_ofN_r.
  destruct (N.eqb_spec vw 0) as [E|_]; [contradiction|reflexivity].
Qed.

Lemma landscape_height (ww VW VH : Q) :
  0 <= ww -> 0 < VW -> 0 <= VH <= VW -> ww / VW * VH <= ww.
Proof.
  intros Hww HVW [H0 H1].
  assert (E : ww / VW * VH == ww * VH / VW).
  { field. intros E. rewrite E in HVW. revert HVW. apply Qlt_irrefl. }
  rewrite E. apply Qle_shift_div_r; [assumption|]. nra.
Qed.

(** X1. With the settings in the ranges of their sliders, the overlay
    [combineVideos] computes for a webcam video that is no higher than
    wide lies within the canvas of every entry of the quality table. *)
Theorem landscape_webcam_fits_every_quality
    (q : VideoQuality) (vw vh : N) (s x y : Q) (r : RecorderId) :
  vw <> 0%N -> (vh <= vw)%N ->
  10 <= s <= 50 -> 0 <= x <= 100 -> 0 <= y <= 100 ->
  let c := overlayClosure (mkSettings q (mkPosition (Fin x) (Fin y)) (Fin s))
             (mkMeta vw vh) r in
  withinCanvas (canvasWidth c) (canvasHeight c) (rect c).
Proof.
  intros Hvw Hland Hs Hx Hy c. subst c.
  unfold overlayClosure.
  cbn [canvasWidth canvasHeight rect videoQuality webcamPosition webcamSize
       videoWidth videoHeight].
  apply overlayGeometry_within; try assumption.
  unfold overlayGeometry; cbn [webcamHeight].
  change (Fin s / Fin 100 * ofN (width (videoQualities q)))%num
    with (Fin (s / 100 * inject_Z (Z.of_N (width (videoQualities q))))).
  rewrite overlay_height_Fin by assumption.
  apply nle_Fin.
  pose proof (quality_is_wide q) as Hq.
  pose proof (inject_N_nonneg (width (videoQualities q))) as HW.
  pose proof (inject_N_nonneg vh) as HVH.
  pose proof (inject_N_pos Hvw) as HVW.
  apply inject_N_le in Hland.
  set (W := inject_Z (Z.of_N (width (videoQualities q)))) in *.
  set (H := inject_Z (Z.of_N (height (videoQualities q)))) in *.
  assert (Hww0 : 0 <= s / 100 * W) by (apply pct_nonneg; lra).
  assert (Hhalf : s / 100 * W <= H) by (rewrite pct_def; nra).
  eapply Qle_trans; [|exact Hhalf].
  apply landscape_height; auto.
Qed.

Lemma landscape_webcam_fits_every_quality_witness :
  let c := overlayClosure (mkSettings q480p (mkPosition (Fin 100) (Fin 100)) (Fin 50))
             (mkMeta 640 640) 0%nat in
  withinCanvas (canvasWidth c) (canvasHeight c) (rect c).
Proof.
  apply (@landscape_webcam_fits_every_quality q480p 640 640 50 100 100 0%nat).
  - discriminate.
  - vm_compute. discriminate.
  - split; vm_compute; discriminate.
  - split; vm_compute; discriminate.
  - split; vm_compute; discriminate.
Defined.




(** X4. The position sliders run from edge to edge.  At 0 the left edge
    of the overlay is at 0; at 100 it is at the width of the canvas less
    the width of the overlay, and the top is at the height of the canvas
    less the height of the overlay.  At 0 the top is at 0 when the webcam
    video has a width, and is not a number when its width is zero.  In
    binary64 the four equalities hold to the last bit on every setting of
    the size slider, for every quality of the canvas and a webcam video
    of the size of any quality. *)
Theorem overlay_position_extremes (w h vw vh : N) (s p : Q) :
  let place x y :=
    overlayGeometry (ofN w) (ofN h) (Fin s) (mkPosition (Fin x) (Fin y))
      (ofN vw) (ofN vh) in
  same (webcamX (place 0 p)) (Fin 0) /\
  same (webcamX (place 100 p)) (ofN w - webcamWidth (place 100 p)) /\
  same (webcamY (place p 0)) (if N.eqb vw 0 then NaN else Fin 0) /\
  same (webcamY (place p 100)) (ofN h - webcamHeight (place p 100)) /\
  Binary64.edgeToEdgeOnSliders = true.
Proof.
  intros place. subst place.
  unfold overlayGeometry;
    cbn [webcamWidth webcamHeight webcamX webcamY pos_x pos_y].
  change (Fin s / Fin 100 * ofN w)%num
    with (Fin (s / 100 * inject_Z (Z.of_N w))).
  set (ww := s / 100 * inject_Z (Z.of_N w)).
  split; [unfold ofN; simpl; rewrite pct_def; ring|].
  split; [unfold ofN; simpl; rewrite pct_def; ring|].
  rewrite ndiv_ofN_r.
  destruct (N.eqb vw 0).
  - unfold ofN.
    destruct (ww ?= 0); simpl; auto;
      rewrite Qcompare_ofN; destruct (N.eqb vh 0); simpl; auto;
      (split; [|split]; auto; vm_compute; reflexivity).
  - unfold ofN; simpl. split; [rewrite pct_def; ring|].
    split; [rewrite pct_def; ring|]. vm_compute. reflexivity.
Qed.





(** ** Voice detection *)

Lemma mean_above (total len : N) :
  len <> 0%N ->
  Qle_bool (inject_Z (Z.of_N total) / inject_Z (Z.of_N len)) 10 = false
  <-> (10 * len < total)%N.
Proof.
  intros E.
  pose proof (inject_N_pos E) as Hlen.
  assert (Hne : ~ inject_Z (Z.of_N len) == 0).
  { intros C. rewrite C in Hlen. revert Hlen. apply Qlt_irrefl. }
  assert (Hq : (10 * len < total)%N
               <-> 10 * inject_Z (Z.of_N len) < inject_Z (Z.of_N total)).
  { change 10 with (inject_Z 10).
    rewrite <- inject_Z_mult, <- Zlt_Qlt. lia. }
  rewrite Hq.
  set (T := inject_Z (Z.of_N total)) in *.
  set (L := inject_Z (Z.of_N len)) in *.
  split.
  - intros H. apply Qnot_le_lt. intros C.
    assert (C' : T / L <= 10) by (apply Qle_shift_div_r; assumption).
    apply Qle_bool_iff in C'. rewrite C' in H. discriminate H.
  - intros H. destruct (Qle_bool (T / L) 10) eqn:C; [|reflexivity].
    exfalso. apply Qle_bool_iff in C.
    assert (HT : T == T / L * L) by (field; exact Hne).
    assert (T / L * L <= 10 * L).
    { apply Qmult_le_compat_r; [exact C|]. apply Qlt_le_weak. exact Hlen. }
    lra.
Qed.

(** X7. [checkAudio] reports a voice exactly when the frequency bytes
    add up to more than ten times their number, that is when their mean
    is strictly above 10. *)
Theorem voice_is_a_mean_above_ten (data : list N) (w : Page.World) :
  data <> [] ->
  (Page.isVoiceDetected (Page.state (exec (Page.checkAudio data) w)) = true
   <-> (10 * N.of_nat (length data) < fold_left N.add data 0%N)%N).
Proof.
  intros Hdata.
  destruct w as [[rs url cfg rad pv voice] [ss ws sr wr an af] [R F n T]].
  page_run. cbn [Page.isVoiceDetected].
  unfold Page.average.
  set (total := fold_left N.add data 0%N).
  set (len := N.of_nat (length data)).
  unfold ofN at 1. rewrite ndiv_ofN_r.
  destruct (N.eqb_spec len 0) as [E|E].
  - exfalso. apply Hdata. subst len.
    destruct data; [reflexivity|discriminate E].
  - unfold ngt, nle. rewrite negb_true_iff. apply mean_above. exact E.
Qed.

Lemma voice_is_a_mean_above_ten_witness :
  Page.isVoiceDetected
    (Page.state (exec (Page.checkAudio [10%N; 11%N]) Page.initial)) = true
  <-> (10 * N.of_nat (length [10%N; 11%N])
       < fold_left N.add [10%N; 11%N] 0%N)%N.
Proof.
  apply (@voice_is_a_mean_above_ten [10%N; 11%N] Page.initial).
  discriminate.
Defined.


(** ** The references during a recording *)

Lemma in_filter_frames (id : nat) (F : list (nat * FrameCallback)) (n : nat) :
  (forall f, In f F -> (fst f < n)%nat) ->
  forall f, In f (filter (fun f => negb (Nat.eqb (fst f) id)) F) ->
    (fst f < n)%nat.
Proof. intros H f Hf. apply filter_In in Hf. apply H, Hf. Qed.

Lemma in_snoc_frames (F : list (nat * FrameCallback)) (n : nat)
    (cb : FrameCallback) :
  (forall f, In f F -> (fst f < n)%nat) ->
  forall f, In f (F ++ [(n, cb)]) -> (fst f < S n)%nat.
Proof.
  intros H f Hf. apply in_app_or in Hf. destruct Hf as [Hf|[<-|[]]].
  - specialize (H f Hf). lia.
  - simpl. lia.
Qed.

Lemma truthy_pos (n : nat) : (1 <= n)%nat -> truthy n = true.
Proof. destruct n; [lia|reflexivity]. Qed.

Lemma nth_error_at_length {A : Type} (l : list A) (x : A) (l' : list A) :
  nth_error (l ++ x :: l') (length l) = Some x.
Proof. induction l; simpl; auto. Qed.

Lemma nth_error_after_length {A : Type} (l : list A) (x y : A) (l' : list A) :
  nth_error (l ++ x :: y :: l') (S (length l)) = Some y.
Proof. induction l; simpl; auto. Qed.

Lemma length_adjust {A : Type} (f : A -> A) (r : nat) (l : list A) :
  length (adjust f r l) = length l.
Proof. revert r. induction l; intros [|r]; simpl; auto. Qed.

Ltac page_fields :=
  cbn [Page.recordingState Page.combinedRecordingUrl Page.settings
       Page.webcamBorderRadius Page.showPreview Page.isVoiceDetected
       Page.screenStreamRef Page.webcamStreamRef Page.screenRecorderRef
       Page.webcamRecorderRef Page.audioAnalyserRef Page.animationFrameRef].

Ltac ref_goal :=
  unfold recordingInvariant, awaitsCombining;
  cbn [Page.state Page.refs Page.host Page.recordingState Page.isRecording
       Page.animationFrameRef Page.recorder recorders frames nextFrame].

Ltac ref_frames :=
  first [ assumption
        | apply in_snoc_frames; ref_frames
        | apply in_filter_frames; ref_frames ].

(** The three parts of the invariant that speak of callback ids. *)
Ltac ref_host :=
  split; [lia|];
  split; [ref_frames|];
  split; [first [assumption | intros ? [= <-]; apply truthy_pos; lia]|].

(** The references and the screen recorder stay as they are. *)
Ltac ref_keep m scope Hm :=
  intros _; do 5 eexists; split; [reflexivity|];
  exists m, scope; unfold Page.recorder; cbn [Page.host recorders];
  repeat split; try assumption; try reflexivity.

Lemma awaits_adjust (f : MediaRecorder -> MediaRecorder) (r screen : nat)
    (R : list MediaRecorder) (m : MediaRecorder) (scope : Settings)
    (webcam : RecorderId) :
  nth_error R screen = Some m -> running m = true ->
  onstop m = Some (CombineRecordings scope webcam) ->
  (r = screen -> running (f m) = true /\ onstop (f m) = onstop m) ->
  exists (m' : MediaRecorder) (scope' : Settings),
    nth_error (adjust f r R) screen = Some m' /\ running m' = true /\
    onstop m' = Some (CombineRecordings scope' webcam).
Proof.
  intros Hm Hrun Hos Hf. rewrite nth_error_adjust, Hm.
  destruct (Nat.eqb_spec screen r) as [E|E].
  - destruct (Hf (eq_sym E)) as [H1 H2].
    exists (f m), scope. simpl. rewrite H1, H2. auto.
  - exists m, scope. auto.
Qed.

Lemma page_step_references (e : Page.Event) (w : Page.World) :
  recordingInvariant w -> Page.enabled e w = true ->
  recordingInvariant (Page.step e w).
Proof.
  destruct w as [[rs url cfg rad pv voice] [ss ws sr wr an af] [R F n T]].
  unfold recordingInvariant at 1, awaitsCombining.
  cbn [Page.state Page.refs Page.host Page.recordingState Page.isRecording
       Page.animationFrameRef Page.recorder recorders frames nextFrame].
  intros (Hn & HF & Haf & Hrec) En.
  assert (Hrefs : match rs with
                  | Page.recording | Page.paused =>
                      exists screenStream webcamStream screenRecorder
                             webcamRecorder id m scope,
                        Page.mkRefs ss ws sr wr an af
                        = Page.mkRefs (Some screenStream) (Some webcamStream)
                            (Some screenRecorder) (Some webcamRecorder)
                            (Some Analyser) (Some id) /\
                        nth_error R screenRecorder = Some m /\
                        running m = true /\
                        onstop m = Some (CombineRecordings scope webcamRecorder)
                  | _ => True
                  end).
  { destruct rs; auto;
      destruct (Hrec eq_refl) as (a & b & c & d & i & E & m & sc & H);
      exists a, b, c, d, i, m, sc; auto. }
  clear Hrec.
  destruct e as [scope [dm um] data| | | |cfg' rad' pv'|r d|r p|id s d];
    cbn [Page.enabled Page.state Page.recordingState Page.isRecording] in En.
  - (* Start Recording *)
    destruct rs; try discriminate En.
    destruct dm as [dm|]; [destruct um as [um|]|];
      [destruct pv|..]; page_run;
      cbn [Page.showPreview Page.screenStreamRef Page.webcamStreamRef
           Page.audioAnalyserRef]; page_run; heap_norm; ref_goal; page_fields;
      ref_host; try (intros C; discriminate C);
      (intros _; do 5 eexists; split; [reflexivity|]; do 2 eexists;
       unfold Page.recorder; cbn [Page.host recorders];
       rewrite nth_error_at_length; repeat split; reflexivity).
  - (* Pause Recording *)
    destruct rs; try discriminate En.
    destruct Hrefs as (a & b & c & e & i & m & sc & [= -> -> -> -> -> ->] & Hm & Hrun & Hos).
    page_run; page_fields; page_run; page_throws; ref_goal; page_fields;
      ref_host; ref_keep m sc Hm.
  - (* Resume Recording *)
    destruct rs; try discriminate En.
    destruct Hrefs as (a & b & c & e & i & m & sc & [= -> -> -> -> -> ->] & Hm & Hrun & Hos).
    page_run; page_fields; page_run; page_throws; ref_goal; page_fields;
      ref_host; ref_keep m sc Hm.
  - (* Stop Recording *)
    destruct rs; try discriminate En;
      destruct Hrefs as (a & b & c & e & i & m & sc & [= -> -> -> -> -> ->] & Hm & Hrun & Hos);
      page_run; page_fields; rewrite ?(Haf i eq_refl);
      cbn [Page.when]; page_run; ref_goal; page_fields; ref_host;
      ref_keep m sc Hm.
  - (* the settings *)
    destruct rs; try discriminate En; page_run; ref_goal; page_fields;
      ref_host; intros C; discriminate C.
  - (* dataavailable *)
    page_run.
    destruct (nth_error R r) as [[st mt [|] [[| |]|] os ch]|] eqn:E;
      page_run; ref_goal; page_fields; ref_host;
      (destruct rs; try (intros C; discriminate C);
       destruct Hrefs as (a & b & c & e & i & m & sc & [= -> -> -> -> -> ->] & Hm & Hrun & Hos);
       intros _; do 5 eexists; (split; [reflexivity|]);
       unfold Page.recorder; cbn [Page.host recorders];
       first [ solve [exists m, sc; auto]
             | apply (@awaits_adjust _ r _ _ _ _ _ Hm Hrun Hos);
               intros ->; rewrite E in Hm; injection Hm as <-; auto ]).
  - (* stop *)
    page_run.
    destruct (nth_error R r) as [[st mt [|] od os ch]|] eqn:E;
      [|page_run; ref_goal; page_fields; ref_host;
        (destruct rs; try (intros C; discriminate C);
         destruct Hrefs as (a & b & c & e & i & m & sc & [= -> -> -> -> -> ->] & Hm & Hrun & Hos);
         ref_keep m sc Hm)..].
    destruct os as [[scope wid| |f| |]|].
    + (* the screen recorder: combine *)
      destruct p as [[[sm wm]|] [|] cs [[|] [|]] ds]; page_run; heap_norm;
        ref_goal; page_fields; ref_host; intros C; discriminate C.
    + page_run; ref_goal; page_fields; ref_host; intros C; discriminate C.
    + page_run; ref_goal; page_fields; ref_host.
      destruct rs; try (intros C; discriminate C);
        destruct Hrefs as (a & b & c & e & i & m & sc & [= -> -> -> -> -> ->] & Hm & Hrun & Hos);
        intros _; do 5 eexists; (split; [reflexivity|]);
        unfold Page.recorder; cbn [Page.host recorders];
        apply (@awaits_adjust _ r _ _ _ _ _ Hm Hrun Hos);
        intros ->; rewrite E in Hm; injection Hm as <-; discriminate Hos.
    + page_run; ref_goal; page_fields; ref_host; intros C; discriminate C.
    + page_run; ref_goal; page_fields; ref_host.
      destruct rs; try (intros C; discriminate C);
        destruct Hrefs as (a & b & c & e & i & m & sc & [= -> -> -> -> -> ->] & Hm & Hrun & Hos);
        intros _; do 5 eexists; (split; [reflexivity|]);
        unfold Page.recorder; cbn [Page.host recorders];
        apply (@awaits_adjust _ r _ _ _ _ _ Hm Hrun Hos);
        intros ->; rewrite E in Hm; injection Hm as <-; discriminate Hos.
    + page_run; ref_goal; page_fields; ref_host.
      destruct rs; try (intros C; discriminate C);
        destruct Hrefs as (a & b & c & e & i & m & sc & [= -> -> -> -> -> ->] & Hm & Hrun & Hos);
        intros _; do 5 eexists; (split; [reflexivity|]);
        unfold Page.recorder; cbn [Page.host recorders];
        apply (@awaits_adjust _ r _ _ _ _ _ Hm Hrun Hos);
        intros ->; rewrite E in Hm; injection Hm as <-; discriminate Hos.
  - (* an animation frame *)
    destruct s as [[|] [|]]; page_run;
      destruct (find _ F) as [[j [c|]]|]; page_run; ref_goal; page_fields;
      ref_host;
      (destruct rs; try (intros C; discriminate C);
       destruct Hrefs as (a & b & c' & e & i & m & sc & [= -> -> -> -> -> ->] & Hm & Hrun & Hos);
       ref_keep m sc Hm).
Qed.

Lemma reachable_references (w : Page.World) :
  Page.reachable w -> recordingInvariant w.
Proof.
  induction 1 as [|e w Hw IH En].
  - unfold recordingInvariant. cbn.
    split; [lia|]. split; [intros f []|].
    split; [intros id C; discriminate C|intros C; discriminate C].
  - apply page_step_references; assumption.
Qed.

(** What a reachable world holds while a recording is in progress. *)
Lemma recording_references (w : Page.World) :
  Page.reachable w -> Page.isRecording w = true ->
  exists (screenStream webcamStream : MediaStream)
         (screenRecorder webcamRecorder : RecorderId) (id : nat),
    Page.refs w
    = Page.mkRefs (Some screenStream) (Some webcamStream)
        (Some screenRecorder) (Some webcamRecorder) (Some Analyser) (Some id) /\
    truthy id = true /\
    awaitsCombining w screenRecorder webcamRecorder.
Proof.
  intros Hw Hrec.
  destruct (reachable_references Hw) as (_ & _ & Haf & H).
  destruct (H Hrec) as (a & b & c & d & i & E & Hm).
  exists a, b, c, d, i. repeat split; try assumption.
  apply Haf. rewrite E. reflexivity.
Qed.

(** ** Recorders that have become inactive *)

Lemma inactive_emitted (r : RecorderId) (e : Effect) (R : list MediaRecorder)
    (F : list (nat * FrameCallback)) (n : nat) (T : list Effect) :
  stopCalled r [e] = false ->
  inactive r (mkHost R F n (T ++ [e])) = inactive r (mkHost R F n T).
Proof.
  intros H. unfold inactive, stopCalled in *. cbn [recorders trace].
  rewrite existsb_app, H, orb_false_r. reflexivity.
Qed.

Lemma inactive_stopped (r : RecorderId) (h : Host) :
  In (RecorderStop r) (trace h) -> inactive r h = true.
Proof.
  intros H. unfold inactive. destruct (nth_error _ _); [|reflexivity].
  apply orb_true_iff. right. apply existsb_exists.
  exists (RecorderStop r). split; [exact H|apply Nat.eqb_refl].
Qed.

(** X8. Whenever the page offers Pause Recording or Resume Recording,
    the guard of the callback passes: the references hold the two
    recorders.  The click pauses (resumes) both recorders and sets the
    state to paused (recording) when neither recorder is inactive.  An
    inactive recorder, one on which [stop()] was called or whose
    recording has ended, throws, and the callback ends there: when it is
    the screen recorder no call is made and the state stays as it was;
    when it is the webcam recorder only, the screen recorder alone is
    paused (resumed) and the state stays as it was.  After a click on
    Stop Recording the state is as before, so the same button is offered,
    and a click on it changes nothing. *)
Theorem offered_pause_and_resume_pass_the_guard (w : Page.World) :
  Page.reachable w ->
  (Page.enabled Page.ClickPause w = true ->
   exists screenRecorder webcamRecorder : RecorderId,
     Page.screenRecorderRef (Page.refs w) = Some screenRecorder /\
     Page.webcamRecorderRef (Page.refs w) = Some webcamRecorder /\
     Page.effects Page.pauseRecording w
     = (if inactive screenRecorder (Page.host w) then []
        else if inactive webcamRecorder (Page.host w)
             then [RecorderPause screenRecorder]
             else [RecorderPause screenRecorder;
                   RecorderPause webcamRecorder]) /\
     Page.recordingState (Page.state (Page.step Page.ClickPause w))
     = (if inactive screenRecorder (Page.host w)
           || inactive webcamRecorder (Page.host w)
        then Page.recording else Page.paused)) /\
  (Page.enabled Page.ClickResume w = true ->
   exists screenRecorder webcamRecorder : RecorderId,
     Page.screenRecorderRef (Page.refs w) = Some screenRecorder /\
     Page.webcamRecorderRef (Page.refs w) = Some webcamRecorder /\
     Page.effects Page.resumeRecording w
     = (if inactive screenRecorder (Page.host w) then []
        else if inactive webcamRecorder (Page.host w)
             then [RecorderResume screenRecorder]
             else [RecorderResume screenRecorder;
                   RecorderResume webcamRecorder]) /\
     Page.recordingState (Page.state (Page.step Page.ClickResume w))
     = (if inactive screenRecorder (Page.host w)
           || inactive webcamRecorder (Page.host w)
        then Page.paused else Page.recording)) /\
  (Page.enabled Page.ClickStop w = true ->
   let w1 := Page.step Page.ClickStop w in
   Page.recordingState (Page.state w1) = Page.recordingState (Page.state w) /\
   Page.step Page.ClickPause w1 = w1 /\
   Page.step Page.ClickResume w1 = w1).
Proof.
  intros Hw.
  pose proof (recording_references Hw) as Href.
  destruct w as [[rs url cfg rad pv voice] [ss ws sr wr an af] [R F n T]].
  cbn [Page.enabled Page.state Page.refs Page.recordingState Page.isRecording
       Page.host] in *.
  split; [|split]; intros En; destruct rs; try discriminate En;
    destruct (Href eq_refl)
      as (a & b & c & d & i & [= -> -> -> -> -> ->] & Hi & _).
  1, 2: exists c, d; page_fields; page_run; page_fields; page_run;
    destruct (inactive c _); page_run;
    rewrite ?inactive_emitted by reflexivity;
    try destruct (inactive d _); page_run;
    effects_norm; repeat split; reflexivity.
  all: cbv zeta; page_run; page_fields; page_run; rewrite Hi; page_run;
    page_fields; page_run;
    rewrite inactive_stopped
      by (cbn [trace]; repeat rewrite in_app_iff; cbn [In]; auto 12);
    page_run; repeat split; reflexivity.
Qed.

Lemma offered_pause_and_resume_pass_the_guard_witness :
  (inactive 0 (Page.host startedPage) = false /\
   inactive 1 (Page.host startedPage) = false /\
   exists screenRecorder webcamRecorder : RecorderId,
     Page.screenRecorderRef (Page.refs startedPage) = Some screenRecorder /\
     Page.webcamRecorderRef (Page.refs startedPage) = Some webcamRecorder /\
     Page.effects Page.pauseRecording startedPage
     = (if inactive screenRecorder (Page.host startedPage) then []
        else if inactive webcamRecorder (Page.host startedPage)
             then [RecorderPause screenRecorder]
             else [RecorderPause screenRecorder;
                   RecorderPause webcamRecorder]) /\
     Page.recordingState (Page.state (Page.step Page.ClickPause startedPage))
     = (if inactive screenRecorder (Page.host startedPage)
           || inactive webcamRecorder (Page.host startedPage)
        then Page.recording else Page.paused)) /\
  (exists screenRecorder webcamRecorder : RecorderId,
     Page.screenRecorderRef (Page.refs pausedPage) = Some screenRecorder /\
     Page.webcamRecorderRef (Page.refs pausedPage) = Some webcamRecorder /\
     Page.effects Page.resumeRecording pausedPage
     = (if inactive screenRecorder (Page.host pausedPage) then []
        else if inactive webcamRecorder (Page.host pausedPage)
             then [RecorderResume screenRecorder]
             else [RecorderResume screenRecorder;
                   RecorderResume webcamRecorder]) /\
     Page.recordingState (Page.state (Page.step Page.ClickResume pausedPage))
     = (if inactive screenRecorder (Page.host pausedPage)
           || inactive webcamRecorder (Page.host pausedPage)
        then Page.paused else Page.recording)) /\
  (Page.recordingState (Page.state (Page.step Page.ClickStop startedPage))
   = Page.recordingState (Page.state startedPage) /\
   Page.step Page.ClickPause (Page.step Page.ClickStop startedPage)
   = Page.step Page.ClickStop startedPage /\
   Page.step Page.ClickResume (Page.step Page.ClickStop startedPage)
   = Page.step Page.ClickStop startedPage).
Proof.
  assert (H1 : Page.reachable startedPage)
    by (apply Page.reachable_step; [apply Page.reachable_initial|reflexivity]).
  assert (H2 : Page.reachable pausedPage)
    by (apply Page.reachable_step; [exact H1|vm_compute; reflexivity]).
  split; [|split].
  - split; [vm_compute; reflexivity|]. split; [vm_compute; reflexivity|].
    apply (proj1 (@offered_pause_and_resume_pass_the_guard _ H1)).
    vm_compute; reflexivity.
  - apply (proj1 (proj2 (@offered_pause_and_resume_pass_the_guard _ H2))).
    vm_compute; reflexivity.
  - apply (proj2 (proj2 (@offered_pause_and_resume_pass_the_guard _ H1))).
    vm_compute; reflexivity.
Defined.

(** X9. Whenever the page offers Stop Recording as enabled, the click
    takes effect: both recorders are stopped, then every track of the
    screen capture and of the webcam capture, the callback of the voice
    detection is cancelled and pending no more, and the toast is shown.
    The click itself leaves the state as it is: the page stays in
    recording or paused until the stop event of the screen recorder
    arrives. *)
Theorem offered_stop_takes_effect (w : Page.World) :
  Page.reachable w -> Page.enabled Page.ClickStop w = true ->
  exists (screenStream webcamStream : MediaStream)
         (screenRecorder webcamRecorder : RecorderId) (id : nat),
    Page.refs w
    = Page.mkRefs (Some screenStream) (Some webcamStream)
        (Some screenRecorder) (Some webcamRecorder) (Some Analyser) (Some id) /\
    Page.effects Page.stopRecording w
    = [RecorderStop screenRecorder; RecorderStop webcamRecorder]
        ++ map TrackStop screenStream ++ map TrackStop webcamStream
        ++ [CancelAnimationFrame id; Toast RecordingStopped] /\
    (forall cb : FrameCallback,
        ~ In (id, cb) (frames (Page.host (Page.step Page.ClickStop w)))) /\
    Page.state (Page.step Page.ClickStop w) = Page.state w /\
    Page.refs (Page.step Page.ClickStop w) = Page.refs w /\
    recorders (Page.host (Page.step Page.ClickStop w)) = recorders (Page.host w).
Proof.
  intros Hw En.
  pose proof (recording_references Hw) as Href.
  destruct w as [[rs url cfg rad pv voice] [ss ws sr wr an af] [R F n T]].
  cbn [Page.enabled Page.state Page.refs Page.recordingState Page.isRecording]
    in *.
  destruct rs; try discriminate En;
    destruct (Href eq_refl) as (a & b & c & d & i & [= -> -> -> -> -> ->] & Hi & _);
    exists a, b, c, d, i; (split; [reflexivity|]);
    page_run; page_fields; rewrite Hi; cbn [Page.when]; page_run;
    effects_norm; repeat split; try reflexivity;
    try (repeat rewrite <- app_assoc; reflexivity);
    intros cb; apply filter_not_in.
Qed.

Lemma offered_stop_takes_effect_witness :
  exists (screenStream webcamStream : MediaStream)
         (screenRecorder webcamRecorder : RecorderId) (id : nat),
    Page.refs (Page.step (Page.ClickStart defaults granted []) Page.initial)
    = Page.mkRefs (Some screenStream) (Some webcamStream)
        (Some screenRecorder) (Some webcamRecorder) (Some Analyser) (Some id) /\
    Page.effects Page.stopRecording
      (Page.step (Page.ClickStart defaults granted []) Page.initial)
    = [RecorderStop screenRecorder; RecorderStop webcamRecorder]
        ++ map TrackStop screenStream ++ map TrackStop webcamStream
        ++ [CancelAnimationFrame id; Toast RecordingStopped] /\
    (forall cb : FrameCallback,
        ~ In (id, cb)
            (frames
               (Page.host
                  (Page.step Page.ClickStop
                     (Page.step (Page.ClickStart defaults granted [])
                        Page.initial))))) /\
    Page.state
      (Page.step Page.ClickStop
         (Page.step (Page.ClickStart defaults granted []) Page.initial))
    = Page.state (Page.step (Page.ClickStart defaults granted []) Page.initial) /\
    Page.refs
      (Page.step Page.ClickStop
         (Page.step (Page.ClickStart defaults granted []) Page.initial))
    = Page.refs (Page.step (Page.ClickStart defaults granted []) Page.initial) /\
    recorders
      (Page.host
         (Page.step Page.ClickStop
            (Page.step (Page.ClickStart defaults granted []) Page.initial)))
    = recorders
        (Page.host (Page.step (Page.ClickStart defaults granted []) Page.initial)).
Proof.
  apply (@offered_stop_takes_effect
           (Page.step (Page.ClickStart defaults granted []) Page.initial)).
  - apply Page.reachable_step; [apply Page.reachable_initial|reflexivity].
  - reflexivity.
Defined.


(** ** A combining that fails *)

Ltac stuck_goal :=
  unfold stuck;
  cbn [Page.state Page.host Page.recordingState recorders].

Lemma stuck_step (e : Page.Event) (w : Page.World) :
  stuck w -> Page.enabled e w = true -> stuck (Page.step e w).
Proof.
  destruct w as [[rs url cfg rad pv voice] [ss ws sr wr an af] [R F n T]].
  unfold stuck at 1.
  cbn [Page.state Page.host Page.recordingState recorders].
  intros (-> & HC & HP) En.
  destruct e as [scope [dm um] data| | | |cfg' rad' pv'|r d|r p|id s d];
    cbn [Page.enabled Page.state Page.recordingState Page.isRecording] in En;
    try discriminate En.
  - page_run. stuck_goal. auto.
  - page_run. destruct (nth_error R r) as [[st m [|] [[| |]|] os ch]|];
      page_run; stuck_goal; counts; auto.
  - page_run. destruct (nth_error R r) as [[st m [|] od os ch]|] eqn:E;
      [|page_run; stuck_goal; auto..].
    pose proof (count_adjust combines
                  (fun m => mkRecorder (stream m) (mimeType m) false
                              (ondataavailable m) (onstop m) (chunks m))
                  r R E) as HC'.
    pose proof (count_adjust publishes
                  (fun m => mkRecorder (stream m) (mimeType m) false
                              (ondataavailable m) (onstop m) (chunks m))
                  r R E) as HP'.
    cbn [combines publishes running onstop andb b2n] in HC', HP'.
    cbv beta iota delta
      [stream mimeType running ondataavailable onstop chunks] in HC', HP'.
    destruct os as [[scope wid| |f| |]|]; cbn [b2n] in HC', HP';
      try (exfalso; lia);
      page_run; stuck_goal; repeat split; auto; lia.
  - destruct s as [[|] [|]]; page_run;
      destruct (find _ F) as [[i [c|]]|]; page_run; stuck_goal; auto.
Qed.

Lemma stuck_run (es : list Page.Event) (w w' : Page.World) :
  stuck w -> Page.run es w = Some w' -> stuck w'.
Proof.
  revert w. induction es as [|e es IH]; intros w Hw H; simpl in H.
  - injection H as <-. exact Hw.
  - destruct (Page.enabled e w) eqn:En; [|discriminate H].
    apply (IH (Page.step e w)); [|exact H].
    apply stuck_step; assumption.
Qed.

(** The stop event of the screen recorder, when the recordings do not
    load or the canvas has no context, leaves a combining nothing can
    end. *)
Lemma failed_combining_is_stuck (w : Page.World) (r : RecorderId) (p : Playback) :
  Page.reachable w -> Page.isRecording w = true ->
  Page.screenRecorderRef (Page.refs w) = Some r ->
  metadata p = None \/ context2d p = false ->
  stuck (Page.step (Page.Stopped r p) w).
Proof.
  intros Hw Hrec Hr Hp.
  pose proof (reachable_invariant Hw) as Hinv.
  destruct (recording_references Hw Hrec)
    as (a & b & c & d & i & Erefs & _ & m & sc & Hm & Hrun & Hos).
  destruct w as [[rs url cfg rad pv voice] [ss ws sr wr an af] [R F n T]].
  cbn [Page.refs Page.screenRecorderRef] in Hr, Erefs.
  injection Erefs as -> -> -> -> -> ->. injection Hr as ->.
  unfold Page.recorder in Hm. cbn [Page.host recorders] in Hm.
  unfold pageInvariant in Hinv.
  cbn [Page.state Page.host Page.recordingState recorders Page.isRecording]
    in Hinv, Hrec.
  destruct m as [st mt run od os ch]. cbn [running onstop] in Hrun, Hos.
  subst run os.
  pose proof (count_adjust combines
                (fun m => mkRecorder (stream m) (mimeType m) false
                            (ondataavailable m) (onstop m) (chunks m))
                r R Hm) as HC'.
  pose proof (count_adjust publishes
                (fun m => mkRecorder (stream m) (mimeType m) false
                            (ondataavailable m) (onstop m) (chunks m))
                r R Hm) as HP'.
  cbn [combines publishes running onstop andb b2n] in HC', HP'.
  cbv beta iota delta
    [stream mimeType running ondataavailable onstop chunks] in HC', HP'.
  page_run. rewrite Hm. page_run.
  destruct p as [[[sm wm]|] [|] cs [[|] [|]] ds];
    cbn [metadata context2d] in Hp;
    try (exfalso; destruct Hp as [C|C]; discriminate C);
    page_run; stuck_goal;
    (destruct rs; try discriminate Hrec; repeat split; auto; lia).
Qed.

(** X10. A combining that fails never ends.  When the stop event of the
    screen recorder arrives and the recordings never load, or the canvas
    has no 2d context, the page is processing and stays so whatever
    happens next: after every further run of events it shows the spinner,
    offers no Start, Pause or Resume button, has Stop Recording disabled
    and shows no final recording. *)
Theorem failed_combining_is_permanent
    (w : Page.World) (r : RecorderId) (p : Playback)
    (es : list Page.Event) (w' : Page.World) :
  Page.reachable w -> Page.isRecording w = true ->
  Page.screenRecorderRef (Page.refs w) = Some r ->
  metadata p = None \/ context2d p = false ->
  Page.run es (Page.step (Page.Stopped r p) w) = Some w' ->
  Page.recordingState (Page.state w') = Page.processing /\
  Page.spinnerShown (Page.render (Page.state w')) = true /\
  Page.primaryButton (Page.render (Page.state w')) = None /\
  Page.stopDisabled (Page.render (Page.state w')) = true /\
  Page.finalRecording (Page.render (Page.state w')) = None.
Proof.
  intros Hw Hrec Hr Hp Hrun.
  pose proof (@failed_combining_is_stuck w r p Hw Hrec Hr Hp) as Hs.
  destruct (@stuck_run es _ w' Hs Hrun) as (E & _).
  unfold Page.render. rewrite E.
  repeat split; try reflexivity.
  cbn [Page.finalRecording].
  destruct (Page.combinedRecordingUrl (Page.state w')); reflexivity.
Qed.

Lemma failed_combining_is_permanent_witness :
  exists w' : Page.World,
    Page.run [Page.ChangeSettings defaults (Fin 0) true]
      (Page.step (Page.Stopped 0%nat noContext)
         (Page.step (Page.ClickStart defaults granted []) Page.initial))
    = Some w' /\
    Page.recordingState (Page.state w') = Page.processing /\
    Page.spinnerShown (Page.render (Page.state w')) = true /\
    Page.primaryButton (Page.render (Page.state w')) = None /\
    Page.stopDisabled (Page.render (Page.state w')) = true /\
    Page.finalRecording (Page.render (Page.state w')) = None.
Proof.
  eexists. split; [vm_compute; reflexivity|].
  eapply (@failed_combining_is_permanent
            (Page.step (Page.ClickStart defaults granted []) Page.initial)
            0%nat noContext [Page.ChangeSettings defaults (Fin 0) true]).
  - apply Page.reachable_step; [apply Page.reachable_initial|reflexivity].
  - vm_compute; reflexivity.
  - vm_compute; reflexivity.
  - right. reflexivity.
  - vm_compute; reflexivity.
Defined.


(** ** A recording from the click on Stop to the final recording *)

Lemma page_run_app (es es' : list Page.Event) (w : Page.World) :
  Page.run (es ++ es') w =
  match Page.run es w with
  | Some w1 => Page.run es' w1
  | None => None
  end.
Proof.
  revert w. induction es as [|e es IH]; intros w; simpl; [reflexivity|].
  destruct (Page.enabled e w); [apply IH|reflexivity].
Qed.

(** The chunks delivered to the last recorder constructed accumulate in
    the order delivered; nothing else changes. *)
Lemma page_deliver (ds : list Blob) (st : Page.State) (rf : Page.Refs)
    (R : list MediaRecorder) (k : nat) (c : MediaRecorder) (s : MediaStream)
    (mt : option String.string) (os : option StopHandler) (ch : list Blob)
    (F : list (nat * FrameCallback)) (n : nat) (T : list Effect) :
  length R = k ->
  Page.run (map (Page.DataAvailable (S k)) ds)
    (Page.mkWorld st rf
       (mkHost (R ++ [c; mkRecorder s mt true (Some PushChunk) os ch]) F n T))
  = Some (Page.mkWorld st rf
            (mkHost (R ++ [c; mkRecorder s mt true (Some PushChunk) os (ch ++ ds)])
               F n T)).
Proof.
  intros <-. revert ch. induction ds as [|d ds IH]; intros ch.
  - simpl. rewrite app_nil_r. reflexivity.
  - cbn [map Page.run Page.enabled]. page_run.
    rewrite nth_error_after_length. page_run. heap_norm.
    rewrite IH. rewrite <- app_assoc. reflexivity.
Qed.

Lemma find_fresh (F : list (nat * FrameCallback)) (n : nat) (cb : FrameCallback)
    (rest : list (nat * FrameCallback)) :
  (forall f, In f F -> (fst f < n)%nat) ->
  find (fun f => Nat.eqb (fst f) n) (F ++ (n, cb) :: rest) = Some (n, cb).
Proof.
  induction F as [|f F IH]; intros H; simpl.
  - rewrite Nat.eqb_refl. reflexivity.
  - destruct (Nat.eqb_spec (fst f) n) as [E|E].
    + specialize (H f (or_introl eq_refl)). lia.
    + apply IH. intros g Hg. apply H. right. exact Hg.
Qed.

(** X11. A recording in progress can always be completed.  From every
    reachable world in which the page is recording or paused, when the
    two recordings load and the canvas has a 2d context, the run of
    [finishingRun] (the click on Stop Recording, the stop event of the
    screen recorder, the chunks [ds] of the final recorder, the end of
    the screen video and the stop events of the two recorders of the
    combining) is accepted event by event and ends with the page idle,
    its combined recording URL the object URL of the blob of exactly the
    chunks [ds], in the order delivered, and that recording displayed. *)
Theorem recording_can_be_completed
    (w : Page.World) (p : Playback) (ds : list Blob) :
  Page.reachable w -> Page.isRecording w = true ->
  metadata p <> None -> context2d p = true ->
  exists w' : Page.World,
    Page.run (finishingRun w p ds) w = Some w' /\
    Page.recordingState (Page.state w') = Page.idle /\
    Page.combinedRecordingUrl (Page.state w') = Some (ObjectURL (newBlob ds)) /\
    Page.finalRecording (Page.render (Page.state w'))
    = Some (ObjectURL (newBlob ds)).
Proof.
  intros Hw Hrec Hmeta Hctx.
  destruct (reachable_references Hw) as (_ & HF & _ & _).
  destruct (recording_references Hw Hrec)
    as (a & b & c & d & i & Erefs & Hi & m & sc & Hm & Hrun & Hos).
  destruct w as [[rs url cfg rad pv voice] [ss ws sr wr an af] [R F n T]].
  cbn [Page.refs] in Erefs. injection Erefs as -> -> -> -> -> ->.
  unfold Page.recorder in Hm.
  cbn [Page.host Page.state Page.recordingState Page.isRecording recorders
       frames nextFrame] in Hm, HF, Hrec.
  destruct m as [st mt run od os ch]. cbn [running onstop] in Hrun, Hos.
  subst run os.
  destruct p as [[[sm wm]|] [|] cs [[|] [|]] dst];
    cbn [metadata context2d] in Hmeta, Hctx;
    try (exfalso; apply Hmeta; reflexivity); try discriminate Hctx;
    clear Hmeta Hctx.
  all: unfold finishingRun;
    cbn [Page.refs Page.screenRecorderRef Page.host recorders nextFrame
         firstStatus playing vpaused vended negb andb app].
  all: assert (En : Page.enabled Page.ClickStop
                 (Page.mkWorld (Page.mkState rs url cfg rad pv voice)
                    (Page.mkRefs (Some a) (Some b) (Some c) (Some d)
                       (Some Analyser) (Some i)) (mkHost R F n T)) = true)
         by (destruct rs; try discriminate Hrec; reflexivity).
  all: cbn [Page.run]; rewrite En; cbn [Page.enabled].
  all: page_run; page_fields; rewrite Hi; cbn [Page.when]; page_run.
  all: rewrite Hm; page_run; heap_norm.
  all: page_fields.
  all: set (R0 := adjust _ c R) in *.
  all: replace (length R) with (length R0) by apply length_adjust.
  all: rewrite page_run_app, page_deliver by reflexivity.
  all: cbn [app Page.run Page.enabled]; unfold hasEnded, noPlayback.
  all: page_run; page_fields.
  all: rewrite ?find_fresh by (apply in_filter_frames; exact HF).
  all: page_run; page_fields.
  all: rewrite ?nth_error_at_length; page_run; heap_norm.
  all: rewrite ?nth_error_after_length; page_run; heap_norm; page_fields.
  all: eexists; (split; [reflexivity|]);
    cbn [Page.state Page.render Page.recordingState Page.combinedRecordingUrl
         Page.finalRecording];
    repeat split; reflexivity.
Qed.

Lemma recording_can_be_completed_witness :
  exists w' : Page.World,
    Page.run
      (finishingRun
         (Page.step (Page.ClickStart defaults granted []) Page.initial)
         goodPlayback [[1%N; 2%N]; [3%N]])
      (Page.step (Page.ClickStart defaults granted []) Page.initial)
    = Some w' /\
    Page.recordingState (Page.state w') = Page.idle /\
    Page.combinedRecordingUrl (Page.state w')
    = Some (ObjectURL (newBlob [[1%N; 2%N]; [3%N]])) /\
    Page.finalRecording (Page.render (Page.state w'))
    = Some (ObjectURL (newBlob [[1%N; 2%N]; [3%N]])).
Proof.
  apply (@recording_can_be_completed
           (Page.step (Page.ClickStart defaults granted []) Page.initial)
           goodPlayback [[1%N; 2%N]; [3%N]]).
  - apply Page.reachable_step; [apply Page.reachable_initial|reflexivity].
  - vm_compute; reflexivity.
  - discriminate.
  - reflexivity.
Defined.


(** ** The preview before a stream has loaded *)

(** X12. While the webcam preview has no video loaded (its [videoWidth]
    and [videoHeight] are zero), the height and the top the page writes
    on it are not numbers, whatever the size and position settings and
    the box of the screen preview. *)
Theorem preview_without_video_is_not_a_number
    (st : Page.State) (l : Page.Layout) (s : Q) :
  Page.showPreview st = true ->
  webcamSize (Page.settings st) = Fin s ->
  Page.previewVideoWidth l = 0%N -> Page.previewVideoHeight l = 0%N ->
  exists style : Page.PreviewStyle,
    Page.updatePreview st l = Some style /\
    webcamHeight (Page.box style) = NaN /\
    webcamY (Page.box style) = NaN.
Proof.
  intros Hshow Hs Hvw Hvh.
  unfold Page.updatePreview. rewrite Hshow, Hs, Hvw, Hvh.
  eexists. split; [reflexivity|].
  cbn [Page.box webcamHeight webcamY].
  change (Fin s / Fin 100 * ofN (Page.offsetWidth l))%num
    with (Fin (s / 100 * inject_Z (Z.of_N (Page.offsetWidth l)))).
  rewrite ndiv_ofN_r. cbn [N.eqb].
  assert (E : (match s / 100 * inject_Z (Z.of_N (Page.offsetWidth l)) ?= 0 with
               | Eq => NaN
               | Lt => NegInf
               | Gt => PosInf
               end * ofN 0)%num = NaN).
  { destruct (_ ?= 0); reflexivity. }
  rewrite E. split; [reflexivity|].
  destruct (pos_y (webcamPosition (Page.settings st)) / Fin 100)%num;
    reflexivity.
Qed.

Lemma preview_without_video_is_not_a_number_witness :
  exists style : Page.PreviewStyle,
    Page.updatePreview
      (Page.mkState Page.idle None defaults (Fin 25) true false)
      (Page.mkLayout 448 252 0 0) = Some style /\
    webcamHeight (Page.box style) = NaN /\
    webcamY (Page.box style) = NaN.
Proof.
  apply (@preview_without_video_is_not_a_number
           (Page.mkState Page.idle None defaults (Fin 25) true false)
           (Page.mkLayout 448 252 0 0) 17).
  - reflexivity.
  - reflexivity.
  - reflexivity.
  - reflexivity.
Defined.

(** ** What the page renders *)

(** X13. The rendering of the page follows the recording state: the
    spinner is shown exactly when no Start, Pause or Resume button is;
    Stop Recording is enabled exactly when the settings controls are
    disabled, which is exactly when the voice indicator is shown (the
    page is recording or paused); a final recording is displayed only
    next to the Start button.  The buttons rendered are the clicks the
    transition system takes as enabled. *)
Theorem rendering_follows_the_recording_state (w : Page.World) :
  let v := Page.render (Page.state w) in
  (Page.spinnerShown v = true <-> Page.primaryButton v = None) /\
  (Page.stopDisabled v = false <-> Page.settingsDisabled v = true) /\
  (Page.settingsDisabled v = true <-> Page.voiceIndicator v <> None) /\
  (Page.finalRecording v <> None ->
   Page.primaryButton v = Some Page.StartButton) /\
  (forall scope c data,
      Page.enabled (Page.ClickStart scope c data) w = true
      <-> Page.primaryButton v = Some Page.StartButton) /\
  (Page.enabled Page.ClickPause w = true
   <-> Page.primaryButton v = Some Page.PauseButton) /\
  (Page.enabled Page.ClickResume w = true
   <-> Page.primaryButton v = Some Page.ResumeButton) /\
  Page.enabled Page.ClickStop w = negb (Page.stopDisabled v) /\
  (forall s radius preview,
      Page.enabled (Page.ChangeSettings s radius preview) w
      = negb (Page.settingsDisabled v)).
Proof.
  destruct w as [[rs url cfg rad pv voice] rf h].
  cbn [Page.state]. unfold Page.render, Page.enabled, Page.isRecording.
  cbn [Page.state Page.recordingState Page.combinedRecordingUrl
       Page.isVoiceDetected Page.showPreview Page.spinnerShown
       Page.primaryButton Page.stopDisabled Page.settingsDisabled
       Page.voiceIndicator Page.finalRecording].
  destruct rs, url; cbn; repeat split; intros; try reflexivity;
    try discriminate; try congruence.
Qed.

(** ** A granted start *)

(** X14. When both capture requests are granted, [startRecording] of the
    page records exactly the two captured streams: it constructs two
    recorders, the first on the screen stream and the second on the
    webcam stream, starts both with a timeslice of one second, keeps them
    and the streams in the references, schedules the first turn of the
    voice detection and sets the state to recording. *)
Theorem granted_start_records_both_streams
    (scope : Settings) (screenStream webcamStream : MediaStream)
    (data : list N) (w : Page.World) :
  let c := mkCapture (Some screenStream) (Some webcamStream) in
  let screenRecorder := length (recorders (Page.host w)) in
  let webcamRecorder := S screenRecorder in
  let w' := exec (Page.startRecording scope c data) w in
  Page.recordingState (Page.state w') = Page.recording /\
  Page.refs w'
  = Page.mkRefs (Some screenStream) (Some webcamStream) (Some screenRecorder)
      (Some webcamRecorder) (Some Analyser) (Some (nextFrame (Page.host w))) /\
  recorders (Page.host w')
  = recorders (Page.host w)
      ++ [mkRecorder screenStream vp9 true (Some PushChunk)
            (Some (CombineRecordings scope webcamRecorder)) [];
          mkRecorder webcamStream vp9 true (Some PushChunk) None []] /\
  frames (Page.host w')
  = frames (Page.host w) ++ [(nextFrame (Page.host w), CheckAudio)] /\
  filter usesMediaRecorder (Page.effects (Page.startRecording scope c data) w)
  = [NewMediaRecorder screenRecorder screenStream vp9;
     NewMediaRecorder webcamRecorder webcamStream vp9;
     RecorderStart screenRecorder (Some 1000%N);
     RecorderStart webcamRecorder (Some 1000%N)].
Proof.
  destruct w as [[rs url cfg rad pv voice] [ss ws sr wr an af] [R F n T]].
  cbn [Page.host recorders nextFrame frames].
  destruct pv; page_run;
    cbn [Page.showPreview Page.screenStreamRef Page.webcamStreamRef
         Page.audioAnalyserRef]; page_run; heap_norm; page_fields;
    effects_norm; repeat split; reflexivity.
Qed.


(** ** The live recordings of screen-recorder.tsx *)

Lemma nth_error_adjust_same {A : Type} (f : A -> A) (r : nat) (l : list A)
    (x : A) :
  nth_error l r = Some x -> nth_error (adjust f r l) r = Some (f x).
Proof.
  intros H. rewrite nth_error_adjust, Nat.eqb_refl, H. reflexivity.
Qed.

Ltac recorder_fields :=
  cbn [ScreenRecorder.recordingState ScreenRecorder.screenRecordingUrl
       ScreenRecorder.webcamRecordingUrl ScreenRecorder.combinedRecordingUrl
       ScreenRecorder.screenStreamRef ScreenRecorder.webcamStreamRef
       ScreenRecorder.screenRecorderRef ScreenRecorder.webcamRecorderRef].

(** The chunks of the screen recorder accumulate, and each one
    publishes the blob of all the chunks so far. *)
Lemma recorder_deliver_screen (ds : list Blob) (d : Blob)
    (rs : ScreenRecorder.RecordingState) (su wu cu : option Url)
    (rf : ScreenRecorder.Refs) (R : list MediaRecorder)
    (F : list (nat * FrameCallback)) (n : nat) (T : list Effect)
    (r : RecorderId) (s : MediaStream) (mt : option String.string)
    (os : option StopHandler) (ch : list Blob) :
  nth_error R r = Some (mkRecorder s mt true (Some PublishScreenChunk) os ch) ->
  exists (R' : list MediaRecorder) (T' : list Effect),
    ScreenRecorder.run (map (ScreenRecorder.DataAvailable r) (d :: ds))
      (ScreenRecorder.mkWorld (ScreenRecorder.mkState rs su wu cu) rf
         (mkHost R F n T))
    = Some (ScreenRecorder.mkWorld
              (ScreenRecorder.mkState rs
                 (Some (ObjectURL (newBlob (ch ++ d :: ds)))) wu cu)
              rf (mkHost R' F n T')) /\
    nth_error R' r
    = Some (mkRecorder s mt true (Some PublishScreenChunk) os (ch ++ d :: ds)).
Proof.
  revert d su R T ch. induction ds as [|d' ds IH]; intros d su R T ch Hr.
  - cbn [map ScreenRecorder.run ScreenRecorder.enabled]. recorder_run.
    rewrite Hr. recorder_run. recorder_fields.
    pose proof (nth_error_adjust_same
                  (fun m => mkRecorder (stream m) (mimeType m) (running m)
                              (ondataavailable m) (onstop m) (chunks m ++ [d]))
                  _ _ Hr) as Hr'.
    cbv beta iota delta
      [stream mimeType running ondataavailable onstop chunks] in Hr'.
    do 2 eexists. split; [reflexivity|exact Hr'].
  - cbn [map ScreenRecorder.run ScreenRecorder.enabled]. recorder_run.
    rewrite Hr. recorder_run. recorder_fields.
    pose proof (nth_error_adjust_same
                  (fun m => mkRecorder (stream m) (mimeType m) (running m)
                              (ondataavailable m) (onstop m) (chunks m ++ [d]))
                  _ _ Hr) as Hr'.
    cbv beta iota delta
      [stream mimeType running ondataavailable onstop chunks] in Hr'.
    destruct (IH d' (Some (ObjectURL (newBlob (ch ++ [d])))) _
                (T ++ [CreateObjectURL (newBlob (ch ++ [d]))]) _ Hr')
      as (R' & T' & Hrun & Hn).
    cbn [map] in Hrun.
    exists R', T'.
    rewrite <- app_assoc in Hrun, Hn. cbn [app] in Hrun, Hn.
    split; [exact Hrun|exact Hn].
Qed.

Lemma recorder_deliver_webcam (ds : list Blob) (d : Blob)
    (rs : ScreenRecorder.RecordingState) (su wu cu : option Url)
    (rf : ScreenRecorder.Refs) (R : list MediaRecorder)
    (F : list (nat * FrameCallback)) (n : nat) (T : list Effect)
    (r : RecorderId) (s : MediaStream) (mt : option String.string)
    (os : option StopHandler) (ch : list Blob) :
  nth_error R r = Some (mkRecorder s mt true (Some PublishWebcamChunk) os ch) ->
  exists (R' : list MediaRecorder) (T' : list Effect),
    ScreenRecorder.run (map (ScreenRecorder.DataAvailable r) (d :: ds))
      (ScreenRecorder.mkWorld (ScreenRecorder.mkState rs su wu cu) rf
         (mkHost R F n T))
    = Some (ScreenRecorder.mkWorld
              (ScreenRecorder.mkState rs su
                 (Some (ObjectURL (newBlob (ch ++ d :: ds)))) cu)
              rf (mkHost R' F n T')) /\
    nth_error R' r
    = Some (mkRecorder s mt true (Some PublishWebcamChunk) os (ch ++ d :: ds)).
Proof.
  revert d wu R T ch. induction ds as [|d' ds IH]; intros d wu R T ch Hr.
  - cbn [map ScreenRecorder.run ScreenRecorder.enabled]. recorder_run.
    rewrite Hr. recorder_run. recorder_fields.
    pose proof (nth_error_adjust_same
                  (fun m => mkRecorder (stream m) (mimeType m) (running m)
                              (ondataavailable m) (onstop m) (chunks m ++ [d]))
                  _ _ Hr) as Hr'.
    cbv beta iota delta
      [stream mimeType running ondataavailable onstop chunks] in Hr'.
    do 2 eexists. split; [reflexivity|exact Hr'].
  - cbn [map ScreenRecorder.run ScreenRecorder.enabled]. recorder_run.
    rewrite Hr. recorder_run. recorder_fields.
    pose proof (nth_error_adjust_same
                  (fun m => mkRecorder (stream m) (mimeType m) (running m)
                              (ondataavailable m) (onstop m) (chunks m ++ [d]))
                  _ _ Hr) as Hr'.
    cbv beta iota delta
      [stream mimeType running ondataavailable onstop chunks] in Hr'.
    destruct (IH d' (Some (ObjectURL (newBlob (ch ++ [d])))) _
                (T ++ [CreateObjectURL (newBlob (ch ++ [d]))]) _ Hr')
      as (R' & T' & Hrun & Hn).
    cbn [map] in Hrun.
    exists R', T'.
    rewrite <- app_assoc in Hrun, Hn. cbn [app] in Hrun, Hn.
    split; [exact Hrun|exact Hn].
Qed.

(** X15. In screen-recorder.tsx the live recording URLs follow the
    chunks: after the screen (webcam) recorder has delivered one or more
    chunks, the screen (webcam) recording URL is the object URL of the
    blob of all the chunks that recorder has delivered, in the order
    delivered, and the recorder holds exactly these chunks; the recording
    state, the other two URLs, the references and the pending callbacks
    are as they were. *)
Theorem live_recording_url_holds_all_chunks :
  (forall (w : ScreenRecorder.World) (r : RecorderId) (m : MediaRecorder)
          (ds : list Blob),
      ScreenRecorder.recorder r w = Some m -> running m = true ->
      ondataavailable m = Some PublishScreenChunk -> ds <> [] ->
      exists w' : ScreenRecorder.World,
        ScreenRecorder.run (map (ScreenRecorder.DataAvailable r) ds) w
        = Some w' /\
        ScreenRecorder.chunksOf r w' = chunks m ++ ds /\
        ScreenRecorder.state w'
        = ScreenRecorder.mkState
            (ScreenRecorder.recordingState (ScreenRecorder.state w))
            (Some (ObjectURL (newBlob (chunks m ++ ds))))
            (ScreenRecorder.webcamRecordingUrl (ScreenRecorder.state w))
            (ScreenRecorder.combinedRecordingUrl (ScreenRecorder.state w)) /\
        ScreenRecorder.refs w' = ScreenRecorder.refs w /\
        frames (ScreenRecorder.host w') = frames (ScreenRecorder.host w)) /\
  (forall (w : ScreenRecorder.World) (r : RecorderId) (m : MediaRecorder)
          (ds : list Blob),
      ScreenRecorder.recorder r w = Some m -> running m = true ->
      ondataavailable m = Some PublishWebcamChunk -> ds <> [] ->
      exists w' : ScreenRecorder.World,
        ScreenRecorder.run (map (ScreenRecorder.DataAvailable r) ds) w
        = Some w' /\
        ScreenRecorder.chunksOf r w' = chunks m ++ ds /\
        ScreenRecorder.state w'
        = ScreenRecorder.mkState
            (ScreenRecorder.recordingState (ScreenRecorder.state w))
            (ScreenRecorder.screenRecordingUrl (ScreenRecorder.state w))
            (Some (ObjectURL (newBlob (chunks m ++ ds))))
            (ScreenRecorder.combinedRecordingUrl (ScreenRecorder.state w)) /\
        ScreenRecorder.refs w' = ScreenRecorder.refs w /\
        frames (ScreenRecorder.host w') = frames (ScreenRecorder.host w)).
Proof.
  split; intros [[rs su wu cu] rf [R F n T]] r [s mt run od os ch] [|d ds];
    unfold ScreenRecorder.recorder;
    cbn [ScreenRecorder.host ScreenRecorder.state ScreenRecorder.refs recorders
         frames running ondataavailable chunks];
    intros Hr Hrun Hod Hds; try (exfalso; apply Hds; reflexivity);
    subst run od.
  - destruct (@recorder_deliver_screen ds d rs su wu cu rf R F n T r s mt os ch Hr)
      as (R' & T' & Hgo & Hn).
    eexists. split; [exact Hgo|].
    unfold ScreenRecorder.chunksOf, ScreenRecorder.recorder.
    cbn [ScreenRecorder.host ScreenRecorder.state ScreenRecorder.refs recorders
         frames].
    rewrite Hn. recorder_fields. repeat split; reflexivity.
  - destruct (@recorder_deliver_webcam ds d rs su wu cu rf R F n T r s mt os ch Hr)
      as (R' & T' & Hgo & Hn).
    eexists. split; [exact Hgo|].
    unfold ScreenRecorder.chunksOf, ScreenRecorder.recorder.
    cbn [ScreenRecorder.host ScreenRecorder.state ScreenRecorder.refs recorders
         frames].
    rewrite Hn. recorder_fields. repeat split; reflexivity.
Qed.

Lemma live_recording_url_holds_all_chunks_witness :
  (exists w' : ScreenRecorder.World,
      ScreenRecorder.run
        (map (ScreenRecorder.DataAvailable 0%nat) [[1%N; 2%N]; [3%N]])
        startedRecorder = Some w' /\
      ScreenRecorder.chunksOf 0%nat w'
      = chunks freshScreenRecorder ++ [[1%N; 2%N]; [3%N]] /\
      ScreenRecorder.state w'
      = ScreenRecorder.mkState
          (ScreenRecorder.recordingState (ScreenRecorder.state startedRecorder))
          (Some (ObjectURL
                   (newBlob (chunks freshScreenRecorder ++ [[1%N; 2%N]; [3%N]]))))
          (ScreenRecorder.webcamRecordingUrl (ScreenRecorder.state startedRecorder))
          (ScreenRecorder.combinedRecordingUrl
             (ScreenRecorder.state startedRecorder)) /\
      ScreenRecorder.refs w' = ScreenRecorder.refs startedRecorder /\
      frames (ScreenRecorder.host w')
      = frames (ScreenRecorder.host startedRecorder)) /\
  (exists w' : ScreenRecorder.World,
      ScreenRecorder.run
        (map (ScreenRecorder.DataAvailable 1%nat) [[4%N]])
        startedRecorder = Some w' /\
      ScreenRecorder.chunksOf 1%nat w' = chunks freshWebcamRecorder ++ [[4%N]] /\
      ScreenRecorder.state w'
      = ScreenRecorder.mkState
          (ScreenRecorder.recordingState (ScreenRecorder.state startedRecorder))
          (ScreenRecorder.screenRecordingUrl (ScreenRecorder.state startedRecorder))
          (Some (ObjectURL (newBlob (chunks freshWebcamRecorder ++ [[4%N]]))))
          (ScreenRecorder.combinedRecordingUrl
             (ScreenRecorder.state startedRecorder)) /\
      ScreenRecorder.refs w' = ScreenRecorder.refs startedRecorder /\
      frames (ScreenRecorder.host w')
      = frames (ScreenRecorder.host startedRecorder)).
Proof.
  split.
  - apply (proj1 live_recording_url_holds_all_chunks startedRecorder 0%nat
             freshScreenRecorder [[1%N; 2%N]; [3%N]]).
    + vm_compute; reflexivity.
    + reflexivity.
    + reflexivity.
    + discriminate.
  - apply (proj2 live_recording_url_holds_all_chunks startedRecorder 1%nat
             freshWebcamRecorder [[4%N]]).
    + vm_compute; reflexivity.
    + reflexivity.
    + reflexivity.
    + discriminate.
Defined.

(** ** Stopping in screen-recorder.tsx *)

(** X16. [stopRecording] of screen-recorder.tsx, called with both
    recorder references set, stops the two recorders, sets the state to
    idle, stops every track of the two streams and shows the toast that
    announces the combining; what follows are the calls of
    [combineVideos], and there are none exactly when the screen or the
    webcam recording URL is still missing: then nothing is combined,
    although the toast has announced it. *)
Theorem recorder_stop_announces_then_combines
    (w : ScreenRecorder.World) (p : Playback)
    (screenRecorder webcamRecorder : RecorderId) :
  ScreenRecorder.screenRecorderRef (ScreenRecorder.refs w) = Some screenRecorder ->
  ScreenRecorder.webcamRecorderRef (ScreenRecorder.refs w) = Some webcamRecorder ->
  ScreenRecorder.recordingState
    (ScreenRecorder.state (exec (ScreenRecorder.stopRecording p) w))
  = ScreenRecorder.idle /\
  exists combining : list Effect,
    ScreenRecorder.effects (ScreenRecorder.stopRecording p) w
    = [RecorderStop screenRecorder; RecorderStop webcamRecorder]
        ++ map TrackStop
             (tracksOf (ScreenRecorder.screenStreamRef (ScreenRecorder.refs w)))
        ++ map TrackStop
             (tracksOf (ScreenRecorder.webcamStreamRef (ScreenRecorder.refs w)))
        ++ [Toast RecordingStopped] ++ combining /\
    (combining = [] <->
     ScreenRecorder.screenRecordingUrl (ScreenRecorder.state w) = None \/
     ScreenRecorder.webcamRecordingUrl (ScreenRecorder.state w) = None).
Proof.
  destruct w as [[rs su wu cu] [ss ws sr wr] [R F n T]].
  cbn [ScreenRecorder.refs ScreenRecorder.state ScreenRecorder.screenRecorderRef
       ScreenRecorder.webcamRecorderRef ScreenRecorder.screenStreamRef
       ScreenRecorder.webcamStreamRef ScreenRecorder.screenRecordingUrl
       ScreenRecorder.webcamRecordingUrl].
  intros -> ->.
  destruct ss, ws, su, wu;
    destruct p as [[[sm wm]|] [|] cs [[|] [|]] ds]; recorder_run;
    recorder_fields; recorder_run; heap_norm; recorder_fields;
    (split; [reflexivity|]); effects_norm;
    cbn [tracksOf map app];
    eexists; (split; [repeat rewrite <- app_assoc; cbn [app]; reflexivity|]);
    (split; [intros C; try discriminate C; auto
            |intros [C|C]; try discriminate C; reflexivity]).
Qed.

Lemma recorder_stop_announces_then_combines_witness :
  ScreenRecorder.recordingState
    (ScreenRecorder.state
       (exec (ScreenRecorder.stopRecording goodPlayback) startedRecorder))
  = ScreenRecorder.idle /\
  exists combining : list Effect,
    ScreenRecorder.effects (ScreenRecorder.stopRecording goodPlayback)
      startedRecorder
    = [RecorderStop 0%nat; RecorderStop 1%nat]
        ++ map TrackStop
             (tracksOf
                (ScreenRecorder.screenStreamRef
                   (ScreenRecorder.refs startedRecorder)))
        ++ map TrackStop
             (tracksOf
                (ScreenRecorder.webcamStreamRef
                   (ScreenRecorder.refs startedRecorder)))
        ++ [Toast RecordingStopped] ++ combining /\
    (combining = [] <->
     ScreenRecorder.screenRecordingUrl (ScreenRecorder.state startedRecorder)
     = None \/
     ScreenRecorder.webcamRecordingUrl (ScreenRecorder.state startedRecorder)
     = None).
Proof.
  apply (@recorder_stop_announces_then_combines startedRecorder goodPlayback
           0%nat 1%nat).
  - reflexivity.
  - reflexivity.
Defined.

(** ** Published URLs *)

(** X17. A published URL is never cleared.  No click and no event of
    the browser resets the combined recording URL of the page, or the
    screen, webcam or combined recording URL of screen-recorder.tsx, to
    null: in particular starting the next recording keeps the URLs of
    the previous one until new chunks replace them. *)
Theorem published_urls_are_never_cleared :
  (forall (e : Page.Event) (w : Page.World),
      Page.combinedRecordingUrl (Page.state w) <> None ->
      Page.combinedRecordingUrl (Page.state (Page.step e w)) <> None) /\
  (forall (e : ScreenRecorder.Event) (w : ScreenRecorder.World),
      (ScreenRecorder.screenRecordingUrl (ScreenRecorder.state w) <> None ->
       ScreenRecorder.screenRecordingUrl
         (ScreenRecorder.state (ScreenRecorder.step e w)) <> None) /\
      (ScreenRecorder.webcamRecordingUrl (ScreenRecorder.state w) <> None ->
       ScreenRecorder.webcamRecordingUrl
         (ScreenRecorder.state (ScreenRecorder.step e w)) <> None) /\
      (ScreenRecorder.combinedRecordingUrl (ScreenRecorder.state w) <> None ->
       ScreenRecorder.combinedRecordingUrl
         (ScreenRecorder.state (ScreenRecorder.step e w)) <> None)).
Proof.
  split.
  - intros e [[rs url cfg rad pv voice] [ss ws sr wr an af] [R F n T]].
    cbn [Page.state Page.combinedRecordingUrl]. intros Hurl.
    destruct url as [u|]; [clear Hurl|contradiction].
    destruct e as [scope [dm um] data| | | |cfg' rad' pv'|r d|r p|id s d].
    + destruct dm as [dm|]; [destruct um as [um|]|];
        [destruct pv|..]; page_run;
        cbn [Page.showPreview Page.screenStreamRef Page.webcamStreamRef
             Page.audioAnalyserRef]; page_run; page_fields; discriminate.
    + destruct sr, wr; page_run; page_fields; page_run; page_throws;
        page_fields; discriminate.
    + destruct sr, wr; page_run; page_fields; page_run; page_throws;
        page_fields; discriminate.
    + destruct sr, wr, ss, ws, af as [[|id]|]; page_run; page_fields;
        cbn [truthy Nat.eqb negb Page.when]; page_run; page_fields;
        discriminate.
    + page_run. page_fields. discriminate.
    + page_run. destruct (nth_error R r) as [[st m [|] [[| |]|] os ch]|];
        page_run; page_fields; discriminate.
    + page_run.
      destruct (nth_error R r) as [[st m [|] od [[scope wid| |f| |]|] ch]|];
        try destruct p as [[[sm wm]|] [|] cs [[|] [|]] ds];
        page_run; page_fields; discriminate.
    + destruct s as [[|] [|]]; page_run;
        destruct (find _ F) as [[i [c|]]|]; page_run; page_fields;
        discriminate.
  - intros e [[rs su wu cu] [ss ws sr wr] [R F n T]].
    cbn [ScreenRecorder.state ScreenRecorder.screenRecordingUrl
         ScreenRecorder.webcamRecordingUrl ScreenRecorder.combinedRecordingUrl].
    destruct e as [[dm um]| | |p|r d|r|id s].
    + destruct dm as [dm|]; [destruct um as [um|]|]; recorder_run;
        recorder_fields; recorder_run; recorder_fields; auto.
    + destruct sr, wr; recorder_run; recorder_fields; recorder_run;
        recorder_throws; recorder_fields; auto.
    + destruct sr, wr; recorder_run; recorder_fields; recorder_run;
        recorder_throws; recorder_fields; auto.
    + destruct sr, wr, ss, ws, su, wu;
        destruct p as [[[sm wm]|] [|] cs [[|] [|]] ds]; recorder_run;
        recorder_fields; recorder_run; recorder_fields; auto.
    + recorder_run.
      destruct (nth_error R r) as [[st m [|] [[| |]|] os ch]|];
        recorder_run; recorder_fields; auto;
        repeat split; auto; intros; discriminate.
    + recorder_run.
      destruct (nth_error R r) as [[st m [|] od [[| | | |]|] ch]|];
        recorder_run; recorder_fields; auto;
        repeat split; auto; intros; discriminate.
    + destruct s as [[|] [|]]; recorder_run;
        destruct (find _ F) as [[i [c|]]|]; recorder_run; recorder_fields;
        auto.
Qed.


Lemma published_urls_are_never_cleared_witness :
  Page.combinedRecordingUrl
    (Page.state
       (Page.step (Page.ClickStart defaults granted []) publishedPage))
  <> None /\
  ScreenRecorder.screenRecordingUrl
    (ScreenRecorder.state
       (ScreenRecorder.step (ScreenRecorder.ClickStart granted) publishedRecorder))
  <> None /\
  ScreenRecorder.webcamRecordingUrl
    (ScreenRecorder.state
       (ScreenRecorder.step (ScreenRecorder.ClickStart granted) publishedRecorder))
  <> None /\
  ScreenRecorder.combinedRecordingUrl
    (ScreenRecorder.state
       (ScreenRecorder.step (ScreenRecorder.ClickStart granted) publishedRecorder))
  <> None.
Proof.
  split.
  - apply (proj1 published_urls_are_never_cleared
             (Page.ClickStart defaults granted []) publishedPage).
    vm_compute; discriminate.
  - pose proof (proj2 published_urls_are_never_cleared
                  (ScreenRecorder.ClickStart granted) publishedRecorder)
      as (H1 & H2 & H3).
    split; [apply H1; vm_compute; discriminate|].
    split; [apply H2; vm_compute; discriminate
           |apply H3; vm_compute; discriminate].
Defined.

(** ** The callbacks of part_000 *)

Ltac part_exec :=
  cbv beta iota zeta delta
    [exec bind ret get modify Part000.effects Part000.onHost Part000.fromHost
     Part000.onState Part000.onRefs Part000.setRecordingState
     Part000.setScreenRecordingUrl Part000.setWebcamRecordingUrl
     Part000.setCombinedRecordingUrl Part000.setStreamRefs
     Part000.setRecorderRefs Part000.permissionDenied
     Part000.requestPermissions Part000.startRecording Part000.pauseRecording
     Part000.resumeRecording Part000.combineVideos Part000.stopRecording
     Part000.orThrow Part000.cleanup Part000.onDataAvailable Part000.onStop
     Part000.onAnimationFrame Part000.changeSettings Part000.handle
     Part000.step Part000.recorder
     Part000.state Part000.refs Part000.host fst snd];
  host_run.

Ltac part_fields :=
  cbn [Part000.recordingState Part000.screenRecordingUrl
       Part000.webcamRecordingUrl Part000.combinedRecordingUrl
       Part000.settings Part000.screenStreamRef Part000.webcamStreamRef
       Part000.screenRecorderRef Part000.webcamRecorderRef].

(** X18. In part_000, when the screen or the webcam capture is refused,
    [startRecording] records nothing: the state, the references, the
    recorders and the pending callbacks are as they were, and the calls
    made are the capture requests, with the width and height of the
    selected quality as constraints, the console log and the Permission
    denied toast.  The webcam is not asked for once the screen has been
    refused. *)
Theorem part_start_refused_records_nothing (c : Capture) (w : Part000.World) :
  displayMedia c = None \/ userMedia c = None ->
  let size :=
    videoQualities (videoQuality (Part000.settings (Part000.state w))) in
  let w' := exec (Part000.startRecording c) w in
  Part000.state w' = Part000.state w /\
  Part000.refs w' = Part000.refs w /\
  recorders (Part000.host w') = recorders (Part000.host w) /\
  frames (Part000.host w') = frames (Part000.host w) /\
  Part000.effects (Part000.startRecording c) w
  = GetDisplayMedia (Some size)
      :: match displayMedia c with
         | Some _ => [GetUserMedia (Some size)]
         | None => []
         end
      ++ [ConsoleError "Error requesting permissions:"; Toast PermissionDenied].
Proof.
  destruct w as [[rs su wu cu cfg] [ss ws sr wr] [R F n T]].
  destruct c as [[dm|] [um|]]; cbn [displayMedia userMedia];
    intros [H|H]; try discriminate H;
    part_exec; part_fields; effects_norm; repeat split; reflexivity.
Qed.

Lemma part_start_refused_records_nothing_witness :
  let size :=
    videoQualities
      (videoQuality (Part000.settings (Part000.state Part000.initial))) in
  let c := mkCapture (Some sampleScreen) None in
  let w' := exec (Part000.startRecording c) Part000.initial in
  Part000.state w' = Part000.state Part000.initial /\
  Part000.refs w' = Part000.refs Part000.initial /\
  recorders (Part000.host w') = recorders (Part000.host Part000.initial) /\
  frames (Part000.host w') = frames (Part000.host Part000.initial) /\
  Part000.effects (Part000.startRecording c) Part000.initial
  = GetDisplayMedia (Some size)
      :: match displayMedia c with
         | Some _ => [GetUserMedia (Some size)]
         | None => []
         end
      ++ [ConsoleError "Error requesting permissions:"; Toast PermissionDenied].
Proof.
  apply (@part_start_refused_records_nothing
           (mkCapture (Some sampleScreen) None) Part000.initial).
  right. reflexivity.
Defined.

(** X19. In part_000, while the screen recorder reference or the webcam
    recorder reference is null, [pauseRecording], [resumeRecording] and
    [stopRecording] do nothing at all: the world (state, references,
    recorders, pending callbacks and calls made) is unchanged; neither
    does a click on Stop Recording start a combining. *)
Theorem part_guards_turn_controls_into_no_ops
    (w : Part000.World) (p : Playback) :
  Part000.screenRecorderRef (Part000.refs w) = None \/
  Part000.webcamRecorderRef (Part000.refs w) = None ->
  exec Part000.pauseRecording w = w /\
  exec Part000.resumeRecording w = w /\
  exec (Part000.stopRecording p) w = w.
Proof.
  destruct w as [st [ss ws [sr|] [wr|]] h];
    cbn [Part000.refs Part000.screenRecorderRef Part000.webcamRecorderRef];
    intros [H|H]; try discriminate H; repeat split; reflexivity.
Qed.

Lemma part_guards_turn_controls_into_no_ops_witness :
  exec Part000.pauseRecording Part000.initial = Part000.initial /\
  exec Part000.resumeRecording Part000.initial = Part000.initial /\
  exec (Part000.stopRecording goodPlayback) Part000.initial = Part000.initial.
Proof.
  apply (@part_guards_turn_controls_into_no_ops Part000.initial
           goodPlayback).
  left. reflexivity.
Defined.

Ltac find_in :=
  first [ apply in_eq
        | apply in_cons; find_in
        | apply in_or_app; right; find_in ].

(** X20. In part_000 the settings stay editable during a recording, and
    the composite follows them: when Stop Recording is clicked after the
    settings have been changed to [s], with both recordings published
    and loaded and a canvas context, the canvas gets the size of the
    quality of [s], and the webcam frame is drawn at the rectangle
    computed from the size and position of [s]. *)
Theorem part_composite_follows_the_settings
    (w : Part000.World) (s : Settings) (p : Playback)
    (screenRecorder webcamRecorder : RecorderId) (screenUrl webcamUrl : Url)
    (sm wm : VideoMeta) :
  Part000.screenRecorderRef (Part000.refs w) = Some screenRecorder ->
  Part000.webcamRecorderRef (Part000.refs w) = Some webcamRecorder ->
  Part000.screenRecordingUrl (Part000.state w) = Some screenUrl ->
  Part000.webcamRecordingUrl (Part000.state w) = Some webcamUrl ->
  metadata p = Some (sm, wm) -> context2d p = true ->
  let w1 := Part000.step (Part000.ChangeSettings s) w in
  let c := overlayClosure s wm (length (recorders (Part000.host w))) in
  Part000.enabled (Part000.ChangeSettings s) w = true /\
  In (ResizeCanvas (canvasWidth c) (canvasHeight c))
    (Part000.effects (Part000.stopRecording p) w1) /\
  In (DrawImage webcamVideo (webcamX (rect c)) (webcamY (rect c))
        (webcamWidth (rect c)) (webcamHeight (rect c)))
    (Part000.effects (Part000.stopRecording p) w1).
Proof.
  destruct w as [[rs su wu cu cfg] [ss ws sr wr] [R F n T]].
  cbn [Part000.refs Part000.state Part000.screenRecorderRef
       Part000.webcamRecorderRef Part000.screenRecordingUrl
       Part000.webcamRecordingUrl Part000.host recorders].
  intros -> -> -> -> Hm Hc.
  destruct p as [md ctx cs [pa en] ds]. cbn [metadata context2d] in Hm, Hc.
  subst md ctx.
  split; [reflexivity|].
  unfold overlayClosure. cbn [canvasWidth canvasHeight rect].
  destruct ss, ws, pa, en; part_exec; part_fields; part_exec; heap_norm;
    part_fields; effects_norm; split; find_in.
Qed.

Lemma part_composite_follows_the_settings_witness :
  let w := publishingPart in
  let s := mkSettings q720p (mkPosition (Fin 100) (Fin 0)) (Fin 50) in
  let w1 := Part000.step (Part000.ChangeSettings s) w in
  let c := overlayClosure s (mkMeta 1280 720)
             (length (recorders (Part000.host w))) in
  Part000.enabled (Part000.ChangeSettings s) w = true /\
  In (ResizeCanvas (canvasWidth c) (canvasHeight c))
    (Part000.effects (Part000.stopRecording goodPlayback) w1) /\
  In (DrawImage webcamVideo (webcamX (rect c)) (webcamY (rect c))
        (webcamWidth (rect c)) (webcamHeight (rect c)))
    (Part000.effects (Part000.stopRecording goodPlayback) w1).
Proof.
  apply (@part_composite_follows_the_settings publishingPart
           (mkSettings q720p (mkPosition (Fin 100) (Fin 0)) (Fin 50))
           goodPlayback 0%nat 1%nat
           (ObjectURL [10%N; 11%N]) (ObjectURL [12%N; 13%N])
           (mkMeta 1920 1080) (mkMeta 1280 720)).
  - vm_compute; reflexivity.
  - vm_compute; reflexivity.
  - vm_compute; reflexivity.
  - vm_compute; reflexivity.
  - reflexivity.
  - reflexivity.
Defined.


(** ** A recording the browser ends *)

(** X21. When the browser ends the screen recording by itself (the stop
    event of the screen recorder arrives without a click on Stop
    Recording), the page starts the combining and releases nothing: no
    track is stopped, no callback is cancelled, every callback that was
    pending still is (the voice detection goes on), the references are
    as they were and every other recorder, the webcam recorder among
    them, is left as it was. *)
Theorem browser_stop_releases_nothing
    (w : Page.World) (r : RecorderId) (p : Playback) :
  Page.reachable w -> Page.isRecording w = true ->
  Page.screenRecorderRef (Page.refs w) = Some r ->
  let w' := Page.step (Page.Stopped r p) w in
  Page.recordingState (Page.state w') = Page.processing /\
  Page.refs w' = Page.refs w /\
  existsb releasesCapture (Page.effects (Page.onStop r p) w) = false /\
  (forall f, In f (frames (Page.host w)) -> In f (frames (Page.host w'))) /\
  (forall (i : RecorderId) (m : MediaRecorder),
      i <> r -> Page.recorder i w = Some m -> Page.recorder i w' = Some m).
Proof.
  intros Hw Hrec Hr.
  destruct (recording_references Hw Hrec)
    as (a & b & c & d & i & Erefs & _ & m & sc & Hm & Hrun & Hos).
  destruct w as [[rs url cfg rad pv voice] [ss ws sr wr an af] [R F n T]].
  cbn [Page.refs Page.screenRecorderRef] in Hr, Erefs.
  injection Erefs as -> -> -> -> -> ->. injection Hr as ->.
  unfold Page.recorder in *. cbn [Page.host recorders frames] in *.
  destruct m as [st mt run od os ch]. cbn [running onstop] in Hrun, Hos.
  subst run os.
  assert (Hother : forall (R' : list MediaRecorder) (j : RecorderId)
                     (m : MediaRecorder),
             j <> r -> nth_error R j = Some m ->
             nth_error
               (adjust (fun m => mkRecorder (stream m) (mimeType m) false
                                   (ondataavailable m) (onstop m) (chunks m))
                  r R ++ R') j = Some m).
  { intros R' j m Hj Hjm. rewrite nth_error_app1.
    - rewrite nth_error_adjust.
      destruct (Nat.eqb_spec j r); [contradiction|exact Hjm].
    - rewrite length_adjust. apply nth_error_Some. rewrite Hjm. discriminate. }
  cbv beta iota delta
    [stream mimeType running ondataavailable onstop chunks] in Hother.
  page_run. rewrite Hm. page_run.
  destruct p as [[[sm wm]|] [|] cs [[|] [|]] ds]; page_run; heap_norm;
    page_fields; effects_norm;
    (split; [reflexivity|]); (split; [reflexivity|]);
    (split; [reflexivity|]);
    (split; [intros f Hf; try exact Hf; apply in_or_app; left; exact Hf|]);
    intros j m Hj Hjm;
    first [ apply (Hother _ j m Hj Hjm)
          | specialize (Hother [] j m Hj Hjm);
            rewrite app_nil_r in Hother; exact Hother ].
Qed.

Lemma browser_stop_releases_nothing_witness :
  let w := Page.step (Page.ClickStart defaults granted []) Page.initial in
  let w' := Page.step (Page.Stopped 0%nat goodPlayback) w in
  Page.recordingState (Page.state w') = Page.processing /\
  Page.refs w' = Page.refs w /\
  existsb releasesCapture (Page.effects (Page.onStop 0%nat goodPlayback) w)
  = false /\
  (forall f, In f (frames (Page.host w)) -> In f (frames (Page.host w'))) /\
  (forall (i : RecorderId) (m : MediaRecorder),
      i <> 0%nat -> Page.recorder i w = Some m -> Page.recorder i w' = Some m).
Proof.
  apply (@browser_stop_releases_nothing
           (Page.step (Page.ClickStart defaults granted []) Page.initial)
           0%nat goodPlayback).
  - apply Page.reachable_step; [apply Page.reachable_initial|reflexivity].
  - reflexivity.
  - reflexivity.
Defined.

(** ** The references of screen-recorder.tsx *)

Ltac recorder_refs :=
  first [ left; do 4 eexists; reflexivity
        | right; repeat split; reflexivity ].

Lemma recorder_step_references (e : ScreenRecorder.Event)
    (w : ScreenRecorder.World) :
  recorderInvariant w -> recorderInvariant (ScreenRecorder.step e w).
Proof.
  destruct w as [[rs su wu cu] [ss ws sr wr] [R F n T]].
  unfold recorderInvariant.
  cbn [ScreenRecorder.state ScreenRecorder.refs ScreenRecorder.recordingState
       ScreenRecorder.screenRecorderRef ScreenRecorder.webcamRecorderRef].
  intros [(a & b & c & d & [= -> -> -> ->])|(-> & -> & ->)];
    destruct e as [[dm um]| | |p|r d'|r|id s].
  all: try (destruct dm as [dm|]; [destruct um as [um|]|]).
  all: try destruct p as [[[sm wm]|] [|] cs [[|] [|]] ds].
  all: try destruct s as [[|] [|]].
  all: try destruct ss; try destruct ws.
  all: try destruct su; try destruct wu.
  all: recorder_run; recorder_fields; recorder_run; recorder_fields.
  all: try (destruct (nth_error R r)
              as [[st0 mt0 [|] [[| |]|] [[sc0 w0| |f0| |]|] ch0]|]);
    try (destruct (find _ F) as [[i [c'|]]|]);
    recorder_run; recorder_throws; recorder_fields; recorder_refs.
Qed.

Lemma recorder_run_references (es : list ScreenRecorder.Event)
    (w w' : ScreenRecorder.World) :
  recorderInvariant w -> ScreenRecorder.run es w = Some w' ->
  recorderInvariant w'.
Proof.
  revert w. induction es as [|e es IH]; intros w Hw H; simpl in H.
  - injection H as <-. exact Hw.
  - destruct (ScreenRecorder.enabled e w); [|discriminate H].
    apply (IH (ScreenRecorder.step e w)); [|exact H].
    apply recorder_step_references. exact Hw.
Qed.

(** X22. In screen-recorder.tsx the guards of the three controls never
    turn a click into a no-op while the component is not idle: after
    every run from the mounted component in which it is not idle, the
    references hold both streams and both recorders, and Stop Recording
    sets the state to idle.  Pause Recording pauses both recorders and
    sets the state to paused, and Resume Recording resumes both and sets
    it to recording, when neither recorder is inactive.  An inactive
    recorder, one whose recording the browser has ended or on which
    [stop()] was called, throws, and the callback ends there: when it is
    the screen recorder no call is made and the state stays as it was;
    when it is the webcam recorder only, the screen recorder alone is
    paused (resumed) and the state stays as it was. *)
Theorem recorder_controls_pass_the_guard
    (es : list ScreenRecorder.Event) (w : ScreenRecorder.World) :
  ScreenRecorder.run es ScreenRecorder.initial = Some w ->
  ScreenRecorder.recordingState (ScreenRecorder.state w) <> ScreenRecorder.idle ->
  exists (screenStream webcamStream : MediaStream)
         (screenRecorder webcamRecorder : RecorderId),
    let stale :=
      inactive screenRecorder (ScreenRecorder.host w)
      || inactive webcamRecorder (ScreenRecorder.host w) in
    ScreenRecorder.refs w
    = ScreenRecorder.mkRefs (Some screenStream) (Some webcamStream)
        (Some screenRecorder) (Some webcamRecorder) /\
    ScreenRecorder.effects ScreenRecorder.pauseRecording w
    = (if inactive screenRecorder (ScreenRecorder.host w) then []
       else if inactive webcamRecorder (ScreenRecorder.host w)
            then [RecorderPause screenRecorder]
            else [RecorderPause screenRecorder; RecorderPause webcamRecorder]) /\
    ScreenRecorder.recordingState
      (ScreenRecorder.state (ScreenRecorder.step ScreenRecorder.ClickPause w))
    = (if stale then ScreenRecorder.recordingState (ScreenRecorder.state w)
       else ScreenRecorder.paused) /\
    ScreenRecorder.effects ScreenRecorder.resumeRecording w
    = (if inactive screenRecorder (ScreenRecorder.host w) then []
       else if inactive webcamRecorder (ScreenRecorder.host w)
            then [RecorderResume screenRecorder]
            else [RecorderResume screenRecorder;
                  RecorderResume webcamRecorder]) /\
    ScreenRecorder.recordingState
      (ScreenRecorder.state (ScreenRecorder.step ScreenRecorder.ClickResume w))
    = (if stale then ScreenRecorder.recordingState (ScreenRecorder.state w)
       else ScreenRecorder.recording) /\
    forall p : Playback,
      ScreenRecorder.recordingState
        (ScreenRecorder.state
           (ScreenRecorder.step (ScreenRecorder.ClickStop p) w))
      = ScreenRecorder.idle.
Proof.
  intros Hrun Hrs.
  assert (Hinit : recorderInvariant ScreenRecorder.initial)
    by (right; repeat split; reflexivity).
  pose proof (@recorder_run_references es _ w Hinit Hrun) as Hinv.
  destruct w as [[rs su wu cu] [ss ws sr wr] [R F n T]].
  unfold recorderInvariant in Hinv.
  cbn [ScreenRecorder.state ScreenRecorder.refs ScreenRecorder.recordingState
       ScreenRecorder.screenRecorderRef ScreenRecorder.webcamRecorderRef]
    in Hinv, Hrs.
  destruct Hinv as [(a & b & c & d & [= -> -> -> ->])|(-> & _)];
    [|contradiction].
  exists a, b, c, d. cbv zeta. split; [reflexivity|].
  cbn [ScreenRecorder.host ScreenRecorder.state ScreenRecorder.recordingState].
  split; [|split; [|split; [|split]]].
  1, 2, 3, 4:
    recorder_run; recorder_fields; recorder_run;
    destruct (inactive c _); recorder_run;
    rewrite ?inactive_emitted by reflexivity;
    try destruct (inactive d _); recorder_run; recorder_fields;
    effects_norm; reflexivity.
  intros p.
  destruct su, wu; destruct p as [[[sm wm]|] [|] cs [[|] [|]] ds];
    recorder_run; recorder_fields; reflexivity.
Qed.

Lemma recorder_controls_pass_the_guard_witness :
  (inactive 0 (ScreenRecorder.host startedRecorder) = false /\
   inactive 1 (ScreenRecorder.host startedRecorder) = false /\
   exists (screenStream webcamStream : MediaStream)
          (screenRecorder webcamRecorder : RecorderId),
     let stale :=
       inactive screenRecorder (ScreenRecorder.host startedRecorder)
       || inactive webcamRecorder (ScreenRecorder.host startedRecorder) in
     ScreenRecorder.refs startedRecorder
     = ScreenRecorder.mkRefs (Some screenStream) (Some webcamStream)
         (Some screenRecorder) (Some webcamRecorder) /\
     ScreenRecorder.effects ScreenRecorder.pauseRecording startedRecorder
     = (if inactive screenRecorder (ScreenRecorder.host startedRecorder)
        then []
        else if inactive webcamRecorder (ScreenRecorder.host startedRecorder)
             then [RecorderPause screenRecorder]
             else [RecorderPause screenRecorder;
                   RecorderPause webcamRecorder]) /\
     ScreenRecorder.recordingState
       (ScreenRecorder.state
          (ScreenRecorder.step ScreenRecorder.ClickPause startedRecorder))
     = (if stale
        then ScreenRecorder.recordingState
               (ScreenRecorder.state startedRecorder)
        else ScreenRecorder.paused) /\
     ScreenRecorder.effects ScreenRecorder.resumeRecording startedRecorder
     = (if inactive screenRecorder (ScreenRecorder.host startedRecorder)
        then []
        else if inactive webcamRecorder (ScreenRecorder.host startedRecorder)
             then [RecorderResume screenRecorder]
             else [RecorderResume screenRecorder;
                   RecorderResume webcamRecorder]) /\
     ScreenRecorder.recordingState
       (ScreenRecorder.state
          (ScreenRecorder.step ScreenRecorder.ClickResume startedRecorder))
     = (if stale
        then ScreenRecorder.recordingState
               (ScreenRecorder.state startedRecorder)
        else ScreenRecorder.recording) /\
     forall p : Playback,
       ScreenRecorder.recordingState
         (ScreenRecorder.state
            (ScreenRecorder.step (ScreenRecorder.ClickStop p) startedRecorder))
       = ScreenRecorder.idle) /\
  (inactive 0 (ScreenRecorder.host endedRecorder) = true /\
   exists (screenStream webcamStream : MediaStream)
          (screenRecorder webcamRecorder : RecorderId),
     let stale :=
       inactive screenRecorder (ScreenRecorder.host endedRecorder)
       || inactive webcamRecorder (ScreenRecorder.host endedRecorder) in
     ScreenRecorder.refs endedRecorder
     = ScreenRecorder.mkRefs (Some screenStream) (Some webcamStream)
         (Some screenRecorder) (Some webcamRecorder) /\
     ScreenRecorder.effects ScreenRecorder.pauseRecording endedRecorder
     = (if inactive screenRecorder (ScreenRecorder.host endedRecorder)
        then []
        else if inactive webcamRecorder (ScreenRecorder.host endedRecorder)
             then [RecorderPause screenRecorder]
             else [RecorderPause screenRecorder;
                   RecorderPause webcamRecorder]) /\
     ScreenRecorder.recordingState
       (ScreenRecorder.state
          (ScreenRecorder.step ScreenRecorder.ClickPause endedRecorder))
     = (if stale
        then ScreenRecorder.recordingState (ScreenRecorder.state endedRecorder)
        else ScreenRecorder.paused) /\
     ScreenRecorder.effects ScreenRecorder.resumeRecording endedRecorder
     = (if inactive screenRecorder (ScreenRecorder.host endedRecorder)
        then []
        else if inactive webcamRecorder (ScreenRecorder.host endedRecorder)
             then [RecorderResume screenRecorder]
             else [RecorderResume screenRecorder;
                   RecorderResume webcamRecorder]) /\
     ScreenRecorder.recordingState
       (ScreenRecorder.state
          (ScreenRecorder.step ScreenRecorder.ClickResume endedRecorder))
     = (if stale
        then ScreenRecorder.recordingState (ScreenRecorder.state endedRecorder)
        else ScreenRecorder.recording) /\
     forall p : Playback,
       ScreenRecorder.recordingState
         (ScreenRecorder.state
            (ScreenRecorder.step (ScreenRecorder.ClickStop p) endedRecorder))
       = ScreenRecorder.idle).
Proof.
  split.
  - split; [vm_compute; reflexivity|]. split; [vm_compute; reflexivity|].
    apply (@recorder_controls_pass_the_guard
             [ScreenRecorder.ClickStart granted] startedRecorder).
    + vm_compute; reflexivity.
    + vm_compute; discriminate.
  - split; [vm_compute; reflexivity|].
    apply (@recorder_controls_pass_the_guard
             [ScreenRecorder.ClickStart granted; ScreenRecorder.Stopped 0%nat]
             endedRecorder).
    + vm_compute; reflexivity.
    + vm_compute; discriminate.
Defined.


(** ** Where the page is left processing *)

(** A page left with a combining nothing can end shows the spinner and
    no button to start, pause or resume, after every further run. *)
Lemma stuck_forever (w : Page.World) (es : list Page.Event) (w' : Page.World) :
  stuck w -> Page.run es w = Some w' ->
  Page.recordingState (Page.state w') = Page.processing /\
  Page.spinnerShown (Page.render (Page.state w')) = true /\
  Page.primaryButton (Page.render (Page.state w')) = None.
Proof.
  intros Hs Hrun.
  destruct (@stuck_run es _ w' Hs Hrun) as (E & _).
  unfold Page.render. rewrite E. repeat split; reflexivity.
Qed.

(** C4. On page.tsx a recording is started and stopped at once
    ([quickStopRun]): the screen recorder delivers its last chunk, and
    the webcam recorder has delivered none when the stop event of the
    screen recorder arrives.  The stop handler (lines 128-132) combines
    all the same: [combineVideos] sets the state to processing and gives
    the webcam video an empty blob to play.  Such a recording never
    loads, and the page is left processing: after every further run of
    events it shows the spinner and no button to start, pause or resume.
    At the same point [combineVideos] of screen-recorder.tsx, whose
    webcam recording URL is still null, returns at its guard and changes
    nothing.  That guard reads the URLs of the state, which a second
    recording inherits from the first: stopped before its recorders have
    delivered a chunk, the second recording passes the guard, and the
    recordings of the first are played and recorded again. *)
Theorem page_combines_without_webcam_chunks :
  Page.run quickStopRun Page.initial = Some quickStopped /\
  Page.chunksOf 0 quickStopped = [[10%N; 11%N]] /\
  Page.chunksOf 1 quickStopped = [] /\
  Page.recordingState (Page.state quickStopped) = Page.recording /\
  Page.recordingState
    (Page.state (Page.step (Page.Stopped 0 noPlayback) quickStopped))
  = Page.processing /\
  Page.effects (Page.handle (Page.Stopped 0 noPlayback)) quickStopped
  = [CreateVideo screenVideo; CreateVideo webcamVideo;
     CreateObjectURL [10%N; 11%N];
     SetVideoSrc screenVideo (ObjectURL [10%N; 11%N]);
     CreateObjectURL []; SetVideoSrc webcamVideo (ObjectURL [])] /\
  (forall (es : list Page.Event) (w' : Page.World),
      Page.run es (Page.step (Page.Stopped 0 noPlayback) quickStopped)
      = Some w' ->
      Page.recordingState (Page.state w') = Page.processing /\
      Page.spinnerShown (Page.render (Page.state w')) = true /\
      Page.primaryButton (Page.render (Page.state w')) = None) /\
  ScreenRecorder.screenRecordingUrl (ScreenRecorder.state webcamPending)
  = Some (ObjectURL [10%N; 11%N]) /\
  ScreenRecorder.webcamRecordingUrl (ScreenRecorder.state webcamPending)
  = None /\
  (forall p : Playback,
      exec (ScreenRecorder.combineVideos p) webcamPending = webcamPending) /\
  ScreenRecorder.refs restartedRecorder
  = ScreenRecorder.mkRefs (Some sampleScreen) (Some sampleWebcam)
      (Some 3%nat) (Some 4%nat) /\
  option_map chunks
    (nth_error (recorders (ScreenRecorder.host restartedRecorder)) 3)
  = Some [] /\
  option_map chunks
    (nth_error (recorders (ScreenRecorder.host restartedRecorder)) 4)
  = Some [] /\
  filter usesMediaRecorder
    (ScreenRecorder.effects
       (ScreenRecorder.handle (ScreenRecorder.ClickStop goodPlayback))
       restartedRecorder)
  = [NewMediaRecorder 5 [mkTrack 5 VideoTrack] (Some "video/webm");
     RecorderStart 5 None] /\
  In (SetVideoSrc screenVideo (ObjectURL [10%N; 11%N]))
    (ScreenRecorder.effects
       (ScreenRecorder.handle (ScreenRecorder.ClickStop goodPlayback))
       restartedRecorder) /\
  In (SetVideoSrc webcamVideo (ObjectURL [12%N; 13%N]))
    (ScreenRecorder.effects
       (ScreenRecorder.handle (ScreenRecorder.ClickStop goodPlayback))
       restartedRecorder).
Proof.
  assert (Hrun : Page.run quickStopRun Page.initial = Some quickStopped)
    by (vm_compute; reflexivity).
  split; [exact Hrun|].
  do 5 (split; [vm_compute; reflexivity|]).
  split.
  - intros es w'. apply stuck_forever.
    apply failed_combining_is_stuck.
    + exact (@run_reachable _ _ _ Page.reachable_initial Hrun).
    + vm_compute; reflexivity.
    + vm_compute; reflexivity.
    + left. reflexivity.
  - split; [vm_compute; reflexivity|]. split; [vm_compute; reflexivity|].
    split.
    { intros p. apply recorder_combine_guard. right. vm_compute; reflexivity. }
    do 4 (split; [vm_compute; reflexivity|]).
    split; vm_compute; auto 20.
Qed.

